(** * monday-backend: webhook ingestion, retrying GraphQL client and
      calculation orchestration, embedded and verified.

    The development follows the TypeScript sources:
    - [services/MondayApiService.ts]  (retry policy, the four GraphQL operations),
    - [services/CalculationService.ts] (factor store, audit log, orchestrator),
    - [webhooks/MondayWebhookHandler.ts] (challenge echo, filtering),
    - [models/Factor.ts], [models/History.ts], [routes/items.ts].

    JavaScript numbers are IEEE-754 binary64 values, modelled by the kernel's
    primitive floats.  Asynchronous functions are modelled sequentially by a
    state-and-exception monad over a [World] that holds the two collections,
    the trace of observable effects and the oracles that decide how the
    network and the document store behave. *)

From Stdlib Require Import ZArith Lia Bool List Ascii String.
From Corelib Require Import PrimFloat SpecFloat FloatOps FloatAxioms.
From stdpp Require Import base option list gmap strings pretty.

Import ListNotations.
Local Open Scope Z_scope.
Set Warnings "-register-all".

(* ===================================================================== *)
(** ** JavaScript values *)
(* ===================================================================== *)

(** Values that reach the handlers: a parsed JSON document, plus [undefined]
    for an absent body or property. *)
Inductive JsValue : Type :=
| JUndefined
| JNull
| JBool (b : bool)
| JNum (n : float)
| JStr (s : string)
| JArr (elems : list JsValue)
| JObj (fields : list (string * JsValue)).

(** Thrown values.  [ErrorObj name message statusCode] is an [Error] object
    ([name] is [error.constructor.name]; [statusCode] is set on an [ApiError]);
    [ThrownUndefined] is what [throw lastError!] throws when no attempt ran. *)
Inductive JsError : Type :=
| ErrorObj (name message : string) (statusCode : option Z)
| ThrownUndefined.

Definition newError (message : string) : JsError := ErrorObj "Error" message None.
Definition typeError (message : string) : JsError := ErrorObj "TypeError" message None.

(** Outcome of evaluating an expression or awaiting a promise. *)
Inductive Res (A : Type) : Type :=
| Ok (a : A)
| Throw (e : JsError).
Arguments Ok {A} a.
Arguments Throw {A} e.

Module Js.

(** [ToBoolean]. *)
Definition truthy (v : JsValue) : bool :=
  match v with
  | JUndefined | JNull => false
  | JBool b => b
  | JNum n => negb (PrimFloat.is_zero n || PrimFloat.is_nan n)
  | JStr s => negb (String.eqb s "")
  | JArr _ | JObj _ => true
  end.

Definition nullish (v : JsValue) : bool :=
  match v with
  | JUndefined | JNull => true
  | _ => false
  end.

Fixpoint lookupField (k : string) (fields : list (string * JsValue)) : JsValue :=
  match fields with
  | [] => JUndefined
  | (k', v) :: rest => if String.eqb k k' then v else lookupField k rest
  end.

(** [v.k] for the property names the handlers read ([challenge], [event],
    [type], [columnId], [pulseId], [value], [previousValue]); none of them
    is a property of a primitive wrapper or of an array. *)
Definition prop (v : JsValue) (k : string) : Res JsValue :=
  match v with
  | JUndefined | JNull => Throw (typeError "Cannot read properties of undefined")
  | JObj fields => Ok (lookupField k fields)
  | _ => Ok JUndefined
  end.

(** [v?.k]. *)
Definition optProp (v : JsValue) (k : string) : JsValue :=
  match v with
  | JObj fields => lookupField k fields
  | _ => JUndefined
  end.

(** [a || b]. *)
Definition or (a b : JsValue) : JsValue := if truthy a then a else b.

(** [v === s] for a string [s]. *)
Definition strictEqStr (v : JsValue) (s : string) : bool :=
  match v with
  | JStr s' => String.eqb s' s
  | _ => false
  end.

Definition join (sep : string) (parts : list string) : string :=
  match parts with
  | [] => ""
  | p :: ps => fold_left (fun acc q => acc +:+ sep +:+ q) ps p
  end.

(** Does the object have an own property [k]. *)
Fixpoint hasField (k : string) (fields : list (string * JsValue)) : bool :=
  match fields with
  | [] => false
  | (k', _) :: rest => String.eqb k k' || hasField k rest
  end.

(** A value of the TypeScript type [string | number]. *)
Inductive StringOrNumber : Type :=
| Str (s : string)
| Num (n : float).

Section ToString.

(** [Number::toString], a built-in of the language. *)
Variable numberToString : float -> string.

(** [String(v)] for [v : string | number]. *)
Definition stringOf (v : StringOrNumber) : string :=
  match v with
  | Str s => s
  | Num n => numberToString n
  end.

(** [String(v)] and the conversion of [v] in a template literal.  An object
    parsed from JSON converts through [Object.prototype.toString] unless it
    has an own property "toString": that property is no function, [valueOf]
    returns the object itself, and the conversion throws a [TypeError].  An
    array converts through [join], which converts its elements in order
    ([null] as the empty string) and throws when one of them does. *)
Fixpoint toString (v : JsValue) : Res string :=
  match v with
  | JUndefined => Ok "undefined"
  | JNull => Ok "null"
  | JBool true => Ok "true"
  | JBool false => Ok "false"
  | JNum n => Ok (numberToString n)
  | JStr s => Ok s
  | JArr elems =>
      match
        (fix each (l : list JsValue) : Res (list string) :=
           match l with
           | [] => Ok []
           | e :: rest =>
               match (if nullish e then Ok "" else toString e) with
               | Throw err => Throw err
               | Ok part =>
                   match each rest with
                   | Throw err => Throw err
                   | Ok parts => Ok (part :: parts)
                   end
               end
           end) elems
      with
      | Throw err => Throw err
      | Ok parts => Ok (join "," parts)
      end
  | JObj fields =>
      if hasField "toString" fields
      then Throw (typeError "Cannot convert object to primitive value")
      else Ok "[object Object]"
  end.

End ToString.

End Js.

(* ===================================================================== *)
(** ** Types ([types/index.ts]) *)
(* ===================================================================== *)

Module RetryConfig.
(** Counts and milliseconds; the configured values are integers. *)
Record t : Type := mk {
  maxRetries : Z;
  baseDelay : Z;
  maxDelay : Z;
  backoffFactor : Z
}.
End RetryConfig.

Module MondayColumnValue.
Record t : Type := mk {
  id : string;
  text : option string;      (* [null] for an empty column *)
  value : option string;
  type : string
}.
End MondayColumnValue.

Module MondayItem.
Record t : Type := mk {
  id : string;
  name : string;
  column_values : option (list MondayColumnValue.t)
}.
End MondayItem.

Module MondayBoard.
Record t : Type := mk {
  id : string;
  name : string;
  items_page : option (list MondayItem.t)
}.
End MondayBoard.

(** The [data] member of a GraphQL response, for the four operations. *)
Module GqlData.
Record t : Type := mk {
  items : option (list MondayItem.t);
  change_column_value : option string;
  boards : option (list MondayBoard.t)
}.
End GqlData.

(** [MondayApiResponse]: [errors] holds the messages of the error objects. *)
Module MondayApiResponse.
Record t : Type := mk {
  data : option GqlData.t;
  errors : option (list string)
}.
End MondayApiResponse.

Inductive TriggerType : Type := api | webhook | system.

Inductive HistoryAction : Type := factor_updated | recalculation | webhook_triggered.

(** The three shapes of [metadata] the service writes. *)
Inductive Metadata : Type :=
| MetaCalculation (factor : float) (calculation : string)
| MetaChange (change : string)
| MetaError (error errorType : string).

Module HistoryDocument.
Record t : Type := mk {
  itemId : string;
  action : HistoryAction;
  oldValue : option float;
  newValue : float;
  inputValue : option float;
  resultValue : option float;
  triggeredBy : TriggerType;
  metadata : Metadata
}.
End HistoryDocument.

(* ===================================================================== *)
(** ** The world: collections, effects and oracles *)
(* ===================================================================== *)

(** What axios reports for a request that did not resolve: [response] is the
    status of a non-2xx answer, [request] says that the request was sent
    (no answer: unreachable host or the 30s timeout). *)
Module AxiosError.
Record t : Type := mk {
  message : string;
  response : option Z;
  request : bool
}.
End AxiosError.

(** A resolved post carries a 2xx answer. *)
Inductive PostOutcome : Type :=
| Rejected (e : AxiosError.t)
| Resolved (r : MondayApiResponse.t).

(** The GraphQL operation and its variables. *)
Inductive GqlRequest : Type :=
| GetItem (itemId boardId : string)
| UpdateColumnValue (itemId columnId value : string) (boardId : option string)
| GetColumnValue (itemId columnId : string)
| GetBoardById (boardId : string).

(** Observable effects, in the order they happen. *)
Inductive Event : Type :=
| EvPost (req : GqlRequest)                  (* one HTTP attempt *)
| EvSleep (ms : Z)                           (* [sleep(ms)] *)
| EvRespond (status : Z) (body : JsValue).   (* [res.status(..).json(..)] *)

Record World : Type := mkWorld {
  factors : gmap string float;        (* Factor collection, keyed by itemId *)
  history : list HistoryDocument.t;   (* History collection, oldest first *)
  trace : list Event;
  net : nat -> PostOutcome;           (* outcome of the n-th post *)
  posts : nat;                        (* posts made so far *)
  storeFault : nat -> bool;           (* does the n-th store operation fail *)
  storeOps : nat                      (* store operations made so far *)
}.

Definition setFactors (f : gmap string float) (w : World) : World :=
  mkWorld f (history w) (trace w) (net w) (posts w) (storeFault w) (storeOps w).

Definition setHistory (h : list HistoryDocument.t) (w : World) : World :=
  mkWorld (factors w) h (trace w) (net w) (posts w) (storeFault w) (storeOps w).

Definition logEvent (ev : Event) (w : World) : World :=
  mkWorld (factors w) (history w) (trace w ++ [ev]) (net w) (posts w)
          (storeFault w) (storeOps w).

Definition countPost (w : World) : World :=
  mkWorld (factors w) (history w) (trace w) (net w) (S (posts w))
          (storeFault w) (storeOps w).

Definition countStoreOp (w : World) : World :=
  mkWorld (factors w) (history w) (trace w) (net w) (posts w)
          (storeFault w) (S (storeOps w)).

(** Computations: promises awaited in sequence. *)
Definition M (A : Type) : Type := World -> Res A * World.

Definition ret {A} (a : A) : M A := fun w => (Ok a, w).

Definition throw {A} (e : JsError) : M A := fun w => (Throw e, w).

Definition bind {A B} (m : M A) (k : A -> M B) : M B :=
  fun w => match m w with
           | (Ok a, w') => k a w'
           | (Throw e, w') => (Throw e, w')
           end.

(** [try { m } catch (e) { h e }]. *)
Definition tryCatch {A} (m : M A) (h : JsError -> M A) : M A :=
  fun w => match m w with
           | (Ok a, w') => (Ok a, w')
           | (Throw e, w') => h e w'
           end.

Definition liftRes {A} (r : Res A) : M A := fun w => (r, w).

Notation "'let*' x ':=' m 'in' k" := (bind m (fun x => k))
  (at level 10, x name, m at level 100, k at level 200).
Notation "m ';;' k" := (bind m (fun _ => k))
  (at level 100, k at level 200, right associativity).

(** [sleep(ms)]. *)
Definition sleep (ms : Z) : M unit := fun w => (Ok tt, logEvent (EvSleep ms) w).

(** One round trip to the document store; the oracle decides whether the
    store rejects it (connection loss, cast or write error). *)
Definition storeOp : M unit :=
  fun w => if storeFault w (storeOps w)
           then (Throw (ErrorObj "MongoError" "store operation failed" None), countStoreOp w)
           else (Ok tt, countStoreOp w).

(* ===================================================================== *)
(** ** Models ([models/Factor.ts], [models/History.ts]) *)
(* ===================================================================== *)

Module Factor.

(** [factor: { type: Number, required: true, min: 0, default: 1 }]: the
    [min] validator accepts [v >= 0]. *)
Definition validate (factor : float) : bool := PrimFloat.leb 0 factor.

Definition validationError : JsError :=
  ErrorObj "ValidationError" "Factor validation failed" None.

(** [Factor.findOne({ itemId })]. *)
Definition findOne (itemId : string) : M (option float) :=
  storeOp ;; fun w => (Ok (factors w !! itemId), w).

(** [existingFactor.factor = newFactor; existingFactor.save()]: validation
    runs before the write. *)
Definition save (itemId : string) (newFactor : float) : M unit :=
  if validate newFactor
  then storeOp ;; fun w => (Ok tt, setFactors (<[itemId := newFactor]> (factors w)) w)
  else throw validationError.

(** [Factor.create({ itemId, factor })]; [itemId] is a unique key. *)
Definition create (itemId : string) (factor : float) : M unit :=
  if validate factor
  then storeOp ;;
       fun w => match factors w !! itemId with
                | Some _ => (Throw (ErrorObj "MongoServerError" "E11000 duplicate key" None), w)
                | None => (Ok tt, setFactors (<[itemId := factor]> (factors w)) w)
                end
  else throw validationError.

End Factor.

Module History.

(** [History.create(doc)]: appends when the store accepts the document. *)
Definition create (doc : HistoryDocument.t) : M unit :=
  storeOp ;; fun w => (Ok tt, setHistory (history w ++ [doc]) w).

End History.

(* ===================================================================== *)
(** ** The remote board client ([services/MondayApiService.ts]) *)
(* ===================================================================== *)

Module PartialRetryConfig.
(** [Partial<RetryConfig>]. *)
Record t : Type := mk {
  maxRetries : option Z;
  baseDelay : option Z;
  maxDelay : option Z;
  backoffFactor : option Z
}.
Definition empty : t := mk None None None None.
End PartialRetryConfig.

Module MondayApiServiceConfig.
Record t : Type := mk {
  apiToken : string;
  retryConfig : option PartialRetryConfig.t
}.
End MondayApiServiceConfig.

(** The object [createMondayApiService] returns. *)
Module MondayApi.
Record t : Type := mk {
  getItem : string -> string -> M MondayItem.t;
  updateColumnValue : string -> string -> Js.StringOrNumber -> option string -> M bool;
  getColumnValue : string -> string -> M (option string);
  getBoardById : string -> M (option MondayBoard.t)
}.
End MondayApi.

Module MondayApiService.

Definition defaultRetryConfig : RetryConfig.t :=
  {| RetryConfig.maxRetries := 3;
     RetryConfig.baseDelay := 1000;
     RetryConfig.maxDelay := 10000;
     RetryConfig.backoffFactor := 2 |}.

(** [{ ...defaultRetryConfig, ...retryConfig }]. *)
Definition mergeRetryConfig (d : RetryConfig.t) (p : PartialRetryConfig.t) : RetryConfig.t :=
  {| RetryConfig.maxRetries := default (RetryConfig.maxRetries d) (PartialRetryConfig.maxRetries p);
     RetryConfig.baseDelay := default (RetryConfig.baseDelay d) (PartialRetryConfig.baseDelay p);
     RetryConfig.maxDelay := default (RetryConfig.maxDelay d) (PartialRetryConfig.maxDelay p);
     RetryConfig.backoffFactor :=
       default (RetryConfig.backoffFactor d) (PartialRetryConfig.backoffFactor p) |}.

Definition handleApiError (error : AxiosError.t) : JsError :=
  match AxiosError.response error with
  | Some status =>
      ErrorObj "Error"
        ("Monday API Error " +:+ pretty status +:+ ": " +:+ AxiosError.message error)
        (Some status)
  | None =>
      if AxiosError.request error
      then ErrorObj "Error" "Monday API is unreachable" (Some 503)
      else ErrorObj "Error" "Unexpected error occurred" (Some 500)
  end.

(** [client.post('', { query, variables })] through the interceptors: the
    response interceptor rejects with [handleApiError error]. *)
Definition post (req : GqlRequest) : M MondayApiResponse.t :=
  fun w =>
    let w' := countPost (logEvent (EvPost req) w) in
    match net w (posts w) with
    | Rejected e => (Throw (handleApiError e), w')
    | Resolved r => (Ok r, w')
    end.

(** [throw lastError!] after the loop. *)
Definition throwLast {T} (lastError : option JsError) : M T :=
  throw (default ThrownUndefined lastError).

(** The [for] loop of [executeWithRetry], from [attempt]; [fuel] bounds the
    iterations left ([maxRetries + 1 - attempt] of them can run). *)
Fixpoint retryLoop {T} (operation : M T) (retryConfig : RetryConfig.t)
    (fuel : nat) (attempt : Z) (lastError : option JsError) : M T :=
  match fuel with
  | O => throwLast lastError
  | S fuel' =>
      if attempt <=? RetryConfig.maxRetries retryConfig then
        tryCatch operation (fun error =>
          if attempt =? RetryConfig.maxRetries retryConfig then throw error
          else
            let delay :=
              Z.min (RetryConfig.baseDelay retryConfig
                     * RetryConfig.backoffFactor retryConfig ^ attempt)
                    (RetryConfig.maxDelay retryConfig) in
            sleep delay ;;
            retryLoop operation retryConfig fuel' (attempt + 1) (Some error))
      else throwLast lastError
  end.

Definition executeWithRetry {T} (operation : M T) (context : string)
    (retryConfig : RetryConfig.t) : M T :=
  retryLoop operation retryConfig
    (Z.to_nat (RetryConfig.maxRetries retryConfig + 1)) 0 None.

(** [response.data.errors && response.data.errors.length > 0]. *)
Definition hasErrors (response : MondayApiResponse.t) : bool :=
  match MondayApiResponse.errors response with
  | Some (_ :: _) => true
  | _ => false
  end.

(** [response.data.errors[0]?.message || 'Unknown error']. *)
Definition firstErrorMessage (response : MondayApiResponse.t) : string :=
  match MondayApiResponse.errors response with
  | Some (m :: _) => if String.eqb m "" then "Unknown error" else m
  | _ => "Unknown error"
  end.

Definition graphqlError (response : MondayApiResponse.t) : JsError :=
  newError ("Monday API Error: " +:+ firstErrorMessage response).

(** Reading a member of [response.data.data] when it is [null]. *)
Definition nullData : JsError := typeError "Cannot read properties of null".

Section Service.

(** [Number::toString], a built-in of the language. *)
Variable numberToString : float -> string.
(** [process.env.DEFAULT_BOARD_ID]. *)
Variable DEFAULT_BOARD_ID : option string.
Variable finalRetryConfig : RetryConfig.t.

Definition getItem (itemId boardId : string) : M MondayItem.t :=
  let* response :=
    executeWithRetry (post (GetItem itemId boardId)) ("Get item " +:+ itemId)
      finalRetryConfig in
  if hasErrors response then throw (graphqlError response)
  else match MondayApiResponse.data response with
       | None => throw nullData
       | Some d =>
           match GqlData.items d with
           | None | Some [] => throw (newError ("Item " +:+ itemId +:+ " not found"))
           | Some (item :: _) => ret item
           end
       end.

(** [boardId || process.env.DEFAULT_BOARD_ID]. *)
Definition boardOrDefault (boardId : option string) : option string :=
  match boardId with
  | Some b => if String.eqb b "" then DEFAULT_BOARD_ID else Some b
  | None => DEFAULT_BOARD_ID
  end.

Definition updateColumnValue (itemId columnId : string) (value : Js.StringOrNumber)
    (boardId : option string) : M bool :=
  let* response :=
    executeWithRetry
      (post (UpdateColumnValue itemId columnId (Js.stringOf numberToString value)
               (boardOrDefault boardId)))
      ("Update column " +:+ columnId +:+ " for item " +:+ itemId)
      finalRetryConfig in
  if hasErrors response then throw (graphqlError response)
  else match MondayApiResponse.data response with
       | None => throw nullData
       | Some d => ret (bool_decide (is_Some (GqlData.change_column_value d)))
       end.

Definition getColumnValue (itemId columnId : string) : M (option string) :=
  let* response :=
    executeWithRetry (post (GetColumnValue itemId columnId))
      ("Get column " +:+ columnId +:+ " value for item " +:+ itemId)
      finalRetryConfig in
  if hasErrors response then throw (graphqlError response)
  else match MondayApiResponse.data response with
       | None => throw nullData
       | Some d =>
           match GqlData.items d with
           | None | Some [] => ret None
           | Some (item :: _) =>
               match MondayItem.column_values item with
               | Some (cv :: _) =>
                   match MondayColumnValue.text cv with
                   | Some s => ret (if String.eqb s "" then None else Some s)
                   | None => ret None
                   end
               | _ => ret None
               end
           end
       end.

Definition getBoardById (boardId : string) : M (option MondayBoard.t) :=
  let* response :=
    executeWithRetry (post (GetBoardById boardId)) ("Get board " +:+ boardId)
      finalRetryConfig in
  if hasErrors response then throw (graphqlError response)
  else match MondayApiResponse.data response with
       | None => throw nullData
       | Some d =>
           match GqlData.boards d with
           | None => throw nullData
           | Some bs => ret (head bs)
           end
       end.

Definition service : MondayApi.t :=
  {| MondayApi.getItem := getItem;
     MondayApi.updateColumnValue := updateColumnValue;
     MondayApi.getColumnValue := getColumnValue;
     MondayApi.getBoardById := getBoardById |}.

End Service.

Definition createMondayApiService (numberToString : float -> string)
    (DEFAULT_BOARD_ID : option string) (config : MondayApiServiceConfig.t) : MondayApi.t :=
  let retryConfig :=
    default PartialRetryConfig.empty (MondayApiServiceConfig.retryConfig config) in
  let finalRetryConfig := mergeRetryConfig defaultRetryConfig retryConfig in
  service numberToString DEFAULT_BOARD_ID finalRetryConfig.

End MondayApiService.

(* ===================================================================== *)
(** ** The calculation service ([services/CalculationService.ts]) *)
(* ===================================================================== *)

Module CalculationResult.
Record t : Type := mk {
  inputValue : float;
  factor : float;
  resultValue : float;
  success : bool
}.
End CalculationResult.

Module FactorUpdateResult.
Record t : Type := mk {
  oldFactor : option float;
  newFactor : float;
  success : bool
}.
End FactorUpdateResult.

(** The object [createCalculationService] returns. *)
Module CalculationApi.
Record t : Type := mk {
  calculateAndUpdateResult : string -> TriggerType -> M CalculationResult.t;
  updateFactor : string -> float -> TriggerType -> M FactorUpdateResult.t;
  getFactor : string -> M (option float);
  getAllItems : string -> M (list MondayItem.t)
}.
End CalculationApi.

Module CalculationService.

(** [doc?.factor || null]: a falsy factor (0, -0, NaN) becomes [null]. *)
Definition factorOrNull (doc : option float) : option float :=
  match doc with
  | Some f => if Js.truthy (JNum f) then Some f else None
  | None => None
  end.

Section Service.

(** [parseFloat] and [Number::toString], built-ins of the language. *)
Variable parseFloat : string -> float.
Variable numberToString : float -> string.
(** [process.env.DEFAULT_BOARD_ID]. *)
Variable DEFAULT_BOARD_ID : option string.
(** The configuration [{ mondayApi, inputColumnId, resultColumnId }]. *)
Variable mondayApi : MondayApi.t.
Variable inputColumnId : string.
Variable resultColumnId : string.

Definition calculateResult (inputValue factor : float) : float :=
  PrimFloat.mul inputValue factor.

Definition validateInputValue (inputValueText : string) : Res float :=
  let inputValue := parseFloat inputValueText in
  if PrimFloat.is_nan inputValue
  then Throw (newError ("Invalid input value: " +:+ inputValueText))
  else Ok inputValue.

Definition calculationDoc (itemId : string) (inputValue factor resultValue : float)
    (triggeredBy : TriggerType) : HistoryDocument.t :=
  {| HistoryDocument.itemId := itemId;
     HistoryDocument.action := recalculation;
     HistoryDocument.oldValue := None;
     HistoryDocument.newValue := resultValue;
     HistoryDocument.inputValue := Some inputValue;
     HistoryDocument.resultValue := Some resultValue;
     HistoryDocument.triggeredBy := triggeredBy;
     HistoryDocument.metadata :=
       MetaCalculation factor
         (numberToString inputValue +:+ " * " +:+ numberToString factor
          +:+ " = " +:+ numberToString resultValue) |}.

Definition logCalculation (itemId : string) (inputValue factor resultValue : float)
    (triggeredBy : TriggerType) : M unit :=
  tryCatch
    (History.create (calculationDoc itemId inputValue factor resultValue triggeredBy))
    (fun _ => ret tt).

Definition factorUpdateDoc (itemId : string) (oldFactor : option float)
    (newFactor : float) (triggeredBy : TriggerType) : HistoryDocument.t :=
  {| HistoryDocument.itemId := itemId;
     HistoryDocument.action := factor_updated;
     HistoryDocument.oldValue := oldFactor;
     HistoryDocument.newValue := newFactor;
     HistoryDocument.inputValue := None;
     HistoryDocument.resultValue := None;
     HistoryDocument.triggeredBy := triggeredBy;
     HistoryDocument.metadata :=
       MetaChange
         match factorOrNull oldFactor with
         | Some old => numberToString old +:+ " → " +:+ numberToString newFactor
         | None => "New factor: " +:+ numberToString newFactor
         end |}.

Definition logFactorUpdate (itemId : string) (oldFactor : option float)
    (newFactor : float) (triggeredBy : TriggerType) : M unit :=
  tryCatch
    (History.create (factorUpdateDoc itemId oldFactor newFactor triggeredBy))
    (fun _ => ret tt).

Definition errorDoc (itemId : string) (name message : string)
    (triggeredBy : TriggerType) : HistoryDocument.t :=
  {| HistoryDocument.itemId := itemId;
     HistoryDocument.action := recalculation;
     HistoryDocument.oldValue := None;
     HistoryDocument.newValue := 0%float;
     HistoryDocument.inputValue := None;
     HistoryDocument.resultValue := None;
     HistoryDocument.triggeredBy := triggeredBy;
     HistoryDocument.metadata := MetaError message name |}.

(** Reading [error.message] of a thrown [undefined] throws inside the [try]. *)
Definition logError (itemId : string) (error : JsError) (triggeredBy : TriggerType) : M unit :=
  tryCatch
    match error with
    | ErrorObj name message _ => History.create (errorDoc itemId name message triggeredBy)
    | ThrownUndefined => throw (typeError "Cannot read properties of undefined")
    end
    (fun _ => ret tt).

Definition failedCalculation : CalculationResult.t :=
  {| CalculationResult.inputValue := 0%float;
     CalculationResult.factor := 0%float;
     CalculationResult.resultValue := 0%float;
     CalculationResult.success := false |}.

Definition calculateAndUpdateResult (itemId : string) (triggeredBy : TriggerType)
    : M CalculationResult.t :=
  tryCatch
    (let* factorDoc := Factor.findOne itemId in
     match factorDoc with
     | None => throw (newError ("No factor found for item " +:+ itemId))
     | Some factor =>
         let* inputValueText := MondayApi.getColumnValue mondayApi itemId inputColumnId in
         match inputValueText with
         | None => throw (newError ("No input value found for item " +:+ itemId))
         | Some text =>
             if String.eqb text ""
             then throw (newError ("No input value found for item " +:+ itemId))
             else
               let* inputValue := liftRes (validateInputValue text) in
               let resultValue := calculateResult inputValue factor in
               let* updateSuccess :=
                 MondayApi.updateColumnValue mondayApi itemId resultColumnId
                   (Js.Num resultValue) DEFAULT_BOARD_ID in
               if negb updateSuccess
               then throw (newError "Failed to update result column in Monday.com")
               else
                 logCalculation itemId inputValue factor resultValue triggeredBy ;;
                 ret {| CalculationResult.inputValue := inputValue;
                        CalculationResult.factor := factor;
                        CalculationResult.resultValue := resultValue;
                        CalculationResult.success := true |}
         end
     end)
    (fun error =>
       logError itemId error triggeredBy ;;
       ret failedCalculation).

Definition failedFactorUpdate : FactorUpdateResult.t :=
  {| FactorUpdateResult.oldFactor := None;
     FactorUpdateResult.newFactor := 0%float;
     FactorUpdateResult.success := false |}.

Definition updateFactor (itemId : string) (newFactor : float) (triggeredBy : TriggerType)
    : M FactorUpdateResult.t :=
  tryCatch
    (let* existingFactor := Factor.findOne itemId in
     let oldFactor := factorOrNull existingFactor in
     match existingFactor with
     | Some _ => Factor.save itemId newFactor
     | None => Factor.create itemId newFactor
     end ;;
     logFactorUpdate itemId oldFactor newFactor triggeredBy ;;
     ret {| FactorUpdateResult.oldFactor := oldFactor;
            FactorUpdateResult.newFactor := newFactor;
            FactorUpdateResult.success := true |})
    (fun _ => ret failedFactorUpdate).

Definition getFactor (itemId : string) : M (option float) :=
  tryCatch
    (let* factorDoc := Factor.findOne itemId in
     ret (factorOrNull factorDoc))
    (fun _ => ret None).

(** [board.items_page?.items || []]; reading [items_page] of a missing board throws. *)
Definition getAllItems (boardId : string) : M (list MondayItem.t) :=
  tryCatch
    (let* board := MondayApi.getBoardById mondayApi boardId in
     match board with
     | None => throw (typeError "Cannot read properties of undefined")
     | Some b => ret (default [] (MondayBoard.items_page b))
     end)
    (fun _ => ret []).

Definition service : CalculationApi.t :=
  {| CalculationApi.calculateAndUpdateResult := calculateAndUpdateResult;
     CalculationApi.updateFactor := updateFactor;
     CalculationApi.getFactor := getFactor;
     CalculationApi.getAllItems := getAllItems |}.

End Service.

End CalculationService.

(* ===================================================================== *)
(** ** The webhook handler ([webhooks/MondayWebhookHandler.ts]) *)
(* ===================================================================== *)

Module MondayWebhookHandler.

(** [res.status(status).json(body)]. *)
Definition respond (status : Z) (body : JsValue) : M unit :=
  fun w => (Ok tt, logEvent (EvRespond status body) w).

Definition handleWebhookChallenge (body : JsValue) : M unit :=
  let* challenge := liftRes (Js.prop body "challenge") in
  if Js.truthy challenge
  then respond 200 (JObj [("challenge", challenge)])
  else ret tt.

Definition shouldProcessWebhook (payload : JsValue) (inputColumnId : string) : Res bool :=
  match Js.prop payload "event" with
  | Throw e => Throw e
  | Ok event =>
      let eventType := Js.optProp event "type" in
      let columnId := Js.optProp event "columnId" in
      Ok (Js.strictEqStr eventType "update_column_value"
          && Js.strictEqStr columnId inputColumnId)
  end.

Section Handler.

(** [parseFloat] and [Number::toString], built-ins of the language. *)
Variable parseFloat : string -> float.
Variable numberToString : float -> string.
(** The configuration [{ mondayApi, calculationService, inputColumnId }]. *)
Variable calculationService : CalculationApi.t.
Variable inputColumnId : string.

(** [parseFloat(String(value?.value || '0'))], [null] for NaN; the
    conversion to a string can throw. *)
Definition parseInputValue (value : JsValue) : Res (option float) :=
  match Js.toString numberToString (Js.or (Js.optProp value "value") (JStr "0")) with
  | Throw e => Throw e
  | Ok text =>
      let parsed := parseFloat text in
      Ok (if PrimFloat.is_nan parsed then None else Some parsed)
  end.

(** A log line whose template literal converts [v]: nothing is recorded,
    but the conversion can throw. *)
Definition logTemplate (v : JsValue) : M unit :=
  let* text := liftRes (Js.toString numberToString v) in
  ret tt.

(** The log lines are kept where their template literals convert a value
    of the payload: the "Column change detected" line in the [try] block,
    the warning for an invalid value, the two lines after the
    recalculation, and the "Error handling column change" line in the
    [catch] block, which reads [payload.event?.pulseId] again. *)
Definition handleColumnChange (payload : JsValue) : M unit :=
  tryCatch
    (let* event := liftRes (Js.prop payload "event") in
     let itemId := Js.optProp event "pulseId" in
     let value := Js.optProp event "value" in
     logTemplate itemId ;;
     let* newInputValue := liftRes (parseInputValue value) in
     match newInputValue with
     | None =>
         logTemplate itemId ;;
         logTemplate (Js.optProp value "value")
     | Some _ =>
         let* id := liftRes (Js.toString numberToString itemId) in
         let* result :=
           CalculationApi.calculateAndUpdateResult calculationService id webhook in
         logTemplate itemId
     end)
    (fun _ =>
       let* event := liftRes (Js.prop payload "event") in
       logTemplate (Js.optProp event "pulseId")).

Definition handleWebhook (body : JsValue) : M unit :=
  tryCatch
    (let* challenge := liftRes (Js.prop body "challenge") in
     if Js.truthy challenge then handleWebhookChallenge body
     else
       let payload := body in
       let* process := liftRes (shouldProcessWebhook payload inputColumnId) in
       (if process : bool then handleColumnChange payload else ret tt) ;;
       respond 200 (JObj [("success", JBool true)]))
    (fun _ => respond 500 (JObj [("error", JStr "Internal server error")])).

Definition handleWebhookVerification (body : JsValue) : M unit :=
  tryCatch
    (let* challenge := liftRes (Js.prop body "challenge") in
     if Js.truthy challenge
     then respond 200 (JObj [("challenge", challenge)])
     else respond 400 (JObj [("error", JStr "No challenge provided")]))
    (fun _ => respond 500 (JObj [("error", JStr "Internal server error")])).

End Handler.

End MondayWebhookHandler.

(* ===================================================================== *)
(** ** The factor routes ([routes/items.ts]) *)
(* ===================================================================== *)

Module ItemsRouter.

(** What a route handler ends with: a response, or [next(error)]. *)
Inductive Outcome : Type :=
| Sent (status : Z) (body : JsValue)
| Next (error : JsError).

Definition apiError (message : string) (statusCode : Z) : JsError :=
  ErrorObj "Error" message (Some statusCode).

Definition finish (m : M Outcome) : M Outcome :=
  tryCatch m (fun error => ret (Next error)).

Definition requireItemId (itemId : string) : M unit :=
  if String.eqb itemId "" then throw (apiError "Item ID is required" 400) else ret tt.

Definition nullable (o : option float) : JsValue :=
  match o with
  | Some f => JNum f
  | None => JNull
  end.

Section Router.

Variable calculationService : CalculationApi.t.

(** [GET /:itemId/factor]. *)
Definition getFactorRoute (itemId : string) : M Outcome :=
  finish
    (requireItemId itemId ;;
     let* factor := CalculationApi.getFactor calculationService itemId in
     match factor with
     | None => throw (apiError ("No factor found for item " +:+ itemId) 404)
     | Some f =>
         ret (Sent 200 (JObj [("success", JBool true);
                              ("data", JObj [("itemId", JStr itemId); ("factor", JNum f)])]))
     end).

(** [POST /:itemId/factor]. *)
Definition postFactorRoute (itemId : string) (body : JsValue) : M Outcome :=
  finish
    (let* factor := liftRes (Js.prop body "factor") in
     requireItemId itemId ;;
     match factor with
     | JNum n =>
         if PrimFloat.ltb n 0
         then throw (apiError "Factor must be a non-negative number" 400)
         else
           let* result := CalculationApi.updateFactor calculationService itemId n api in
           if negb (FactorUpdateResult.success result)
           then throw (apiError "Failed to update factor" 500)
           else
             ret (Sent 201
                    (JObj [("success", JBool true);
                           ("data",
                            JObj [("itemId", JStr itemId);
                                  ("oldFactor", nullable (FactorUpdateResult.oldFactor result));
                                  ("newFactor", JNum (FactorUpdateResult.newFactor result))])]))
     | _ => throw (apiError "Factor must be a non-negative number" 400)
     end).

End Router.

End ItemsRouter.

(* ===================================================================== *)
(** ** The application ([index.ts], [initializeServices]) *)
(* ===================================================================== *)

Module App.

Section Services.

Variable parseFloat : string -> float.
Variable numberToString : float -> string.
(** [process.env.DEFAULT_BOARD_ID], [config.mondayApiToken],
    [config.inputNumberColumnId], [config.resultNumberColumnId]. *)
Variable DEFAULT_BOARD_ID : option string.
Variable mondayApiToken : string.
Variable inputNumberColumnId : string.
Variable resultNumberColumnId : string.

Definition mondayApi : MondayApi.t :=
  MondayApiService.createMondayApiService numberToString DEFAULT_BOARD_ID
    {| MondayApiServiceConfig.apiToken := mondayApiToken;
       MondayApiServiceConfig.retryConfig := None |}.

Definition calculationService : CalculationApi.t :=
  CalculationService.service parseFloat numberToString DEFAULT_BOARD_ID
    mondayApi inputNumberColumnId resultNumberColumnId.

Definition handleWebhook : JsValue -> M unit :=
  MondayWebhookHandler.handleWebhook parseFloat numberToString
    calculationService inputNumberColumnId.

End Services.

End App.

(* ===================================================================== *)
(** ** Sample built-ins and worlds for the examples *)
(* ===================================================================== *)

Module Sample.

Definition digit (c : Ascii.ascii) : option float :=
  match c with
  | "0"%char => Some 0%float | "1"%char => Some 1%float | "2"%char => Some 2%float
  | "3"%char => Some 3%float | "4"%char => Some 4%float | "5"%char => Some 5%float
  | "6"%char => Some 6%float | "7"%char => Some 7%float | "8"%char => Some 8%float
  | "9"%char => Some 9%float
  | _ => None
  end.

Fixpoint digits (s : string) (acc : float) : float :=
  match s with
  | EmptyString => acc
  | String c rest =>
      match digit c with
      | Some d => digits rest (acc * 10 + d)%float
      | None => PrimFloat.nan
      end
  end.

(** Agrees with [parseFloat] on strings of decimal digits of moderate length
    and on strings that start with no numeral. *)
Definition parseFloat (s : string) : float :=
  match s with
  | EmptyString => PrimFloat.nan
  | _ => digits s 0%float
  end.

(** Agrees with [Number::toString] on the numbers of the examples. *)
Definition numberToString (n : float) : string :=
  if PrimFloat.is_nan n then "NaN"
  else if PrimFloat.eqb n 0 then "0"
  else if PrimFloat.eqb n 10 then "10"
  else if PrimFloat.eqb n 2.5 then "2.5"
  else if PrimFloat.eqb n 25 then "25"
  else if PrimFloat.eqb n 123 then "123"
  else "1".

Definition unreachable : AxiosError.t :=
  {| AxiosError.message := "connect ECONNREFUSED";
     AxiosError.response := None;
     AxiosError.request := true |}.

Definition world (f : gmap string float) (n : nat -> PostOutcome) (s : nat -> bool) : World :=
  {| factors := f; history := []; trace := []; net := n; posts := 0;
     storeFault := s; storeOps := 0 |}.

Definition noFault : nat -> bool := fun _ => false.

(** A 2xx answer whose payload carries a GraphQL error. *)
Definition graphqlFailure : MondayApiResponse.t :=
  {| MondayApiResponse.data := None;
     MondayApiResponse.errors := Some ["Complexity budget exhausted"] |}.

Definition columnText (text : string) : MondayApiResponse.t :=
  {| MondayApiResponse.data :=
       Some {| GqlData.items :=
                 Some [ {| MondayItem.id := ""; MondayItem.name := "";
                           MondayItem.column_values :=
                             Some [ {| MondayColumnValue.id := "";
                                       MondayColumnValue.text := Some text;
                                       MondayColumnValue.value := None;
                                       MondayColumnValue.type := "" |} ] |} ];
               GqlData.change_column_value := None;
               GqlData.boards := None |};
     MondayApiResponse.errors := None |}.

Definition columnChanged (id : string) : MondayApiResponse.t :=
  {| MondayApiResponse.data :=
       Some {| GqlData.items := None;
               GqlData.change_column_value := Some id;
               GqlData.boards := None |};
     MondayApiResponse.errors := None |}.

(** The network of the README's scenario: the input column reads "10", then
    the write is acknowledged. *)
Definition readThenWrite (text : string) (n : nat) : PostOutcome :=
  match n with
  | O => Resolved (columnText text)
  | _ => Resolved (columnChanged "123")
  end.

(** The services of [initializeServices] over the sample built-ins. *)
Definition calculationService : CalculationApi.t :=
  App.calculationService parseFloat numberToString (Some "1001") "token" "numbers" "result".

Definition handleWebhook : JsValue -> M unit :=
  App.handleWebhook parseFloat numberToString (Some "1001") "token" "numbers" "result".

(** The store rejects exactly its [k]-th operation. *)
Definition faultAt (k : nat) : nat -> bool := fun n => Nat.eqb n k.

End Sample.

(* ===================================================================== *)
(** ** History queries ([getHistory], [GET /:itemId/history]) *)
(* ===================================================================== *)

Module HistoryQuery.

(** [.limit(n)] of a query: 0 stands for no limit, a negative number for its
    absolute value. *)
Definition applyLimit (limit : Z) (docs : list HistoryDocument.t) : list HistoryDocument.t :=
  if limit =? 0 then docs else firstn (Z.to_nat (Z.abs limit)) docs.

Definition ofItem (itemId : string) (doc : HistoryDocument.t) : bool :=
  String.eqb (HistoryDocument.itemId doc) itemId.

(** [History.find({ itemId }).sort({ createdAt: -1 }).limit(limit)].  The
    collection is kept in creation order, so descending [createdAt] is the
    reverse of it. *)
Definition find (itemId : string) (limit : Z) : M (list HistoryDocument.t) :=
  storeOp ;;
  fun w => (Ok (applyLimit limit (List.rev (List.filter (ofItem itemId) (history w)))), w).

(** [getHistory(itemId, limit = 50)]. *)
Definition getHistory (itemId : string) (limit : option Z) : M (list HistoryDocument.t) :=
  tryCatch (find itemId (default 50 limit)) (fun _ => ret []).

(** What [GET /:itemId/history] ends with: [{ itemId, history, count }], or
    [next(error)]. *)
Inductive Outcome : Type :=
| Sent (itemId : string) (history : list HistoryDocument.t) (count : nat)
| Next (error : JsError).

Section Route.

(** [parseInt], a built-in of the language: an integer, or [None] for NaN. *)
Variable parseInt : string -> option Z.

(** [parseInt(req.query.limit as string) || 50]; a missing parameter is
    [undefined], which [parseInt] reads as the string "undefined". *)
Definition requestedLimit (queryLimit : option string) : Z :=
  match parseInt (default "undefined" queryLimit) with
  | Some n => if n =? 0 then 50 else n
  | None => 50
  end.

Definition historyRoute (itemId : string) (queryLimit : option string) : M Outcome :=
  tryCatch
    (let limit := requestedLimit queryLimit in
     ItemsRouter.requireItemId itemId ;;
     if (limit <? 1) || (100 <? limit)
     then throw (ItemsRouter.apiError "Limit must be between 1 and 100" 400)
     else
       let* history := getHistory itemId (Some limit) in
       ret (Sent itemId history (length history)))
    (fun error => ret (Next error)).

End Route.

End HistoryQuery.

(** Observations on traces. *)
Module Obs.

(** The milliseconds slept in a run. *)
Fixpoint totalSleep (evs : list Event) : Z :=
  match evs with
  | [] => 0
  | EvSleep ms :: rest => ms + totalSleep rest
  | _ :: rest => totalSleep rest
  end.

(** The requests posted in a run. *)
Fixpoint requests (evs : list Event) : list GqlRequest :=
  match evs with
  | [] => []
  | EvPost req :: rest => req :: requests rest
  | _ :: rest => requests rest
  end.

(** The responses sent in a run. *)
Fixpoint responses (evs : list Event) : list (Z * JsValue) :=
  match evs with
  | [] => []
  | EvRespond status body :: rest => (status, body) :: responses rest
  | _ :: rest => responses rest
  end.

Definition isNumber (v : JsValue) : bool :=
  match v with
  | JNum _ => true
  | _ => false
  end.

(** From [w] to [w']: the factors are untouched and the history gained at
    most one document, a [recalculation] of [itemId] triggered by
    [triggeredBy]. *)
Definition recalculationLogged (itemId : string) (triggeredBy : TriggerType)
    (w w' : World) : Prop :=
  factors w' = factors w
  /\ (history w' = history w
      \/ exists doc,
           history w' = history w ++ [doc]
           /\ HistoryDocument.action doc = recalculation
           /\ HistoryDocument.itemId doc = itemId
           /\ HistoryDocument.triggeredBy doc = triggeredBy).

End Obs.

(* ===================================================================== *)
(** ** Specification vocabulary *)
(* ===================================================================== *)

Module Spec.

(** The delay the retry policy prescribes after failed attempt [i]. *)
Definition backoffDelay (c : RetryConfig.t) (i : Z) : Z :=
  Z.min (RetryConfig.baseDelay c * RetryConfig.backoffFactor c ^ i)
        (RetryConfig.maxDelay c).

(** [k] failed attempts, numbered from [a], each followed by its delay. *)
Fixpoint failedAttempts (req : GqlRequest) (c : RetryConfig.t) (a : Z) (k : nat)
    : list Event :=
  match k with
  | O => []
  | S k' => EvPost req :: EvSleep (backoffDelay c a) :: failedAttempts req c (a + 1) k'
  end.

(** The effects of a run that fails [k] times and then makes a last attempt. *)
Definition retrySchedule (req : GqlRequest) (c : RetryConfig.t) (k : nat) : list Event :=
  failedAttempts req c 0 k ++ [EvPost req].

Definition rejected (o : PostOutcome) : bool :=
  match o with
  | Rejected _ => true
  | Resolved _ => false
  end.

(** What the caller of a post sees. *)
Definition settle (o : PostOutcome) : Res MondayApiResponse.t :=
  match o with
  | Rejected e => Throw (MondayApiService.handleApiError e)
  | Resolved r => Ok r
  end.

(** The world after [n] more posts whose effects are [evs]. *)
Definition afterPosts (w : World) (evs : list Event) (n : nat) : World :=
  {| factors := factors w; history := history w; trace := trace w ++ evs;
     net := net w; posts := posts w + n;
     storeFault := storeFault w; storeOps := storeOps w |}.

(** The world after [n] more store operations. *)
Definition afterStoreOps (w : World) (n : nat) : World :=
  {| factors := factors w; history := history w; trace := trace w;
     net := net w; posts := posts w;
     storeFault := storeFault w; storeOps := n + storeOps w |}.

Definition isPost (ev : Event) : bool :=
  match ev with
  | EvPost _ => true
  | _ => false
  end.

Definition isSleep (ev : Event) : bool :=
  match ev with
  | EvSleep _ => true
  | _ => false
  end.

(** The bodies the webhook handler answers with. *)
Definition successBody : JsValue := JObj [("success", JBool true)].

Definition challengeBody (challenge : JsValue) : JsValue := JObj [("challenge", challenge)].

Definition serverErrorBody : JsValue := JObj [("error", JStr "Internal server error")].

(** The world after one response and nothing else. *)
Definition responded (status : Z) (body : JsValue) (w : World) : World :=
  logEvent (EvRespond status body) w.

(** The second world has the collections and the store oracle of the first. *)
Definition sameStore (w w' : World) : Prop :=
  factors w' = factors w /\ history w' = history w
  /\ storeFault w' = storeFault w /\ storeOps w' = storeOps w.

End Spec.

(* ===================================================================== *)
(** ** The retry policy *)
(* ===================================================================== *)

Section RetryPolicy.

Import MondayApiService Spec.

Variable req : GqlRequest.
Variable c : RetryConfig.t.

Lemma post_run (w : World) :
  post req w = (settle (net w (posts w)), afterPosts w [EvPost req] 1).
Proof.
  unfold post, settle, afterPosts, countPost, logEvent; simpl.
  rewrite Nat.add_1_r. destruct (net w (posts w)); reflexivity.
Qed.

Lemma afterPosts_step (w : World) (d : Z) (evs : list Event) (n : nat) :
  afterPosts (logEvent (EvSleep d) (afterPosts w [EvPost req] 1)) evs n
  = afterPosts w (EvPost req :: EvSleep d :: evs) (S n).
Proof.
  unfold afterPosts, logEvent; simpl. f_equal.
  - rewrite <- !app_assoc. reflexivity.
  - lia.
Qed.

(** The loop, started at attempt [a] with enough fuel, when the next [k]
    posts are rejected and the one after them ends the loop. *)
Lemma retryLoop_run (k : nat) :
  forall (fuel : nat) (a : Z) (last : option JsError) (w : World),
    (k < fuel)%nat ->
    a + Z.of_nat k <= RetryConfig.maxRetries c ->
    (forall i, (i < k)%nat -> rejected (net w (posts w + i)) = true) ->
    (rejected (net w (posts w + k)) = true -> a + Z.of_nat k = RetryConfig.maxRetries c) ->
    retryLoop (post req) c fuel a last w
    = (settle (net w (posts w + k)),
       afterPosts w (failedAttempts req c a k ++ [EvPost req]) (S k)).
Proof.
  induction k as [|k IH]; intros fuel a last w Hfuel Ha Hrej Hstop.
  - destruct fuel as [|fuel]; [lia|]. simpl.
    rewrite Nat.add_0_r in *.
    replace (a <=? RetryConfig.maxRetries c) with true by (symmetry; apply Z.leb_le; lia).
    unfold tryCatch. rewrite post_run.
    destruct (net w (posts w)) as [e|r] eqn:E; simpl; [|reflexivity].
    replace (a =? RetryConfig.maxRetries c) with true
      by (symmetry; apply Z.eqb_eq; specialize (Hstop eq_refl); lia).
    reflexivity.
  - destruct fuel as [|fuel]; [lia|]. simpl.
    replace (a <=? RetryConfig.maxRetries c) with true by (symmetry; apply Z.leb_le; lia).
    unfold tryCatch. rewrite post_run.
    pose proof (Hrej O ltac:(lia)) as H0. rewrite Nat.add_0_r in H0.
    destruct (net w (posts w)) as [e|r] eqn:E; simpl in H0; [|discriminate].
    simpl.
    replace (a =? RetryConfig.maxRetries c) with false by (symmetry; apply Z.eqb_neq; lia).
    unfold bind at 1, sleep at 1.
    rewrite (IH fuel (a + 1) (Some (handleApiError e))
               (logEvent (EvSleep (Z.min (RetryConfig.baseDelay c * RetryConfig.backoffFactor c ^ a)
                                          (RetryConfig.maxDelay c)))
                         (afterPosts w [EvPost req] 1))).
    + rewrite afterPosts_step. simpl.
      replace (posts w + 1 + k)%nat with (posts w + S k)%nat by lia.
      reflexivity.
    + lia.
    + lia.
    + intros i Hi. simpl. replace (posts w + 1 + i)%nat with (posts w + S i)%nat by lia.
      apply Hrej. lia.
    + simpl. replace (posts w + 1 + k)%nat with (posts w + S k)%nat by lia.
      intros H. specialize (Hstop H). lia.
Qed.

Lemma executeWithRetry_run {ctx : string} (k : nat) (w : World) :
  Z.of_nat k <= RetryConfig.maxRetries c ->
  (forall i, (i < k)%nat -> rejected (net w (posts w + i)) = true) ->
  (rejected (net w (posts w + k)) = true -> Z.of_nat k = RetryConfig.maxRetries c) ->
  executeWithRetry (post req) ctx c w
  = (settle (net w (posts w + k)), afterPosts w (retrySchedule req c k) (S k)).
Proof.
  intros Hk Hrej Hstop. unfold executeWithRetry, retrySchedule.
  apply retryLoop_run; try assumption; lia.
Qed.

Lemma failedAttempts_posts (a : Z) (k : nat) :
  length (List.filter isPost (failedAttempts req c a k)) = k.
Proof.
  revert a. induction k as [|k IH]; intros a; simpl; [reflexivity|].
  rewrite IH. reflexivity.
Qed.

Lemma failedAttempts_sleeps (a : Z) (k : nat) :
  List.filter isSleep (failedAttempts req c a k)
  = map (fun i => EvSleep (backoffDelay c (a + Z.of_nat i))) (seq 0 k).
Proof.
  revert a. induction k as [|k IH]; intros a; [reflexivity|].
  cbn [failedAttempts List.filter isSleep isPost].
  rewrite IH. cbn [seq map]. rewrite Z.add_0_r. f_equal.
  rewrite <- seq_shift, map_map. apply map_ext. intros i. do 2 f_equal. lia.
Qed.

(** Every behaviour of the network is one of the two patterns: a first
    resolved post among the first [n + 1], or [n + 1] rejections. *)
Lemma failure_patterns (w : World) (n : nat) :
  (exists (k : nat) (r : MondayApiResponse.t),
      (k <= n)%nat
      /\ (forall i, (i < k)%nat -> rejected (net w (posts w + i)) = true)
      /\ net w (posts w + k) = Resolved r)
  \/ (exists e : AxiosError.t,
      (forall i, (i < n)%nat -> rejected (net w (posts w + i)) = true)
      /\ net w (posts w + n) = Rejected e).
Proof.
  induction n as [|n IH].
  - destruct (net w (posts w + 0)) as [e|r] eqn:E.
    + right. exists e. split; [intros i Hi; lia | first [exact E | reflexivity]].
    + left. exists O, r. split; [lia|]. split; [intros i Hi; lia | first [exact E | reflexivity]].
  - destruct IH as [(k & r & Hk & Hrej & Hres)|(e & Hrej & Hlast)].
    + left. exists k, r. split; [lia|]. split; [exact Hrej | exact Hres].
    + assert (Hall : forall i, (i < S n)%nat -> rejected (net w (posts w + i)) = true).
      { intros i Hi. destruct (Nat.eq_dec i n) as [->|Hne].
        - rewrite Hlast. reflexivity.
        - apply Hrej. lia. }
      destruct (net w (posts w + S n)) as [e'|r] eqn:E.
      * right. exists e'. split; [exact Hall | first [exact E | reflexivity]].
      * left. exists (S n), r. split; [lia|]. split; [exact Hall | first [exact E | reflexivity]].
Qed.

End RetryPolicy.

Section RemoteOperations.

Import MondayApiService Spec.

Variable numberToString : float -> string.
Variable DEFAULT_BOARD_ID : option string.
Variable c : RetryConfig.t.

Local Abbreviation svc := (MondayApiService.service numberToString DEFAULT_BOARD_ID c).

(** A failure of the retried post is the failure of the operation: none of
    the four operations catches it. *)
Lemma operations_surface_failure (w w' : World) (e : JsError) :
  (forall itemId boardId,
      (forall ctx, executeWithRetry (post (GetItem itemId boardId)) ctx c w
                   = (Throw e, w')) ->
      MondayApi.getItem svc itemId boardId w = (Throw e, w'))
  /\ (forall itemId columnId value boardId,
      (forall ctx,
          executeWithRetry
            (post (UpdateColumnValue itemId columnId (Js.stringOf numberToString value)
                     (boardOrDefault DEFAULT_BOARD_ID boardId))) ctx c w
          = (Throw e, w')) ->
      MondayApi.updateColumnValue svc itemId columnId value boardId w = (Throw e, w'))
  /\ (forall itemId columnId,
      (forall ctx, executeWithRetry (post (GetColumnValue itemId columnId)) ctx c w
                   = (Throw e, w')) ->
      MondayApi.getColumnValue svc itemId columnId w = (Throw e, w'))
  /\ (forall boardId,
      (forall ctx, executeWithRetry (post (GetBoardById boardId)) ctx c w
                   = (Throw e, w')) ->
      MondayApi.getBoardById svc boardId w = (Throw e, w')).
Proof.
  repeat split; intros; simpl.
  - unfold getItem, bind. rewrite H. reflexivity.
  - unfold updateColumnValue, bind.
    rewrite H. reflexivity.
  - unfold getColumnValue, bind. rewrite H. reflexivity.
  - unfold getBoardById, bind. rewrite H. reflexivity.
Qed.

(** A post that resolves with GraphQL errors ends the operation at once. *)
Lemma operations_graphql_error (w w' : World) (r : MondayApiResponse.t) :
  hasErrors r = true ->
  (forall itemId boardId,
      (forall ctx, executeWithRetry (post (GetItem itemId boardId)) ctx c w
                   = (Ok r, w')) ->
      MondayApi.getItem svc itemId boardId w = (Throw (graphqlError r), w'))
  /\ (forall itemId columnId value boardId,
      (forall ctx,
          executeWithRetry
            (post (UpdateColumnValue itemId columnId (Js.stringOf numberToString value)
                     (boardOrDefault DEFAULT_BOARD_ID boardId))) ctx c w
          = (Ok r, w')) ->
      MondayApi.updateColumnValue svc itemId columnId value boardId w
      = (Throw (graphqlError r), w'))
  /\ (forall itemId columnId,
      (forall ctx, executeWithRetry (post (GetColumnValue itemId columnId)) ctx c w
                   = (Ok r, w')) ->
      MondayApi.getColumnValue svc itemId columnId w = (Throw (graphqlError r), w'))
  /\ (forall boardId,
      (forall ctx, executeWithRetry (post (GetBoardById boardId)) ctx c w
                   = (Ok r, w')) ->
      MondayApi.getBoardById svc boardId w = (Throw (graphqlError r), w')).
Proof.
  intros Herr. repeat split; intros; simpl.
  - unfold getItem, bind. rewrite H, Herr. reflexivity.
  - unfold updateColumnValue, bind.
    rewrite H, Herr. reflexivity.
  - unfold getColumnValue, bind. rewrite H, Herr. reflexivity.
  - unfold getBoardById, bind. rewrite H, Herr. reflexivity.
Qed.

End RemoteOperations.

(** The trace of a run of the defaults against an unreachable host. *)
Example retry_unreachable_trace :
  MondayApiService.executeWithRetry (MondayApiService.post (GetItem "1" "b")) "Get item 1"
    MondayApiService.defaultRetryConfig
    (Sample.world ∅ (fun _ => Rejected Sample.unreachable) Sample.noFault)
  = (Throw (ErrorObj "Error" "Monday API is unreachable" (Some 503)),
     Spec.afterPosts (Sample.world ∅ (fun _ => Rejected Sample.unreachable) Sample.noFault)
       [EvPost (GetItem "1" "b"); EvSleep 1000;
        EvPost (GetItem "1" "b"); EvSleep 2000;
        EvPost (GetItem "1" "b"); EvSleep 4000;
        EvPost (GetItem "1" "b")] 4).
Proof. reflexivity. Qed.

(** C2. Every retried post follows the backoff schedule: after [k] rejected
    attempts ([k <= maxRetries]) and a resolved one, the operation returns
    that answer having made [k + 1] attempts; when attempts [0 .. maxRetries]
    are all rejected it makes exactly [maxRetries + 1] attempts and throws the
    last rejection, with nothing after it, and so does each of the four
    operations of the service.  In every run the delay slept after failed
    attempt [i] is [min (baseDelay * backoffFactor ^ i) maxDelay], and the
    defaults are 3 retries, base 1000 ms, factor 2, cap 10000 ms. *)
Theorem retry_policy_backoff_and_exhaustion :
  forall (numberToString : float -> string) (DEFAULT_BOARD_ID : option string)
         (ctx : string) (c : RetryConfig.t) (w : World),
    0 <= RetryConfig.maxRetries c ->
    (forall (req : GqlRequest) (k : nat) (r : MondayApiResponse.t),
        Z.of_nat k <= RetryConfig.maxRetries c ->
        (forall i, (i < k)%nat -> Spec.rejected (net w (posts w + i)) = true) ->
        net w (posts w + k) = Resolved r ->
        MondayApiService.executeWithRetry (MondayApiService.post req) ctx c w
        = (Ok r, Spec.afterPosts w (Spec.retrySchedule req c k) (S k)))
    /\ (forall (e : AxiosError.t),
        let n := Z.to_nat (RetryConfig.maxRetries c) in
        let svc := MondayApiService.service numberToString DEFAULT_BOARD_ID c in
        let failure := MondayApiService.handleApiError e in
        (forall i, (i < n)%nat -> Spec.rejected (net w (posts w + i)) = true) ->
        net w (posts w + n) = Rejected e ->
        (forall req,
            MondayApiService.executeWithRetry (MondayApiService.post req) ctx c w
            = (Throw failure, Spec.afterPosts w (Spec.retrySchedule req c n) (S n)))
        /\ (forall itemId boardId,
            MondayApi.getItem svc itemId boardId w
            = (Throw failure,
               Spec.afterPosts w (Spec.retrySchedule (GetItem itemId boardId) c n) (S n)))
        /\ (forall itemId columnId value boardId,
            MondayApi.updateColumnValue svc itemId columnId value boardId w
            = (Throw failure,
               Spec.afterPosts w
                 (Spec.retrySchedule
                    (UpdateColumnValue itemId columnId (Js.stringOf numberToString value)
                       (MondayApiService.boardOrDefault DEFAULT_BOARD_ID boardId)) c n)
                 (S n)))
        /\ (forall itemId columnId,
            MondayApi.getColumnValue svc itemId columnId w
            = (Throw failure,
               Spec.afterPosts w (Spec.retrySchedule (GetColumnValue itemId columnId) c n)
                 (S n)))
        /\ (forall boardId,
            MondayApi.getBoardById svc boardId w
            = (Throw failure,
               Spec.afterPosts w (Spec.retrySchedule (GetBoardById boardId) c n) (S n))))
    /\ (forall (req : GqlRequest) (k : nat),
        length (List.filter Spec.isPost (Spec.retrySchedule req c k)) = S k
        /\ List.filter Spec.isSleep (Spec.retrySchedule req c k)
           = map (fun i => EvSleep (Z.min (RetryConfig.baseDelay c
                                           * RetryConfig.backoffFactor c ^ Z.of_nat i)
                                          (RetryConfig.maxDelay c)))
                 (seq 0 k))
    /\ MondayApiService.defaultRetryConfig = RetryConfig.mk 3 1000 10000 2.
Proof.
  intros nts board ctx c w Hmax.
  assert (Hex : forall (e : AxiosError.t) (req : GqlRequest) (ctx' : string),
             (forall i, (i < Z.to_nat (RetryConfig.maxRetries c))%nat ->
                        Spec.rejected (net w (posts w + i)) = true) ->
             net w (posts w + Z.to_nat (RetryConfig.maxRetries c)) = Rejected e ->
             MondayApiService.executeWithRetry (MondayApiService.post req) ctx' c w
             = (Throw (MondayApiService.handleApiError e),
                Spec.afterPosts w
                  (Spec.retrySchedule req c (Z.to_nat (RetryConfig.maxRetries c)))
                  (S (Z.to_nat (RetryConfig.maxRetries c))))).
  { intros e req ctx' Hrej Hlast.
    rewrite (executeWithRetry_run req c (Z.to_nat (RetryConfig.maxRetries c)) w).
    - rewrite Hlast. reflexivity.
    - lia.
    - exact Hrej.
    - intros _. lia. }
  split; [|split; [|split; [|reflexivity]]].
  - intros req k r Hk Hrej Hres.
    rewrite (executeWithRetry_run req c k w Hk Hrej).
    + rewrite Hres. reflexivity.
    + rewrite Hres. discriminate.
  - intros e n svc failure Hrej Hlast. subst n svc failure.
    split; [intros req; apply Hex; assumption|].
    pose proof (operations_surface_failure nts board c w) as Hops.
    repeat split; intros.
    + apply Hops. intros ctx'. apply Hex; assumption.
    + apply Hops. intros ctx'. apply Hex; assumption.
    + apply Hops. intros ctx'. apply Hex; assumption.
    + apply Hops. intros ctx'. apply Hex; assumption.
  - intros req k. split.
    + unfold Spec.retrySchedule. rewrite List.filter_app, length_app.
      rewrite failedAttempts_posts. simpl. lia.
    + unfold Spec.retrySchedule. rewrite List.filter_app. simpl.
      rewrite app_nil_r, failedAttempts_sleeps. reflexivity.
Qed.

(** Witness for C2: the defaults against a host that never answers. *)
Lemma retry_policy_witness :
  MondayApi.getItem
    (MondayApiService.service Sample.numberToString None
       MondayApiService.defaultRetryConfig) "1" "b"
    (Sample.world ∅ (fun _ => Rejected Sample.unreachable) Sample.noFault)
  = (Throw (MondayApiService.handleApiError Sample.unreachable),
     Spec.afterPosts (Sample.world ∅ (fun _ => Rejected Sample.unreachable) Sample.noFault)
       (Spec.retrySchedule (GetItem "1" "b") MondayApiService.defaultRetryConfig 3) 4).
Proof.
  refine (proj1 (proj2 (proj1 (proj2 (retry_policy_backoff_and_exhaustion
            Sample.numberToString None "Get item 1" MondayApiService.defaultRetryConfig
            (Sample.world ∅ (fun _ => Rejected Sample.unreachable) Sample.noFault) _))
            Sample.unreachable _ _)) "1" "b").
  - simpl. lia.
  - intros i _. reflexivity.
  - reflexivity.
Defined.

(* ===================================================================== *)
(** ** GraphQL errors on a 2xx answer *)
(* ===================================================================== *)

(** C4, as stated, fails: with the defaults and a board that answers every
    post with HTTP 200 and a GraphQL error, [getItem] throws after a single
    attempt and no delay, where a transport failure is attempted four times. *)
Lemma graphql_error_single_attempt_counterexample :
  MondayApi.getItem
    (MondayApiService.service Sample.numberToString None
       MondayApiService.defaultRetryConfig) "1" "b"
    (Sample.world ∅ (fun _ => Resolved Sample.graphqlFailure) Sample.noFault)
  = (Throw (newError "Monday API Error: Complexity budget exhausted"),
     Spec.afterPosts
       (Sample.world ∅ (fun _ => Resolved Sample.graphqlFailure) Sample.noFault)
       [EvPost (GetItem "1" "b")] 1)
  /\ [EvPost (GetItem "1" "b")]
     <> Spec.retrySchedule (GetItem "1" "b") MondayApiService.defaultRetryConfig
          (Z.to_nat (RetryConfig.maxRetries MondayApiService.defaultRetryConfig)).
Proof. split; [reflexivity | discriminate]. Qed.

(** C4, amended. When a post resolves (HTTP 2xx) with a non-empty [errors]
    array, each of the four operations treats the answer as a failure and
    throws ["Monday API Error: ..."], but after that single attempt: the
    error check stands outside [executeWithRetry], so no delay is slept and
    no further attempt is made. *)
Theorem graphql_error_surfaces_without_retry :
  forall (numberToString : float -> string) (DEFAULT_BOARD_ID : option string)
         (c : RetryConfig.t) (w : World) (r : MondayApiResponse.t),
    0 <= RetryConfig.maxRetries c ->
    net w (posts w) = Resolved r ->
    MondayApiService.hasErrors r = true ->
    let svc := MondayApiService.service numberToString DEFAULT_BOARD_ID c in
    let failure := MondayApiService.graphqlError r in
    (forall itemId boardId,
        MondayApi.getItem svc itemId boardId w
        = (Throw failure, Spec.afterPosts w [EvPost (GetItem itemId boardId)] 1))
    /\ (forall itemId columnId value boardId,
        MondayApi.updateColumnValue svc itemId columnId value boardId w
        = (Throw failure,
           Spec.afterPosts w
             [EvPost (UpdateColumnValue itemId columnId (Js.stringOf numberToString value)
                        (MondayApiService.boardOrDefault DEFAULT_BOARD_ID boardId))] 1))
    /\ (forall itemId columnId,
        MondayApi.getColumnValue svc itemId columnId w
        = (Throw failure, Spec.afterPosts w [EvPost (GetColumnValue itemId columnId)] 1))
    /\ (forall boardId,
        MondayApi.getBoardById svc boardId w
        = (Throw failure, Spec.afterPosts w [EvPost (GetBoardById boardId)] 1)).
Proof.
  intros nts board c w r Hmax Hnet Herr svc failure. subst svc failure.
  assert (Hrun : forall req ctx,
             MondayApiService.executeWithRetry (MondayApiService.post req) ctx c w
             = (Ok r, Spec.afterPosts w [EvPost req] 1)).
  { intros req ctx.
    rewrite (executeWithRetry_run req c 0 w).
    - rewrite Nat.add_0_r, Hnet. reflexivity.
    - simpl. lia.
    - intros i Hi. lia.
    - rewrite Nat.add_0_r, Hnet. discriminate. }
  pose proof (operations_graphql_error nts board c w) as Hops.
  repeat split; intros; apply Hops; try assumption; intros ctx; apply Hrun.
Qed.

(** Witness for C4: the defaults, a board whose first answer is a GraphQL error. *)
Lemma graphql_error_witness :
  MondayApi.getColumnValue
    (MondayApiService.service Sample.numberToString None
       MondayApiService.defaultRetryConfig) "123" "numbers"
    (Sample.world ∅ (fun _ => Resolved Sample.graphqlFailure) Sample.noFault)
  = (Throw (MondayApiService.graphqlError Sample.graphqlFailure),
     Spec.afterPosts
       (Sample.world ∅ (fun _ => Resolved Sample.graphqlFailure) Sample.noFault)
       [EvPost (GetColumnValue "123" "numbers")] 1).
Proof.
  refine (proj1 (proj2 (proj2 (graphql_error_surfaces_without_retry
            Sample.numberToString None MondayApiService.defaultRetryConfig
            (Sample.world ∅ (fun _ => Resolved Sample.graphqlFailure) Sample.noFault)
            Sample.graphqlFailure _ _ _))) "123" "numbers").
  - simpl. lia.
  - reflexivity.
  - reflexivity.
Defined.

(* ===================================================================== *)
(** ** Floating-point facts *)
(* ===================================================================== *)

(** A number below zero fails the [min: 0] validator of the Factor schema. *)
Lemma negative_fails_validation (x : float) :
  PrimFloat.ltb x 0 = true -> Factor.validate x = false.
Proof.
  unfold Factor.validate. rewrite ltb_spec, leb_spec.
  replace (Prim2SF 0) with (S754_zero false) by reflexivity.
  destruct (Prim2SF x) as [[]|[]| |[] m e]; unfold SFltb, SFleb; simpl; congruence.
Qed.

(* ===================================================================== *)
(** ** The factor store and the audit log *)
(* ===================================================================== *)

Section FactorStore.

Import CalculationService Spec.

Variable parseFloat : string -> float.
Variable numberToString : float -> string.
Variable DEFAULT_BOARD_ID : option string.
Variable mondayApi : MondayApi.t.
Variable inputColumnId : string.
Variable resultColumnId : string.

Local Abbreviation svc :=
  (CalculationService.service parseFloat numberToString DEFAULT_BOARD_ID
     mondayApi inputColumnId resultColumnId).

(** The store step of [updateFactor] fails: the lookup is rejected, the new
    value fails validation, or the write is rejected. *)
Lemma updateFactor_store_failure (itemId : string) (newFactor : float)
    (triggeredBy : TriggerType) (w : World) :
  storeFault w (storeOps w) = true
  \/ Factor.validate newFactor = false
  \/ storeFault w (S (storeOps w)) = true ->
  exists n,
    CalculationApi.updateFactor svc itemId newFactor triggeredBy w
    = (Ok failedFactorUpdate, afterStoreOps w n).
Proof.
  intros H. cbn [CalculationApi.updateFactor service].
  unfold updateFactor, tryCatch, bind, Factor.findOne, Factor.save, Factor.create,
    bind, storeOp, throw.
  destruct (storeFault w (storeOps w)) eqn:E0; [exists 1%nat; reflexivity|].
  destruct (Factor.validate newFactor) eqn:Ev.
  - destruct H as [H|[H|H]]; try discriminate.
    simpl. destruct (factors w !! itemId) eqn:Ef; simpl; rewrite H; exists 2%nat; reflexivity.
  - simpl. destruct (factors w !! itemId); exists 1%nat; reflexivity.
Qed.

(** The store step succeeds: the factor is written, and the audit entry is
    appended exactly when the store accepts it. *)
Lemma updateFactor_store_success (itemId : string) (newFactor : float)
    (triggeredBy : TriggerType) (w : World) :
  storeFault w (storeOps w) = false ->
  Factor.validate newFactor = true ->
  storeFault w (S (storeOps w)) = false ->
  let oldFactor := factorOrNull (factors w !! itemId) in
  let written := setFactors (<[itemId := newFactor]> (factors w)) (afterStoreOps w 3) in
  CalculationApi.updateFactor svc itemId newFactor triggeredBy w
  = (Ok {| FactorUpdateResult.oldFactor := oldFactor;
           FactorUpdateResult.newFactor := newFactor;
           FactorUpdateResult.success := true |},
     if storeFault w (S (S (storeOps w))) then written
     else setHistory
            (history w ++ [factorUpdateDoc numberToString itemId oldFactor newFactor triggeredBy])
            written).
Proof.
  intros E0 Ev E1. cbn [CalculationApi.updateFactor service].
  unfold updateFactor, logFactorUpdate, History.create, tryCatch, bind, Factor.findOne,
    Factor.save, Factor.create, bind, storeOp, throw, ret.
  rewrite E0, Ev. simpl.
  destruct (factors w !! itemId) eqn:Ef; simpl; rewrite E1; simpl;
    rewrite ?Ef; simpl; destruct (storeFault w (S (S (storeOps w)))); reflexivity.
Qed.

(** [getFactor] when the lookup is answered. *)
Lemma getFactor_run (itemId : string) (w : World) :
  storeFault w (storeOps w) = false ->
  CalculationApi.getFactor svc itemId w
  = (Ok (factorOrNull (factors w !! itemId)), afterStoreOps w 1).
Proof.
  intros E0. cbn [CalculationApi.getFactor service].
  unfold getFactor, tryCatch, bind, Factor.findOne, bind, storeOp, ret.
  rewrite E0. reflexivity.
Qed.

End FactorStore.

(** A factor update whose write the store accepts and logs. *)
Example updateFactor_logged :
  let w := Sample.world {[ "123" := 2.5%float ]} (Sample.readThenWrite "10") Sample.noFault in
  let out := CalculationApi.updateFactor Sample.calculationService "123" 10%float api w in
  fst out = Ok {| FactorUpdateResult.oldFactor := Some 2.5%float;
                  FactorUpdateResult.newFactor := 10%float;
                  FactorUpdateResult.success := true |}
  /\ factors (snd out) !! "123" = Some 10%float
  /\ history (snd out)
     = [ {| HistoryDocument.itemId := "123";
            HistoryDocument.action := factor_updated;
            HistoryDocument.oldValue := Some 2.5%float;
            HistoryDocument.newValue := 10%float;
            HistoryDocument.inputValue := None;
            HistoryDocument.resultValue := None;
            HistoryDocument.triggeredBy := api;
            HistoryDocument.metadata := MetaChange "2.5 → 10" |} ].
Proof. repeat split; reflexivity. Qed.

(** C3, as stated, fails: when the store rejects the write (its second
    operation here), [updateFactor] returns [success: false] and the history
    stays empty; no [factor_updated] entry is appended. *)
Lemma updateFactor_failed_write_counterexample :
  CalculationApi.updateFactor Sample.calculationService "123" 10%float api
    (Sample.world {[ "123" := 2.5%float ]} (Sample.readThenWrite "10") (Sample.faultAt 1))
  = (Ok CalculationService.failedFactorUpdate,
     Spec.afterStoreOps
       (Sample.world {[ "123" := 2.5%float ]} (Sample.readThenWrite "10") (Sample.faultAt 1))
       2)
  /\ history
       (Spec.afterStoreOps
          (Sample.world {[ "123" := 2.5%float ]} (Sample.readThenWrite "10")
             (Sample.faultAt 1)) 2)
     = []
  /\ FactorUpdateResult.success CalculationService.failedFactorUpdate = false.
Proof. repeat split; reflexivity. Qed.

(** C3, amended. [updateFactor] appends the [factor_updated] entry only after
    the store step has succeeded.  When the lookup or the write is rejected,
    or the new value fails validation, it returns [success: false] and neither
    the factors nor the history change.  When the store step succeeds it
    returns [success: true] with the factor written, and the entry is appended
    exactly when the store accepts the history document. *)
Theorem updateFactor_logs_only_after_store_success :
  forall (parseFloat : string -> float) (numberToString : float -> string)
         (DEFAULT_BOARD_ID : option string) (mondayApi : MondayApi.t)
         (inputColumnId resultColumnId itemId : string) (newFactor : float)
         (triggeredBy : TriggerType) (w : World),
    let svc := CalculationService.service parseFloat numberToString DEFAULT_BOARD_ID
                 mondayApi inputColumnId resultColumnId in
    let oldFactor := CalculationService.factorOrNull (factors w !! itemId) in
    let written :=
      setFactors (<[itemId := newFactor]> (factors w)) (Spec.afterStoreOps w 3) in
    (storeFault w (storeOps w) = true
     \/ Factor.validate newFactor = false
     \/ storeFault w (S (storeOps w)) = true ->
     exists w',
       CalculationApi.updateFactor svc itemId newFactor triggeredBy w
       = (Ok CalculationService.failedFactorUpdate, w')
       /\ FactorUpdateResult.success CalculationService.failedFactorUpdate = false
       /\ history w' = history w
       /\ factors w' = factors w)
    /\ (storeFault w (storeOps w) = false ->
        Factor.validate newFactor = true ->
        storeFault w (S (storeOps w)) = false ->
        CalculationApi.updateFactor svc itemId newFactor triggeredBy w
        = (Ok {| FactorUpdateResult.oldFactor := oldFactor;
                 FactorUpdateResult.newFactor := newFactor;
                 FactorUpdateResult.success := true |},
           if storeFault w (S (S (storeOps w))) then written
           else setHistory
                  (history w
                   ++ [ {| HistoryDocument.itemId := itemId;
                           HistoryDocument.action := factor_updated;
                           HistoryDocument.oldValue := oldFactor;
                           HistoryDocument.newValue := newFactor;
                           HistoryDocument.inputValue := None;
                           HistoryDocument.resultValue := None;
                           HistoryDocument.triggeredBy := triggeredBy;
                           HistoryDocument.metadata :=
                             HistoryDocument.metadata
                               (CalculationService.factorUpdateDoc numberToString itemId
                                  oldFactor newFactor triggeredBy) |} ])
                  written)).
Proof.
  intros pf nts board mondayApi inCol outCol itemId newFactor trig w svc oldFactor written.
  split.
  - intros H.
    destruct (updateFactor_store_failure pf nts board mondayApi inCol outCol
                itemId newFactor trig w H) as [n Hn].
    exists (Spec.afterStoreOps w n). repeat split. exact Hn.
  - intros E0 Ev E1.
    exact (updateFactor_store_success pf nts board mondayApi inCol outCol
             itemId newFactor trig w E0 Ev E1).
Qed.

(** C8. A negative factor is rejected before any write: the [min: 0]
    validator of the schema fails, [updateFactor] returns [success: false],
    the stored factor of the item is what it was and the history gains no
    entry; the route in front of it answers 400 without touching the store. *)
Theorem updateFactor_rejects_negative :
  forall (parseFloat : string -> float) (numberToString : float -> string)
         (DEFAULT_BOARD_ID : option string) (mondayApi : MondayApi.t)
         (inputColumnId resultColumnId itemId : string) (newFactor : float)
         (triggeredBy : TriggerType) (w : World),
    PrimFloat.ltb newFactor 0 = true ->
    let svc := CalculationService.service parseFloat numberToString DEFAULT_BOARD_ID
                 mondayApi inputColumnId resultColumnId in
    (exists w',
        CalculationApi.updateFactor svc itemId newFactor triggeredBy w
        = (Ok CalculationService.failedFactorUpdate, w')
        /\ FactorUpdateResult.success CalculationService.failedFactorUpdate = false
        /\ factors w' = factors w
        /\ factors w' !! itemId = factors w !! itemId
        /\ history w' = history w)
    /\ (exists message,
        ItemsRouter.postFactorRoute svc itemId (JObj [("factor", JNum newFactor)]) w
        = (Ok (ItemsRouter.Next (ItemsRouter.apiError message 400)), w)).
Proof.
  intros pf nts board mondayApi inCol outCol itemId newFactor trig w Hneg svc.
  split.
  - destruct (updateFactor_store_failure pf nts board mondayApi inCol outCol
                itemId newFactor trig w) as [n Hn].
    { right; left. apply negative_fails_validation, Hneg. }
    exists (Spec.afterStoreOps w n). repeat split. exact Hn.
  - unfold ItemsRouter.postFactorRoute, ItemsRouter.finish, ItemsRouter.requireItemId,
      tryCatch, bind, liftRes, throw, ret.
    simpl. destruct (String.eqb itemId ""); simpl.
    + eexists; reflexivity.
    + rewrite Hneg. eexists; reflexivity.
Qed.

(** Witness for C8: the factor -1 for an item whose factor is 2.5. *)
Lemma updateFactor_rejects_negative_witness :
  exists w',
    CalculationApi.updateFactor Sample.calculationService "123" (-1)%float api
      (Sample.world {[ "123" := 2.5%float ]} (Sample.readThenWrite "10") Sample.noFault)
    = (Ok CalculationService.failedFactorUpdate, w')
    /\ FactorUpdateResult.success CalculationService.failedFactorUpdate = false
    /\ factors w' = {[ "123" := 2.5%float ]}
    /\ factors w' !! "123" = Some 2.5%float
    /\ history w' = [].
Proof.
  exact (proj1 (updateFactor_rejects_negative
           Sample.parseFloat Sample.numberToString (Some "1001")
           (App.mondayApi Sample.numberToString (Some "1001") "token")
           "numbers" "result" "123" (-1)%float api
           (Sample.world {[ "123" := 2.5%float ]} (Sample.readThenWrite "10") Sample.noFault)
           eq_refl)).
Defined.

(** C9 fails on the code for the factor 0: the row exists, yet
    [factorDoc?.factor || null] reads it as [null], and the route answers
    404 "No factor found". *)
Lemma getFactor_zero_reads_as_absent :
  let w := Sample.world {[ "123" := 0%float ]} (Sample.readThenWrite "10") Sample.noFault in
  factors w !! "123" = Some 0%float
  /\ CalculationApi.getFactor Sample.calculationService "123" w
     = (Ok None, Spec.afterStoreOps w 1)
  /\ ItemsRouter.getFactorRoute Sample.calculationService "123" w
     = (Ok (ItemsRouter.Next (ItemsRouter.apiError "No factor found for item 123" 404)),
        Spec.afterStoreOps w 1).
Proof. repeat split; reflexivity. Qed.

(** What [getFactor] returns for the other stored factors: a factor that is
    neither zero nor NaN is returned as it is. *)
Lemma getFactor_nonzero (parseFloat : string -> float) (numberToString : float -> string)
    (DEFAULT_BOARD_ID : option string) (mondayApi : MondayApi.t)
    (inputColumnId resultColumnId itemId : string) (f : float) (w : World) :
  storeFault w (storeOps w) = false ->
  factors w !! itemId = Some f ->
  PrimFloat.is_zero f = false ->
  PrimFloat.is_nan f = false ->
  CalculationApi.getFactor
    (CalculationService.service parseFloat numberToString DEFAULT_BOARD_ID
       mondayApi inputColumnId resultColumnId) itemId w
  = (Ok (Some f), Spec.afterStoreOps w 1).
Proof.
  intros E0 Ef Hz Hn. rewrite getFactor_run by exact E0.
  rewrite Ef. unfold CalculationService.factorOrNull, Js.truthy. rewrite Hz, Hn. reflexivity.
Qed.

(* ===================================================================== *)
(** ** The remote client leaves the store alone *)
(* ===================================================================== *)

Section ClientFrame.

Import MondayApiService Spec.

Variable numberToString : float -> string.
Variable DEFAULT_BOARD_ID : option string.
Variable c : RetryConfig.t.

Lemma sameStore_refl (w : World) : sameStore w w.
Proof. repeat split. Qed.

Lemma sameStore_trans (w1 w2 w3 : World) :
  sameStore w1 w2 -> sameStore w2 w3 -> sameStore w1 w3.
Proof.
  unfold sameStore. intros (A1 & A2 & A3 & A4) (B1 & B2 & B3 & B4).
  repeat split; congruence.
Qed.

Lemma retryLoop_sameStore (req : GqlRequest) (fuel : nat) :
  forall (a : Z) (last : option JsError) (w : World),
    sameStore w (snd (retryLoop (post req) c fuel a last w)).
Proof.
  induction fuel as [|fuel IH]; intros a last w; simpl.
  - apply sameStore_refl.
  - destruct (a <=? RetryConfig.maxRetries c); [|apply sameStore_refl].
    unfold tryCatch. rewrite post_run.
    destruct (net w (posts w)) as [e|r]; simpl; [|repeat split].
    destruct (a =? RetryConfig.maxRetries c); simpl; [repeat split|].
    unfold bind at 1, sleep at 1.
    eapply sameStore_trans; [|apply IH]. repeat split.
Qed.

Lemma executeWithRetry_sameStore (req : GqlRequest) (ctx : string) (w : World) :
  sameStore w (snd (executeWithRetry (post req) ctx c w)).
Proof. apply retryLoop_sameStore. Qed.

Local Abbreviation svc := (MondayApiService.service numberToString DEFAULT_BOARD_ID c).

Lemma getColumnValue_sameStore (itemId columnId : string) (w : World) :
  sameStore w (snd (MondayApi.getColumnValue svc itemId columnId w)).
Proof.
  cbn [MondayApi.getColumnValue service]. unfold getColumnValue, bind.
  pose proof (executeWithRetry_sameStore (GetColumnValue itemId columnId)
                ("Get column " +:+ columnId +:+ " value for item " +:+ itemId) w) as H.
  destruct (executeWithRetry _ _ _ w) as [[r|e] w1]; simpl in H; [|exact H].
  destruct (hasErrors r); [exact H|].
  destruct (MondayApiResponse.data r) as [d|]; [|exact H].
  destruct (GqlData.items d) as [[|item ?]|]; try exact H.
  destruct (MondayItem.column_values item) as [[|cv ?]|]; try exact H.
  destruct (MondayColumnValue.text cv); exact H.
Qed.

Lemma updateColumnValue_sameStore (itemId columnId : string) (value : Js.StringOrNumber)
    (boardId : option string) (w : World) :
  sameStore w (snd (MondayApi.updateColumnValue svc itemId columnId value boardId w)).
Proof.
  cbn [MondayApi.updateColumnValue service]. unfold updateColumnValue, bind.
  pose proof (executeWithRetry_sameStore
                (UpdateColumnValue itemId columnId (Js.stringOf numberToString value)
                   (boardOrDefault DEFAULT_BOARD_ID boardId))
                ("Update column " +:+ columnId +:+ " for item " +:+ itemId) w) as H.
  destruct (executeWithRetry _ _ _ w) as [[r|e] w1]; simpl in H; [|exact H].
  destruct (hasErrors r); [exact H|].
  destruct (MondayApiResponse.data r) as [d|]; exact H.
Qed.

End ClientFrame.

(* ===================================================================== *)
(** ** Recalculation *)
(* ===================================================================== *)

Section Recalculation.

Import CalculationService Spec.

Variable parseFloat : string -> float.
Variable numberToString : float -> string.
Variable DEFAULT_BOARD_ID : option string.
Variable mondayApi : MondayApi.t.
Variable inputColumnId : string.
Variable resultColumnId : string.

Local Abbreviation svc :=
  (CalculationService.service parseFloat numberToString DEFAULT_BOARD_ID
     mondayApi inputColumnId resultColumnId).

Lemma logError_run (itemId : string) (e : JsError) (triggeredBy : TriggerType) (w : World) :
  exists w', logError itemId e triggeredBy w = (Ok tt, w').
Proof.
  unfold logError, tryCatch, History.create, bind, storeOp, throw, ret.
  destruct e; [destruct (storeFault w (storeOps w))|]; eexists; reflexivity.
Qed.

Lemma logCalculation_run (itemId : string) (i f r : float) (triggeredBy : TriggerType)
    (w : World) :
  logCalculation numberToString itemId i f r triggeredBy w
  = (Ok tt,
     if storeFault w (storeOps w) then countStoreOp w
     else setHistory (history w ++ [calculationDoc numberToString itemId i f r triggeredBy])
            (countStoreOp w)).
Proof.
  unfold logCalculation, tryCatch, History.create, bind, storeOp, ret.
  destruct (storeFault w (storeOps w)); reflexivity.
Qed.

(** The only way to [success: true]: every step of the [try] block went through. *)
Lemma calculate_success_inv (itemId : string) (triggeredBy : TriggerType)
    (w w' : World) (r : CalculationResult.t) :
  CalculationApi.calculateAndUpdateResult svc itemId triggeredBy w = (Ok r, w') ->
  CalculationResult.success r = true ->
  exists (factor : float) (text : string) (w2 w3 : World),
    storeFault w (storeOps w) = false
    /\ factors w !! itemId = Some factor
    /\ MondayApi.getColumnValue mondayApi itemId inputColumnId (countStoreOp w)
       = (Ok (Some text), w2)
    /\ PrimFloat.is_nan (parseFloat text) = false
    /\ MondayApi.updateColumnValue mondayApi itemId resultColumnId
         (Js.Num (PrimFloat.mul (parseFloat text) factor)) DEFAULT_BOARD_ID w2
       = (Ok true, w3)
    /\ r = {| CalculationResult.inputValue := parseFloat text;
              CalculationResult.factor := factor;
              CalculationResult.resultValue := PrimFloat.mul (parseFloat text) factor;
              CalculationResult.success := true |}
    /\ w' = snd (logCalculation numberToString itemId (parseFloat text) factor
                   (PrimFloat.mul (parseFloat text) factor) triggeredBy w3).
Proof.
  cbn [CalculationApi.calculateAndUpdateResult service].
  unfold calculateAndUpdateResult, tryCatch. intros H Hs.
  match type of H with
  | (match ?b with _ => _ end) = _ => destruct b as [[r0|e] w0] eqn:Hbody
  end.
  - injection H as -> ->.
    unfold bind at 1, Factor.findOne, bind at 1, storeOp in Hbody.
    destruct (storeFault w (storeOps w)) eqn:E0; [discriminate|].
    cbn [factors countStoreOp] in Hbody.
    destruct (factors w !! itemId) as [factor|] eqn:Ef; [|discriminate].
    unfold bind at 1 in Hbody.
    destruct (MondayApi.getColumnValue mondayApi itemId inputColumnId (countStoreOp w))
      as [[[text|]|e] w2] eqn:Hget; try discriminate.
    destruct (String.eqb text ""); [discriminate|].
    unfold bind at 1, liftRes, validateInputValue in Hbody.
    destruct (PrimFloat.is_nan (parseFloat text)) eqn:Hnan; [discriminate|].
    unfold bind at 1, calculateResult in Hbody.
    destruct (MondayApi.updateColumnValue mondayApi itemId resultColumnId _ _ w2)
      as [[[|]|e] w3] eqn:Hupd; cbn [negb] in Hbody; try discriminate.
    unfold bind at 1 in Hbody. rewrite logCalculation_run in Hbody.
    unfold ret in Hbody. injection Hbody as <- <-.
    exists factor, text, w2, w3. rewrite logCalculation_run. repeat split; assumption.
  - unfold bind at 1 in H.
    destruct (logError_run itemId e triggeredBy w0) as [w1 Hlog]. rewrite Hlog in H.
    unfold ret in H. injection H as <- <-. discriminate.
Qed.

End Recalculation.

(** The README's scenario: factor 2.5, input column "10". *)
Example recalculation_scenario :
  let w := Sample.world {[ "123" := 2.5%float ]} (Sample.readThenWrite "10") Sample.noFault in
  let out := CalculationApi.calculateAndUpdateResult Sample.calculationService "123" api w in
  fst out = Ok {| CalculationResult.inputValue := 10%float;
                  CalculationResult.factor := 2.5%float;
                  CalculationResult.resultValue := 25%float;
                  CalculationResult.success := true |}
  /\ trace (snd out)
     = [EvPost (GetColumnValue "123" "numbers");
        EvPost (UpdateColumnValue "123" "result" "25" (Some "1001"))]
  /\ history (snd out)
     = [ {| HistoryDocument.itemId := "123";
            HistoryDocument.action := recalculation;
            HistoryDocument.oldValue := None;
            HistoryDocument.newValue := 25%float;
            HistoryDocument.inputValue := Some 10%float;
            HistoryDocument.resultValue := Some 25%float;
            HistoryDocument.triggeredBy := api;
            HistoryDocument.metadata := MetaCalculation 2.5%float "10 * 2.5 = 25" |} ].
Proof. repeat split; reflexivity. Qed.

(** No factor stored: the recalculation fails and logs an error entry. *)
Example recalculation_without_factor :
  let w := Sample.world ∅ (Sample.readThenWrite "10") Sample.noFault in
  let out := CalculationApi.calculateAndUpdateResult Sample.calculationService "999" api w in
  fst out = Ok CalculationService.failedCalculation
  /\ history (snd out)
     = [ {| HistoryDocument.itemId := "999";
            HistoryDocument.action := recalculation;
            HistoryDocument.oldValue := None;
            HistoryDocument.newValue := 0%float;
            HistoryDocument.inputValue := None;
            HistoryDocument.resultValue := None;
            HistoryDocument.triggeredBy := api;
            HistoryDocument.metadata :=
              MetaError "No factor found for item 999" "Error" |} ].
Proof. repeat split; reflexivity. Qed.

(** C1, as stated, fails: [logCalculation] swallows a rejected
    [History.create].  Here the store rejects its second operation, the
    history write; the recalculation still returns [success: true] with
    10 * 2.5 = 25, and no entry is appended. *)
Lemma recalculation_unlogged_counterexample :
  fst (CalculationApi.calculateAndUpdateResult Sample.calculationService "123" api
         (Sample.world {[ "123" := 2.5%float ]} (Sample.readThenWrite "10")
            (Sample.faultAt 1)))
  = Ok {| CalculationResult.inputValue := 10%float;
          CalculationResult.factor := 2.5%float;
          CalculationResult.resultValue := 25%float;
          CalculationResult.success := true |}
  /\ history
       (snd (CalculationApi.calculateAndUpdateResult Sample.calculationService "123" api
               (Sample.world {[ "123" := 2.5%float ]} (Sample.readThenWrite "10")
                  (Sample.faultAt 1))))
     = [].
Proof. split; reflexivity. Qed.

(** C1, amended. A recalculation that returns [success: true] read a stored
    factor and a numeric input, and returns [resultValue] equal to the
    floating-point product [inputValue * factor], with no rounding of its
    own.  It appends exactly one [recalculation] entry, whose [newValue],
    [inputValue], [resultValue] and metadata factor are the returned values,
    when the store accepts the history document; when the store rejects it,
    the result is the same and nothing is appended. *)
Theorem recalculation_exact_and_logged_when_store_accepts :
  forall (parseFloat : string -> float) (numberToString : float -> string)
         (DEFAULT_BOARD_ID : option string) (c : RetryConfig.t)
         (inputColumnId resultColumnId itemId : string) (triggeredBy : TriggerType)
         (w w' : World) (r : CalculationResult.t),
    let remote := MondayApiService.service numberToString DEFAULT_BOARD_ID c in
    let svc := CalculationService.service parseFloat numberToString DEFAULT_BOARD_ID
                 remote inputColumnId resultColumnId in
    CalculationApi.calculateAndUpdateResult svc itemId triggeredBy w = (Ok r, w') ->
    CalculationResult.success r = true ->
    factors w !! itemId = Some (CalculationResult.factor r)
    /\ PrimFloat.is_nan (CalculationResult.inputValue r) = false
    /\ CalculationResult.resultValue r
       = PrimFloat.mul (CalculationResult.inputValue r) (CalculationResult.factor r)
    /\ factors w' = factors w
    /\ history w'
       = if storeFault w (S (storeOps w)) then history w
         else history w
              ++ [ {| HistoryDocument.itemId := itemId;
                      HistoryDocument.action := recalculation;
                      HistoryDocument.oldValue := None;
                      HistoryDocument.newValue := CalculationResult.resultValue r;
                      HistoryDocument.inputValue := Some (CalculationResult.inputValue r);
                      HistoryDocument.resultValue := Some (CalculationResult.resultValue r);
                      HistoryDocument.triggeredBy := triggeredBy;
                      HistoryDocument.metadata :=
                        MetaCalculation (CalculationResult.factor r)
                          (numberToString (CalculationResult.inputValue r) +:+ " * "
                           +:+ numberToString (CalculationResult.factor r) +:+ " = "
                           +:+ numberToString (CalculationResult.resultValue r)) |} ].
Proof.
  intros pf nts board c inCol outCol itemId trig w w' r remote svc Hrun Hs.
  destruct (calculate_success_inv pf nts board remote inCol outCol itemId trig w w' r Hrun Hs)
    as (factor & text & w2 & w3 & E0 & Ef & Hget & Hnan & Hupd & -> & ->).
  pose proof (getColumnValue_sameStore nts board c itemId inCol (countStoreOp w)) as F2.
  fold remote in F2. rewrite Hget in F2. simpl in F2.
  pose proof (updateColumnValue_sameStore nts board c itemId outCol
                (Js.Num (PrimFloat.mul (pf text) factor)) board w2) as F3.
  fold remote in F3. rewrite Hupd in F3. simpl in F3.
  destruct F2 as (A1 & A2 & A3 & A4). destruct F3 as (B1 & B2 & B3 & B4).
  rewrite logCalculation_run. cbn [CalculationResult.factor CalculationResult.inputValue
    CalculationResult.resultValue snd].
  rewrite B3, B4, A3, A4. simpl in A1, A2 |- *.
  repeat split; try assumption.
  - destruct (storeFault w (S (storeOps w))); simpl; congruence.
  - destruct (storeFault w (S (storeOps w))); simpl; rewrite B2, A2; reflexivity.
Qed.

(** Witness for C1: the README's scenario. *)
Lemma recalculation_witness :
  factors (Sample.world {[ "123" := 2.5%float ]} (Sample.readThenWrite "10") Sample.noFault)
    !! "123" = Some 2.5%float
  /\ PrimFloat.is_nan 10%float = false
  /\ 25%float = PrimFloat.mul 10%float 2.5%float
  /\ factors
       (snd (CalculationApi.calculateAndUpdateResult Sample.calculationService "123" api
               (Sample.world {[ "123" := 2.5%float ]} (Sample.readThenWrite "10")
                  Sample.noFault)))
     = {[ "123" := 2.5%float ]}
  /\ history
       (snd (CalculationApi.calculateAndUpdateResult Sample.calculationService "123" api
               (Sample.world {[ "123" := 2.5%float ]} (Sample.readThenWrite "10")
                  Sample.noFault)))
     = [ {| HistoryDocument.itemId := "123";
            HistoryDocument.action := recalculation;
            HistoryDocument.oldValue := None;
            HistoryDocument.newValue := 25%float;
            HistoryDocument.inputValue := Some 10%float;
            HistoryDocument.resultValue := Some 25%float;
            HistoryDocument.triggeredBy := api;
            HistoryDocument.metadata := MetaCalculation 2.5%float "10 * 2.5 = 25" |} ].
Proof.
  exact (recalculation_exact_and_logged_when_store_accepts
           Sample.parseFloat Sample.numberToString (Some "1001")
           MondayApiService.defaultRetryConfig "numbers" "result" "123" api
           (Sample.world {[ "123" := 2.5%float ]} (Sample.readThenWrite "10") Sample.noFault)
           (snd (CalculationApi.calculateAndUpdateResult Sample.calculationService "123" api
                   (Sample.world {[ "123" := 2.5%float ]} (Sample.readThenWrite "10")
                      Sample.noFault)))
           {| CalculationResult.inputValue := 10%float;
              CalculationResult.factor := 2.5%float;
              CalculationResult.resultValue := 25%float;
              CalculationResult.success := true |}
           eq_refl eq_refl).
Defined.

(* ===================================================================== *)
(** ** Webhook ingestion *)
(* ===================================================================== *)

Section Webhook.

Import MondayWebhookHandler Spec.

Variable parseFloat : string -> float.
Variable numberToString : float -> string.
Variable calculationService : CalculationApi.t.
Variable inputColumnId : string.

Local Abbreviation handle :=
  (MondayWebhookHandler.handleWebhook parseFloat numberToString calculationService
     inputColumnId).

Lemma prop_present (v : JsValue) (k : string) :
  Js.nullish v = false -> Js.prop v k = Ok (Js.optProp v k).
Proof. destruct v; simpl; intros H; try discriminate; reflexivity. Qed.

Lemma prop_absent (v : JsValue) (k : string) :
  Js.nullish v = true -> exists e, Js.prop v k = Throw e.
Proof. destruct v; simpl; intros H; try discriminate; eexists; reflexivity. Qed.

(** A body that is [undefined] or [null]: reading [challenge] throws. *)
Lemma handleWebhook_absent_body (body : JsValue) (w : World) :
  Js.nullish body = true ->
  handle body w = (Ok tt, responded 500 serverErrorBody w).
Proof.
  intros H. destruct (prop_absent body "challenge" H) as [e He].
  unfold handleWebhook, tryCatch, bind, liftRes. rewrite He. reflexivity.
Qed.

(** A truthy challenge is echoed; nothing else happens. *)
Lemma handleWebhook_challenge (body : JsValue) (w : World) :
  Js.nullish body = false ->
  Js.truthy (Js.optProp body "challenge") = true ->
  handle body w = (Ok tt, responded 200 (challengeBody (Js.optProp body "challenge")) w).
Proof.
  intros Hb Hc.
  unfold handleWebhook, handleWebhookChallenge, tryCatch, bind, liftRes.
  rewrite (prop_present body "challenge" Hb), Hc. reflexivity.
Qed.

Lemma shouldProcessWebhook_present (payload : JsValue) :
  Js.nullish payload = false ->
  shouldProcessWebhook payload inputColumnId
  = Ok (Js.strictEqStr (Js.optProp (Js.optProp payload "event") "type")
          "update_column_value"
        && Js.strictEqStr (Js.optProp (Js.optProp payload "event") "columnId")
             inputColumnId).
Proof.
  intros Hb. unfold shouldProcessWebhook. rewrite (prop_present payload "event" Hb).
  reflexivity.
Qed.

(** An event the filter turns down is acknowledged and ignored. *)
Lemma handleWebhook_filtered (body : JsValue) (w : World) :
  Js.nullish body = false ->
  Js.truthy (Js.optProp body "challenge") = false ->
  Js.strictEqStr (Js.optProp (Js.optProp body "event") "type") "update_column_value"
  && Js.strictEqStr (Js.optProp (Js.optProp body "event") "columnId") inputColumnId
  = false ->
  handle body w = (Ok tt, responded 200 successBody w).
Proof.
  intros Hb Hc Hf.
  unfold handleWebhook, tryCatch, bind, liftRes.
  rewrite (prop_present body "challenge" Hb), Hc.
  rewrite (shouldProcessWebhook_present body Hb), Hf. reflexivity.
Qed.

(** Falsy values are primitives: their conversion to a string never throws. *)
Lemma toString_falsy (v : JsValue) :
  Js.truthy v = false -> exists s, Js.toString numberToString v = Ok s.
Proof.
  destruct v as [| |b|n|s|elems|fields]; simpl; intros H; try discriminate; eauto.
  destruct b; eauto.
Qed.

(** A falsy [value.value] is replaced by the string "0". *)
Lemma parseInputValue_falsy (value : JsValue) :
  Js.truthy (Js.optProp value "value") = false ->
  parseInputValue parseFloat numberToString value
  = Ok (if PrimFloat.is_nan (parseFloat "0") then None else Some (parseFloat "0")).
Proof.
  intros H. unfold parseInputValue, Js.or. rewrite H. reflexivity.
Qed.

(** A truthy [value.value] is converted and parsed as it is. *)
Lemma parseInputValue_truthy (value : JsValue) :
  Js.truthy (Js.optProp value "value") = true ->
  parseInputValue parseFloat numberToString value
  = match Js.toString numberToString (Js.optProp value "value") with
    | Throw e => Throw e
    | Ok text =>
        Ok (if PrimFloat.is_nan (parseFloat text) then None else Some (parseFloat text))
    end.
Proof.
  intros H. unfold parseInputValue, Js.or. rewrite H. reflexivity.
Qed.

(** When the value was parsed (to a number or to NaN), it converts. *)
Lemma parsed_value_converts (value : JsValue) (r : option float) :
  parseInputValue parseFloat numberToString value = Ok r ->
  exists s, Js.toString numberToString (Js.optProp value "value") = Ok s.
Proof.
  intros H. destruct (Js.truthy (Js.optProp value "value")) eqn:Ht.
  - rewrite (parseInputValue_truthy value Ht) in H.
    destruct (Js.toString numberToString (Js.optProp value "value")) as [s|e];
      [eauto | discriminate].
  - apply toString_falsy. exact Ht.
Qed.

Lemma logTemplate_ok (v : JsValue) (s : string) (w : World) :
  Js.toString numberToString v = Ok s ->
  logTemplate numberToString v w = (Ok tt, w).
Proof. intros H. unfold logTemplate, bind, liftRes, ret. rewrite H. reflexivity. Qed.

Lemma logTemplate_throw (v : JsValue) (e : JsError) (w : World) :
  Js.toString numberToString v = Throw e ->
  logTemplate numberToString v w = (Throw e, w).
Proof. intros H. unfold logTemplate, bind, liftRes, ret. rewrite H. reflexivity. Qed.

(** Every run of [handleColumnChange] on a payload that is not [undefined]
    or [null].  When [pulseId] does not convert to a string, the first log
    line throws and the log line of the [catch] block throws again: the
    function rejects.  Otherwise it resolves: without a call when the value
    does not convert or parses as NaN, after one call of the orchestrator
    when the value parses. *)
Lemma handleColumnChange_run (payload : JsValue) (w : World) :
  Js.nullish payload = false ->
  handleColumnChange parseFloat numberToString calculationService payload w
  = match Js.toString numberToString (Js.optProp (Js.optProp payload "event") "pulseId") with
    | Throw e => (Throw e, w)
    | Ok itemId =>
        match parseInputValue parseFloat numberToString
                (Js.optProp (Js.optProp payload "event") "value") with
        | Ok (Some _) =>
            (Ok tt,
             snd (CalculationApi.calculateAndUpdateResult calculationService itemId
                    webhook w))
        | _ => (Ok tt, w)
        end
    end.
Proof.
  intros Hb. unfold handleColumnChange.
  match goal with |- tryCatch ?m ?h w = _ => set (body := m); set (handler := h) end.
  set (itemId := Js.optProp (Js.optProp payload "event") "pulseId").
  set (value := Js.optProp (Js.optProp payload "event") "value").
  assert (Hhandler : forall e0 w0, handler e0 w0 = logTemplate numberToString itemId w0).
  { intros e0 w0. subst handler. cbv beta. unfold bind at 1, liftRes at 1.
    rewrite (prop_present payload "event" Hb). reflexivity. }
  unfold tryCatch. subst body. unfold bind at 1, liftRes at 1.
  rewrite (prop_present payload "event" Hb). fold itemId value.
  destruct (Js.toString numberToString itemId) as [id|e] eqn:Hid.
  - unfold bind at 1. rewrite (logTemplate_ok itemId id w Hid).
    unfold bind at 1, liftRes at 1.
    destruct (parseInputValue parseFloat numberToString value) as [[n|]|e] eqn:Hp.
    + unfold bind at 1, liftRes at 1. unfold bind at 1.
      destruct (CalculationApi.calculateAndUpdateResult calculationService id webhook w)
        as [[r|e] w1].
      * rewrite (logTemplate_ok itemId id w1 Hid). reflexivity.
      * rewrite Hhandler, (logTemplate_ok itemId id w1 Hid). reflexivity.
    + destruct (parsed_value_converts value None Hp) as [s Hs].
      unfold bind at 1. rewrite (logTemplate_ok itemId id w Hid).
      rewrite (logTemplate_ok _ s w Hs). reflexivity.
    + rewrite Hhandler, (logTemplate_ok itemId id w Hid). reflexivity.
  - unfold bind at 1. rewrite (logTemplate_throw itemId e w Hid).
    rewrite Hhandler, (logTemplate_throw itemId e w Hid). reflexivity.
Qed.

(** Every run of [handleWebhook] on an event that passes the filter. *)
Lemma handleWebhook_accepted_run (body : JsValue) (w : World) :
  Js.nullish body = false ->
  Js.truthy (Js.optProp body "challenge") = false ->
  Js.strictEqStr (Js.optProp (Js.optProp body "event") "type") "update_column_value"
  && Js.strictEqStr (Js.optProp (Js.optProp body "event") "columnId") inputColumnId
  = true ->
  handle body w
  = match Js.toString numberToString (Js.optProp (Js.optProp body "event") "pulseId") with
    | Throw _ => (Ok tt, responded 500 serverErrorBody w)
    | Ok itemId =>
        match parseInputValue parseFloat numberToString
                (Js.optProp (Js.optProp body "event") "value") with
        | Ok (Some _) =>
            (Ok tt,
             responded 200 successBody
               (snd (CalculationApi.calculateAndUpdateResult calculationService itemId
                       webhook w)))
        | _ => (Ok tt, responded 200 successBody w)
        end
    end.
Proof.
  intros Hb Hc Hf.
  unfold handleWebhook, tryCatch, bind, liftRes.
  rewrite (prop_present body "challenge" Hb), Hc.
  rewrite (shouldProcessWebhook_present body Hb), Hf.
  rewrite (handleColumnChange_run body w Hb).
  destruct (Js.toString numberToString (Js.optProp (Js.optProp body "event") "pulseId"))
    as [itemId|e]; [|reflexivity].
  destruct (parseInputValue parseFloat numberToString
              (Js.optProp (Js.optProp body "event") "value")) as [[n|]|e]; reflexivity.
Qed.

End Webhook.

Lemma optProp_absent (v : JsValue) (k : string) :
  Js.nullish v = true -> Js.optProp v k = JUndefined.
Proof. destruct v; simpl; intros H; try discriminate; reflexivity. Qed.

Lemma handleWebhookVerification_challenge (body : JsValue) (w : World) :
  Js.nullish body = false ->
  Js.truthy (Js.optProp body "challenge") = true ->
  MondayWebhookHandler.handleWebhookVerification body w
  = (Ok tt, Spec.responded 200 (Spec.challengeBody (Js.optProp body "challenge")) w).
Proof.
  intros Hb Hc.
  unfold MondayWebhookHandler.handleWebhookVerification, tryCatch, bind, liftRes.
  rewrite (prop_present body "challenge" Hb), Hc. reflexivity.
Qed.

(** A webhook for another column: acknowledged, nothing recorded, nothing posted. *)
Example webhook_other_column :
  let w := Sample.world {[ "123" := 2.5%float ]} (Sample.readThenWrite "10") Sample.noFault in
  Sample.handleWebhook
    (JObj [("event", JObj [("type", JStr "update_column_value");
                           ("columnId", JStr "status");
                           ("pulseId", JNum 123%float);
                           ("value", JObj [("value", JNum 10%float)])])]) w
  = (Ok tt, Spec.responded 200 Spec.successBody w).
Proof. reflexivity. Qed.

(** C5, as stated, fails: the empty object carries neither a challenge nor an
    event envelope, and the handler answers it with 200 [{ success: true }]. *)
Lemma empty_payload_acknowledged_counterexample :
  Js.optProp (JObj []) "challenge" = JUndefined
  /\ Js.optProp (JObj []) "event" = JUndefined
  /\ Sample.handleWebhook (JObj [])
       (Sample.world ∅ (Sample.readThenWrite "10") Sample.noFault)
     = (Ok tt,
        Spec.responded 200 Spec.successBody
          (Sample.world ∅ (Sample.readThenWrite "10") Sample.noFault))
  /\ EvRespond 200 Spec.successBody <> EvRespond 500 Spec.serverErrorBody.
Proof. repeat split; try reflexivity. discriminate. Qed.

(** C5, amended. A request whose body is a value other than [undefined] and
    [null], with no truthy challenge and no event envelope, is acknowledged
    with status 200 and [{ success: true }], and nothing else happens: the
    optional chaining in the filter makes a missing envelope an ignored
    event.  The handler answers 500 when the body itself is [undefined] or
    [null], where reading [req.body.challenge] throws. *)
Theorem missing_envelope_acknowledged_absent_body_rejected :
  forall (parseFloat : string -> float) (numberToString : float -> string)
         (calculationService : CalculationApi.t) (inputColumnId : string)
         (body : JsValue) (w : World),
    (Js.nullish body = false ->
     Js.truthy (Js.optProp body "challenge") = false ->
     Js.nullish (Js.optProp body "event") = true ->
     MondayWebhookHandler.handleWebhook parseFloat numberToString calculationService
       inputColumnId body w
     = (Ok tt, Spec.responded 200 Spec.successBody w))
    /\ (Js.nullish body = true ->
        MondayWebhookHandler.handleWebhook parseFloat numberToString calculationService
          inputColumnId body w
        = (Ok tt, Spec.responded 500 Spec.serverErrorBody w)).
Proof.
  intros pf nts svc inCol body w. split.
  - intros Hb Hc He. apply handleWebhook_filtered; try assumption.
    rewrite (optProp_absent _ "type" He). reflexivity.
  - apply handleWebhook_absent_body.
Qed.

(** C6, as stated, fails: the input column of item 123 was set to the empty
    string, which [parseFloat] does not read as a number; the parser puts
    the string "0" in its place, the orchestrator runs and the recalculation
    is recorded with trigger [webhook]. *)
Lemma empty_value_recalculated_counterexample :
  PrimFloat.is_nan (Sample.parseFloat "") = true
  /\ MondayWebhookHandler.parseInputValue Sample.parseFloat Sample.numberToString
       (JObj [("value", JStr "")])
     = Ok (Some 0%float)
  /\ Sample.handleWebhook
       (JObj [("event", JObj [("type", JStr "update_column_value");
                              ("columnId", JStr "numbers");
                              ("pulseId", JNum 123%float);
                              ("value", JObj [("value", JStr "")])])])
       (Sample.world {[ "123" := 2.5%float ]} (Sample.readThenWrite "10") Sample.noFault)
     = (Ok tt,
        Spec.responded 200 Spec.successBody
          (snd (CalculationApi.calculateAndUpdateResult Sample.calculationService "123"
                  webhook
                  (Sample.world {[ "123" := 2.5%float ]} (Sample.readThenWrite "10")
                     Sample.noFault))))
  /\ map HistoryDocument.triggeredBy
       (history
          (snd (CalculationApi.calculateAndUpdateResult Sample.calculationService "123"
                  webhook
                  (Sample.world {[ "123" := 2.5%float ]} (Sample.readThenWrite "10")
                     Sample.noFault))))
     = [webhook].
Proof. repeat split; reflexivity. Qed.

(** C6, amended. An event of another type or another column, or an accepted
    event whose [value.value] is truthy and either does not convert to a
    string or converts to a text that [parseFloat] reads as NaN, while its
    [pulseId] converts to a string, gets a success response and nothing
    else: the resulting world is the one before plus the response, for every
    calculation service, so the orchestrator did not run.  (The response is
    the challenge echo when the payload also carries a truthy challenge,
    [{ success: true }] otherwise; both have status 200.)  A falsy
    [value.value] is not in this class: it is parsed as the string "0". *)
Theorem ignored_events_acknowledged_without_recalculation :
  forall (parseFloat : string -> float) (numberToString : float -> string)
         (calculationService : CalculationApi.t) (inputColumnId : string)
         (body : JsValue) (w : World),
    Js.nullish body = false ->
    Js.strictEqStr (Js.optProp (Js.optProp body "event") "type") "update_column_value" = false
    \/ Js.strictEqStr (Js.optProp (Js.optProp body "event") "columnId") inputColumnId = false
    \/ (Js.truthy (Js.optProp (Js.optProp (Js.optProp body "event") "value") "value") = true
        /\ (forall text,
              Js.toString numberToString
                (Js.optProp (Js.optProp (Js.optProp body "event") "value") "value")
              = Ok text ->
              PrimFloat.is_nan (parseFloat text) = true)
        /\ (exists itemId,
              Js.toString numberToString (Js.optProp (Js.optProp body "event") "pulseId")
              = Ok itemId)) ->
    MondayWebhookHandler.handleWebhook parseFloat numberToString calculationService
      inputColumnId body w
    = (Ok tt,
       Spec.responded 200
         (if Js.truthy (Js.optProp body "challenge")
          then Spec.challengeBody (Js.optProp body "challenge")
          else Spec.successBody) w).
Proof.
  intros pf nts svc inCol body w Hb H.
  destruct (Js.truthy (Js.optProp body "challenge")) eqn:Hc.
  - apply handleWebhook_challenge; assumption.
  - destruct (Js.strictEqStr (Js.optProp (Js.optProp body "event") "type")
                "update_column_value"
              && Js.strictEqStr (Js.optProp (Js.optProp body "event") "columnId") inCol)
      eqn:Hf.
    + destruct H as [H|[H|(Hv & Hnan & itemId & Hid)]].
      * rewrite H in Hf. discriminate.
      * rewrite H, andb_false_r in Hf. discriminate.
      * rewrite (handleWebhook_accepted_run pf nts svc inCol body w Hb Hc Hf), Hid.
        rewrite (parseInputValue_truthy pf nts _ Hv).
        destruct (Js.toString nts
                    (Js.optProp (Js.optProp (Js.optProp body "event") "value") "value"))
          as [text|e]; [|reflexivity].
        rewrite (Hnan text eq_refl). reflexivity.
    + apply handleWebhook_filtered; assumption.
Qed.

(** Witness for C6: an accepted event whose value is the string "abc". *)
Lemma ignored_events_witness :
  Sample.handleWebhook
    (JObj [("event", JObj [("type", JStr "update_column_value");
                           ("columnId", JStr "numbers");
                           ("pulseId", JNum 123%float);
                           ("value", JObj [("value", JStr "abc")])])])
    (Sample.world {[ "123" := 2.5%float ]} (Sample.readThenWrite "10") Sample.noFault)
  = (Ok tt,
     Spec.responded 200 Spec.successBody
       (Sample.world {[ "123" := 2.5%float ]} (Sample.readThenWrite "10") Sample.noFault)).
Proof.
  refine (ignored_events_acknowledged_without_recalculation
            Sample.parseFloat Sample.numberToString Sample.calculationService "numbers"
            (JObj [("event", JObj [("type", JStr "update_column_value");
                                   ("columnId", JStr "numbers");
                                   ("pulseId", JNum 123%float);
                                   ("value", JObj [("value", JStr "abc")])])])
            (Sample.world {[ "123" := 2.5%float ]} (Sample.readThenWrite "10") Sample.noFault)
            _ _).
  - reflexivity.
  - right; right. split; [reflexivity|]. split.
    + intros text Ht. injection Ht as <-. reflexivity.
    + exists "123". reflexivity.
Defined.

(** C7, as stated, fails: a payload whose [challenge] field is the empty
    string contains the field, yet it is not echoed; the handler treats the
    payload as an event and answers [{ success: true }]. *)
Lemma empty_challenge_not_echoed_counterexample :
  Js.optProp (JObj [("challenge", JStr "")]) "challenge" = JStr ""
  /\ Sample.handleWebhook (JObj [("challenge", JStr "")])
       (Sample.world ∅ (Sample.readThenWrite "10") Sample.noFault)
     = (Ok tt,
        Spec.responded 200 Spec.successBody
          (Sample.world ∅ (Sample.readThenWrite "10") Sample.noFault))
  /\ Spec.successBody <> Spec.challengeBody (JStr "").
Proof. repeat split; try reflexivity. discriminate. Qed.

(** C7, amended. A payload whose [challenge] field is truthy (a non-empty
    string, a non-zero number, [true], an object or an array) is answered
    with status 200 and that value unchanged, before any filtering or
    orchestration and whatever else the payload contains; the verification
    endpoint answers the same. *)
Theorem truthy_challenge_echoed :
  forall (parseFloat : string -> float) (numberToString : float -> string)
         (calculationService : CalculationApi.t) (inputColumnId : string)
         (body : JsValue) (w : World),
    Js.truthy (Js.optProp body "challenge") = true ->
    MondayWebhookHandler.handleWebhook parseFloat numberToString calculationService
      inputColumnId body w
    = (Ok tt, Spec.responded 200 (Spec.challengeBody (Js.optProp body "challenge")) w)
    /\ MondayWebhookHandler.handleWebhookVerification body w
       = (Ok tt, Spec.responded 200 (Spec.challengeBody (Js.optProp body "challenge")) w).
Proof.
  intros pf nts svc inCol body w Hc.
  assert (Hb : Js.nullish body = false).
  { destruct (Js.nullish body) eqn:Hn; [|reflexivity].
    rewrite (optProp_absent body "challenge" Hn) in Hc. discriminate. }
  split.
  - apply handleWebhook_challenge; assumption.
  - apply handleWebhookVerification_challenge; assumption.
Qed.

(** Witness for C7: a challenge sent together with an event for the input column. *)
Lemma truthy_challenge_witness :
  Sample.handleWebhook
    (JObj [("challenge", JStr "3eZbrw1aBm2rZgRNFdxV2595E9CY3gmdALWMmHkvFXO7tYXAYM8P");
           ("event", JObj [("type", JStr "update_column_value");
                           ("columnId", JStr "numbers");
                           ("pulseId", JNum 123%float);
                           ("value", JObj [("value", JNum 10%float)])])])
    (Sample.world {[ "123" := 2.5%float ]} (Sample.readThenWrite "10") Sample.noFault)
  = (Ok tt,
     Spec.responded 200
       (Spec.challengeBody (JStr "3eZbrw1aBm2rZgRNFdxV2595E9CY3gmdALWMmHkvFXO7tYXAYM8P"))
       (Sample.world {[ "123" := 2.5%float ]} (Sample.readThenWrite "10") Sample.noFault)).
Proof.
  exact (proj1 (truthy_challenge_echoed
           Sample.parseFloat Sample.numberToString Sample.calculationService "numbers"
           (JObj [("challenge", JStr "3eZbrw1aBm2rZgRNFdxV2595E9CY3gmdALWMmHkvFXO7tYXAYM8P");
                  ("event", JObj [("type", JStr "update_column_value");
                                  ("columnId", JStr "numbers");
                                  ("pulseId", JNum 123%float);
                                  ("value", JObj [("value", JNum 10%float)])])])
           (Sample.world {[ "123" := 2.5%float ]} (Sample.readThenWrite "10") Sample.noFault)
           eq_refl)).
Defined.

(** C10, as stated, fails: the event passes the filter and its [value.value]
    is 0, which the parser reads as the number 0, but its [pulseId] is an
    object with a key "toString"; the log line that interpolates it throws,
    so does the one of the [catch] block, [handleColumnChange] rejects
    before any recalculation and the sender is answered with status 500. *)
Lemma unconvertible_pulseId_not_recalculated_counterexample :
  MondayWebhookHandler.parseInputValue Sample.parseFloat Sample.numberToString
    (JObj [("value", JNum 0%float)])
  = Ok (Some 0%float)
  /\ MondayWebhookHandler.handleColumnChange Sample.parseFloat Sample.numberToString
       Sample.calculationService
       (JObj [("event", JObj [("type", JStr "update_column_value");
                              ("columnId", JStr "numbers");
                              ("pulseId", JObj [("toString", JNum 1%float)]);
                              ("value", JObj [("value", JNum 0%float)])])])
       (Sample.world {[ "123" := 2.5%float ]} (Sample.readThenWrite "10") Sample.noFault)
     = (Throw (typeError "Cannot convert object to primitive value"),
        Sample.world {[ "123" := 2.5%float ]} (Sample.readThenWrite "10") Sample.noFault)
  /\ Sample.handleWebhook
       (JObj [("event", JObj [("type", JStr "update_column_value");
                              ("columnId", JStr "numbers");
                              ("pulseId", JObj [("toString", JNum 1%float)]);
                              ("value", JObj [("value", JNum 0%float)])])])
       (Sample.world {[ "123" := 2.5%float ]} (Sample.readThenWrite "10") Sample.noFault)
     = (Ok tt,
        Spec.responded 500 Spec.serverErrorBody
          (Sample.world {[ "123" := 2.5%float ]} (Sample.readThenWrite "10")
             Sample.noFault)).
Proof. repeat split; reflexivity. Qed.

(** C10, amended. When [value.value] of an event is missing, [null], [0] or
    the empty string (or any other falsy value), [parseInputValue] parses
    the string "0" in its place and yields the number 0; when moreover the
    [pulseId] of the event converts to a string (as every number and string
    does), the event is not dropped: [handleColumnChange] calls the
    orchestrator for the item with trigger [webhook], and the handler then
    acknowledges the sender. *)
Theorem falsy_value_parsed_as_zero_triggers_recalculation :
  forall (parseFloat : string -> float) (numberToString : float -> string)
         (calculationService : CalculationApi.t) (inputColumnId : string),
    parseFloat "0" = 0%float ->
    (Js.truthy JUndefined = false /\ Js.truthy JNull = false
     /\ Js.truthy (JNum 0%float) = false /\ Js.truthy (JStr "") = false)
    /\ (forall value,
        Js.truthy (Js.optProp value "value") = false ->
        Js.or (Js.optProp value "value") (JStr "0") = JStr "0"
        /\ MondayWebhookHandler.parseInputValue parseFloat numberToString value
           = Ok (Some 0%float))
    /\ (forall body w itemId,
        Js.nullish body = false ->
        Js.truthy (Js.optProp (Js.optProp (Js.optProp body "event") "value") "value")
        = false ->
        Js.toString numberToString (Js.optProp (Js.optProp body "event") "pulseId")
        = Ok itemId ->
        let recalculated :=
          snd (CalculationApi.calculateAndUpdateResult calculationService itemId webhook w) in
        MondayWebhookHandler.handleColumnChange parseFloat numberToString
          calculationService body w
        = (Ok tt, recalculated)
        /\ (Js.truthy (Js.optProp body "challenge") = false ->
            Js.strictEqStr (Js.optProp (Js.optProp body "event") "type")
              "update_column_value"
            && Js.strictEqStr (Js.optProp (Js.optProp body "event") "columnId")
                 inputColumnId = true ->
            MondayWebhookHandler.handleWebhook parseFloat numberToString
              calculationService inputColumnId body w
            = (Ok tt, Spec.responded 200 Spec.successBody recalculated))).
Proof.
  intros pf nts svc inCol Hzero.
  assert (Hparse : forall value,
             Js.truthy (Js.optProp value "value") = false ->
             MondayWebhookHandler.parseInputValue pf nts value = Ok (Some 0%float)).
  { intros value Hv. rewrite (parseInputValue_falsy pf nts value Hv), Hzero. reflexivity. }
  split; [repeat split|]. split.
  - intros value Hv. split; [|apply Hparse; exact Hv].
    unfold Js.or. rewrite Hv. reflexivity.
  - intros body w itemId Hb Hv Hid recalculated. split.
    + rewrite (handleColumnChange_run pf nts svc body w Hb), Hid, (Hparse _ Hv).
      reflexivity.
    + intros Hc Hf.
      rewrite (handleWebhook_accepted_run pf nts svc inCol body w Hb Hc Hf), Hid,
        (Hparse _ Hv).
      reflexivity.
Qed.

(** Witness for C10: the input column of item 123 was set to 0; the
    recalculation runs and is recorded with trigger [webhook]. *)
Lemma falsy_value_witness :
  Sample.handleWebhook
    (JObj [("event", JObj [("type", JStr "update_column_value");
                           ("columnId", JStr "numbers");
                           ("pulseId", JNum 123%float);
                           ("value", JObj [("value", JNum 0%float)])])])
    (Sample.world {[ "123" := 2.5%float ]} (Sample.readThenWrite "10") Sample.noFault)
  = (Ok tt,
     Spec.responded 200 Spec.successBody
       (snd (CalculationApi.calculateAndUpdateResult Sample.calculationService "123" webhook
               (Sample.world {[ "123" := 2.5%float ]} (Sample.readThenWrite "10")
                  Sample.noFault)))).
Proof.
  refine (proj2 (proj2 (proj2 (falsy_value_parsed_as_zero_triggers_recalculation
            Sample.parseFloat Sample.numberToString Sample.calculationService "numbers" _))
            (JObj [("event", JObj [("type", JStr "update_column_value");
                                   ("columnId", JStr "numbers");
                                   ("pulseId", JNum 123%float);
                                   ("value", JObj [("value", JNum 0%float)])])])
            (Sample.world {[ "123" := 2.5%float ]} (Sample.readThenWrite "10") Sample.noFault)
            "123" _ _ _) _ _); reflexivity.
Defined.

(** The recalculation of the witness is recorded in the history. *)
Example webhook_zero_value_recorded :
  let w := Sample.world {[ "123" := 2.5%float ]} (Sample.readThenWrite "10") Sample.noFault in
  let out :=
    Sample.handleWebhook
      (JObj [("event", JObj [("type", JStr "update_column_value");
                             ("columnId", JStr "numbers");
                             ("pulseId", JNum 123%float);
                             ("value", JObj [("value", JNum 0%float)])])]) w in
  map HistoryDocument.triggeredBy (history (snd out)) = [webhook]
  /\ map HistoryDocument.newValue (history (snd out)) = [25%float]
  /\ trace (snd out)
     = [EvPost (GetColumnValue "123" "numbers");
        EvPost (UpdateColumnValue "123" "result" "25" (Some "1001"));
        EvRespond 200 Spec.successBody].
Proof. repeat split; reflexivity. Qed.

(* ===================================================================== *)
(** ** Further properties of the retry policy *)
(* ===================================================================== *)

Lemma totalSleep_app (l1 l2 : list Event) :
  Obs.totalSleep (l1 ++ l2) = Obs.totalSleep l1 + Obs.totalSleep l2.
Proof.
  induction l1 as [|ev l1 IH]; simpl; [reflexivity|].
  destruct ev; rewrite IH; lia.
Qed.

Lemma failedAttempts_totalSleep (req : GqlRequest) (c : RetryConfig.t) (k : nat) :
  forall a, Obs.totalSleep (Spec.failedAttempts req c a k)
            <= Z.of_nat k * RetryConfig.maxDelay c.
Proof.
  induction k as [|k IH]; intros a; [simpl; lia|].
  cbn [Spec.failedAttempts Obs.totalSleep].
  specialize (IH (a + 1)).
  assert (Spec.backoffDelay c a <= RetryConfig.maxDelay c) by (apply Z.le_min_r).
  lia.
Qed.

(** Every run of a retried post, whatever the network does. *)
Lemma retry_run_exists :
  forall (req : GqlRequest) (ctx : string) (c : RetryConfig.t) (w : World),
    0 <= RetryConfig.maxRetries c ->
    exists k : nat,
      Z.of_nat k <= RetryConfig.maxRetries c
      /\ (forall i, (i < k)%nat -> Spec.rejected (net w (posts w + i)) = true)
      /\ (Spec.rejected (net w (posts w + k)) = true -> Z.of_nat k = RetryConfig.maxRetries c)
      /\ MondayApiService.executeWithRetry (MondayApiService.post req) ctx c w
         = (Spec.settle (net w (posts w + k)),
            Spec.afterPosts w (Spec.retrySchedule req c k) (S k)).
Proof.
  intros req ctx c w Hmax.
  destruct (failure_patterns w (Z.to_nat (RetryConfig.maxRetries c)))
    as [(k & r & Hk & Hrej & Hres)|(e & Hrej & Hlast)].
  - exists k. assert (Hk' : Z.of_nat k <= RetryConfig.maxRetries c) by lia.
    assert (Hstop : Spec.rejected (net w (posts w + k)) = true ->
                    Z.of_nat k = RetryConfig.maxRetries c)
      by (rewrite Hres; discriminate).
    repeat split; try assumption.
    apply executeWithRetry_run; assumption.
  - exists (Z.to_nat (RetryConfig.maxRetries c)).
    assert (Hk' : Z.of_nat (Z.to_nat (RetryConfig.maxRetries c)) <= RetryConfig.maxRetries c)
      by lia.
    assert (Hstop : Spec.rejected (net w (posts w + Z.to_nat (RetryConfig.maxRetries c))) = true ->
                    Z.of_nat (Z.to_nat (RetryConfig.maxRetries c)) = RetryConfig.maxRetries c)
      by (intros _; lia).
    repeat split; try assumption.
    apply executeWithRetry_run; assumption.
Qed.

(** X1. Whatever the network does, a retried post makes at least one and at
    most [maxRetries + 1] attempts: there is a [k <= maxRetries] such that the
    first [k] posts were rejected, post [k] settles the call, and the run is
    the backoff schedule of [k] failures. *)
Theorem retry_attempts_within_budget :
  forall (req : GqlRequest) (ctx : string) (c : RetryConfig.t) (w : World),
    0 <= RetryConfig.maxRetries c ->
    exists k : nat,
      Z.of_nat k <= RetryConfig.maxRetries c
      /\ (forall i, (i < k)%nat -> Spec.rejected (net w (posts w + i)) = true)
      /\ (Spec.rejected (net w (posts w + k)) = true -> Z.of_nat k = RetryConfig.maxRetries c)
      /\ MondayApiService.executeWithRetry (MondayApiService.post req) ctx c w
         = (Spec.settle (net w (posts w + k)),
            Spec.afterPosts w (Spec.retrySchedule req c k) (S k)).
Proof. exact retry_run_exists. Qed.

(** Witness for X1: the defaults against a board whose first answer resolves. *)
Lemma retry_attempts_witness :
  exists k : nat,
    Z.of_nat k <= 3
    /\ (forall i, (i < k)%nat ->
                  Spec.rejected
                    (net (Sample.world ∅ (Sample.readThenWrite "10") Sample.noFault)
                         (0 + i)) = true)
    /\ (Spec.rejected
          (net (Sample.world ∅ (Sample.readThenWrite "10") Sample.noFault) (0 + k)) = true ->
        Z.of_nat k = 3)
    /\ MondayApiService.executeWithRetry
         (MondayApiService.post (GetColumnValue "123" "numbers")) "read"
         MondayApiService.defaultRetryConfig
         (Sample.world ∅ (Sample.readThenWrite "10") Sample.noFault)
       = (Spec.settle
            (net (Sample.world ∅ (Sample.readThenWrite "10") Sample.noFault) (0 + k)),
          Spec.afterPosts (Sample.world ∅ (Sample.readThenWrite "10") Sample.noFault)
            (Spec.retrySchedule (GetColumnValue "123" "numbers")
               MondayApiService.defaultRetryConfig k) (S k)).
Proof.
  refine (retry_attempts_within_budget (GetColumnValue "123" "numbers") "read"
            MondayApiService.defaultRetryConfig
            (Sample.world ∅ (Sample.readThenWrite "10") Sample.noFault) _).
  simpl. lia.
Defined.

(** X2. The time a retried post spends sleeping is bounded: for every
    behaviour of the network the delays of one call add up to at most
    [maxRetries * maxDelay] milliseconds, and at most [maxRetries + 1] posts
    are made. *)
Theorem retry_total_delay_bounded :
  forall (req : GqlRequest) (ctx : string) (c : RetryConfig.t) (w : World),
    0 <= RetryConfig.maxRetries c ->
    0 <= RetryConfig.maxDelay c ->
    exists evs : list Event,
      trace (snd (MondayApiService.executeWithRetry (MondayApiService.post req) ctx c w))
      = trace w ++ evs
      /\ Obs.totalSleep evs <= RetryConfig.maxRetries c * RetryConfig.maxDelay c
      /\ Obs.requests evs = repeat req (length (Obs.requests evs))
      /\ (1 <= length (Obs.requests evs))%nat
      /\ Z.of_nat (length (Obs.requests evs)) <= RetryConfig.maxRetries c + 1
      /\ posts (snd (MondayApiService.executeWithRetry (MondayApiService.post req) ctx c w))
         = (posts w + length (Obs.requests evs))%nat.
Proof.
  intros req ctx c w Hmax Hdelay.
  destruct (retry_run_exists req ctx c w Hmax) as (k & Hk & _ & _ & Hrun).
  rewrite Hrun. cbn [snd Spec.afterPosts trace posts].
  exists (Spec.retrySchedule req c k).
  assert (Hreq : forall a, Obs.requests (Spec.failedAttempts req c a k) = repeat req k).
  { clear. induction k as [|k IH]; intros a; [reflexivity|].
    cbn [Spec.failedAttempts Obs.requests repeat]. rewrite IH. reflexivity. }
  assert (Hreqs : Obs.requests (Spec.retrySchedule req c k) = repeat req (S k)).
  { unfold Spec.retrySchedule.
    assert (Happ : forall l1 l2, Obs.requests (l1 ++ l2) = Obs.requests l1 ++ Obs.requests l2).
    { clear. induction l1 as [|ev l1 IH]; intros l2; [reflexivity|].
      destruct ev; simpl; rewrite IH; reflexivity. }
    rewrite Happ, Hreq. simpl. rewrite <- repeat_cons. reflexivity. }
  rewrite Hreqs, repeat_length.
  split; [reflexivity|]. split.
  - unfold Spec.retrySchedule. rewrite totalSleep_app. simpl.
    pose proof (failedAttempts_totalSleep req c k 0).
    assert (Z.of_nat k * RetryConfig.maxDelay c
            <= RetryConfig.maxRetries c * RetryConfig.maxDelay c)
      by (apply Z.mul_le_mono_nonneg_r; lia).
    lia.
  - repeat split; lia.
Qed.

(** Witness for X2: the defaults against a host that never answers sleep
    1000 + 2000 + 4000 ms, within the bound of 30000 ms. *)
Lemma retry_total_delay_witness :
  exists evs : list Event,
    trace (snd (MondayApiService.executeWithRetry
                  (MondayApiService.post (GetItem "1" "b")) "Get item 1"
                  MondayApiService.defaultRetryConfig
                  (Sample.world ∅ (fun _ => Rejected Sample.unreachable) Sample.noFault)))
    = [] ++ evs
    /\ Obs.totalSleep evs <= 3 * 10000
    /\ Obs.requests evs = repeat (GetItem "1" "b") (length (Obs.requests evs))
    /\ (1 <= length (Obs.requests evs))%nat
    /\ Z.of_nat (length (Obs.requests evs)) <= 3 + 1
    /\ posts (snd (MondayApiService.executeWithRetry
                     (MondayApiService.post (GetItem "1" "b")) "Get item 1"
                     MondayApiService.defaultRetryConfig
                     (Sample.world ∅ (fun _ => Rejected Sample.unreachable) Sample.noFault)))
       = (0 + length (Obs.requests evs))%nat.
Proof.
  refine (retry_total_delay_bounded (GetItem "1" "b") "Get item 1"
            MondayApiService.defaultRetryConfig
            (Sample.world ∅ (fun _ => Rejected Sample.unreachable) Sample.noFault) _ _);
    simpl; lia.
Defined.

(** X3. A negative [maxRetries] disables the call altogether: the loop body
    never runs, the operation is not invoked, and [executeWithRetry] throws
    the unassigned [lastError], that is [undefined]. *)
Theorem retry_negative_budget_never_calls :
  forall (T : Type) (operation : M T) (ctx : string) (c : RetryConfig.t) (w : World),
    RetryConfig.maxRetries c < 0 ->
    MondayApiService.executeWithRetry operation ctx c w = (Throw ThrownUndefined, w).
Proof.
  intros T operation ctx c w Hneg. unfold MondayApiService.executeWithRetry.
  replace (Z.to_nat (RetryConfig.maxRetries c + 1)) with O by lia.
  reflexivity.
Qed.

(** Witness for X3: [maxRetries = -1] and a board that would answer. *)
Lemma retry_negative_budget_witness :
  MondayApiService.executeWithRetry
    (MondayApiService.post (GetItem "1" "b")) "Get item 1"
    (RetryConfig.mk (-1) 1000 10000 2)
    (Sample.world ∅ (Sample.readThenWrite "10") Sample.noFault)
  = (Throw ThrownUndefined, Sample.world ∅ (Sample.readThenWrite "10") Sample.noFault).
Proof.
  refine (retry_negative_budget_never_calls _
            (MondayApiService.post (GetItem "1" "b")) "Get item 1"
            (RetryConfig.mk (-1) 1000 10000 2)
            (Sample.world ∅ (Sample.readThenWrite "10") Sample.noFault) _).
  simpl. lia.
Defined.

(* ===================================================================== *)
(** ** Further properties of the remote operations *)
(* ===================================================================== *)

Section RemoteExtras.

Import MondayApiService Spec.

Variable numberToString : float -> string.
Variable DEFAULT_BOARD_ID : option string.
Variable c : RetryConfig.t.

Local Abbreviation svc := (MondayApiService.service numberToString DEFAULT_BOARD_ID c).

(** A post that resolves at once ends the retried call there. *)
Lemma executeWithRetry_first_resolved (req : GqlRequest) (ctx : string) (w : World)
    (r : MondayApiResponse.t) :
  0 <= RetryConfig.maxRetries c ->
  net w (posts w) = Resolved r ->
  executeWithRetry (post req) ctx c w = (Ok r, afterPosts w [EvPost req] 1).
Proof.
  intros Hmax Hnet.
  rewrite (executeWithRetry_run req c 0 w).
  - rewrite Nat.add_0_r, Hnet. reflexivity.
  - simpl. lia.
  - intros i Hi. lia.
  - rewrite Nat.add_0_r, Hnet. discriminate.
Qed.

Lemma getItem_sameStore (itemId boardId : string) (w : World) :
  sameStore w (snd (MondayApi.getItem svc itemId boardId w)).
Proof.
  cbn [MondayApi.getItem service]. unfold getItem, bind.
  pose proof (executeWithRetry_sameStore c (GetItem itemId boardId)
                ("Get item " +:+ itemId) w) as H.
  destruct (executeWithRetry _ _ _ w) as [[r|e] w1]; simpl in H; [|exact H].
  destruct (hasErrors r); [exact H|].
  destruct (MondayApiResponse.data r) as [d|]; [|exact H].
  destruct (GqlData.items d) as [[|item ?]|]; exact H.
Qed.

Lemma getBoardById_sameStore (boardId : string) (w : World) :
  sameStore w (snd (MondayApi.getBoardById svc boardId w)).
Proof.
  cbn [MondayApi.getBoardById service]. unfold getBoardById, bind.
  pose proof (executeWithRetry_sameStore c (GetBoardById boardId)
                ("Get board " +:+ boardId) w) as H.
  destruct (executeWithRetry _ _ _ w) as [[r|e] w1]; simpl in H; [|exact H].
  destruct (hasErrors r); [exact H|].
  destruct (MondayApiResponse.data r) as [d|]; [|exact H].
  destruct (GqlData.boards d); exact H.
Qed.

End RemoteExtras.

(** X4. [getColumnValue] never returns the empty string: an empty column
    text, like a missing item or column, is reported as [null]. *)
Theorem getColumnValue_never_empty_text :
  forall (numberToString : float -> string) (DEFAULT_BOARD_ID : option string)
         (c : RetryConfig.t) (itemId columnId : string) (w : World) (text : string),
    fst (MondayApi.getColumnValue
           (MondayApiService.service numberToString DEFAULT_BOARD_ID c) itemId columnId w)
    = Ok (Some text) ->
    String.eqb text "" = false.
Proof.
  intros nts board c itemId columnId w text.
  cbn [MondayApi.getColumnValue MondayApiService.service].
  unfold MondayApiService.getColumnValue, bind.
  destruct (MondayApiService.executeWithRetry _ _ _ w) as [[r|e] w1]; [|discriminate].
  destruct (MondayApiService.hasErrors r); [discriminate|].
  destruct (MondayApiResponse.data r) as [d|]; [|discriminate].
  destruct (GqlData.items d) as [[|item ?]|]; try discriminate.
  destruct (MondayItem.column_values item) as [[|cv ?]|]; try discriminate.
  destruct (MondayColumnValue.text cv) as [s|]; [|discriminate].
  destruct (String.eqb s "") eqn:E; [discriminate|].
  unfold ret. simpl. intros H. injection H as <-. exact E.
Qed.

(** Witness for X4: the input column reads "10". *)
Lemma getColumnValue_never_empty_witness :
  fst (MondayApi.getColumnValue
         (MondayApiService.service Sample.numberToString None
            MondayApiService.defaultRetryConfig) "123" "numbers"
         (Sample.world ∅ (Sample.readThenWrite "10") Sample.noFault))
  = Ok (Some "10")
  /\ String.eqb "10" "" = false.
Proof.
  split; [reflexivity|].
  exact (getColumnValue_never_empty_text Sample.numberToString None
           MondayApiService.defaultRetryConfig "123" "numbers"
           (Sample.world ∅ (Sample.readThenWrite "10") Sample.noFault) "10" eq_refl).
Defined.

(** X5. An answer without errors and without items is read differently by
    the two readers: [getItem] throws "Item ... not found", [getColumnValue]
    returns [null]; either way the answer counts as a success of the post,
    so a single attempt is made. *)
Theorem missing_item_single_attempt :
  forall (numberToString : float -> string) (DEFAULT_BOARD_ID : option string)
         (c : RetryConfig.t) (w : World) (r : MondayApiResponse.t) (d : GqlData.t),
    0 <= RetryConfig.maxRetries c ->
    net w (posts w) = Resolved r ->
    MondayApiService.hasErrors r = false ->
    MondayApiResponse.data r = Some d ->
    GqlData.items d = None \/ GqlData.items d = Some [] ->
    let svc := MondayApiService.service numberToString DEFAULT_BOARD_ID c in
    (forall itemId boardId,
        MondayApi.getItem svc itemId boardId w
        = (Throw (newError ("Item " +:+ itemId +:+ " not found")),
           Spec.afterPosts w [EvPost (GetItem itemId boardId)] 1))
    /\ (forall itemId columnId,
        MondayApi.getColumnValue svc itemId columnId w
        = (Ok None, Spec.afterPosts w [EvPost (GetColumnValue itemId columnId)] 1)).
Proof.
  intros nts board c w r d Hmax Hnet Herr Hdata Hitems svc. subst svc. split.
  - intros itemId boardId. cbn [MondayApi.getItem MondayApiService.service].
    unfold MondayApiService.getItem, bind.
    rewrite (executeWithRetry_first_resolved c _ _ w r Hmax Hnet), Herr, Hdata.
    destruct Hitems as [->| ->]; reflexivity.
  - intros itemId columnId. cbn [MondayApi.getColumnValue MondayApiService.service].
    unfold MondayApiService.getColumnValue, bind.
    rewrite (executeWithRetry_first_resolved c _ _ w r Hmax Hnet), Herr, Hdata.
    destruct Hitems as [->| ->]; reflexivity.
Qed.

(** Witness for X5: the board answers with an empty list of items. *)
Lemma missing_item_witness :
  MondayApi.getColumnValue
    (MondayApiService.service Sample.numberToString None MondayApiService.defaultRetryConfig)
    "123" "numbers"
    (Sample.world ∅
       (fun _ => Resolved (MondayApiResponse.mk (Some (GqlData.mk (Some []) None None)) None))
       Sample.noFault)
  = (Ok None,
     Spec.afterPosts
       (Sample.world ∅
          (fun _ => Resolved (MondayApiResponse.mk (Some (GqlData.mk (Some []) None None)) None))
          Sample.noFault)
       [EvPost (GetColumnValue "123" "numbers")] 1).
Proof.
  refine (proj2 (missing_item_single_attempt Sample.numberToString None
            MondayApiService.defaultRetryConfig
            (Sample.world ∅
               (fun _ => Resolved (MondayApiResponse.mk (Some (GqlData.mk (Some []) None None)) None))
               Sample.noFault)
            (MondayApiResponse.mk (Some (GqlData.mk (Some []) None None)) None)
            (GqlData.mk (Some []) None None) _ _ _ _ _) "123" "numbers").
  - simpl. lia.
  - reflexivity.
  - reflexivity.
  - reflexivity.
  - right. reflexivity.
Defined.

(** X6. The remote client never touches the document store: whatever the
    network does, each of its four operations leaves the factors, the history
    and the state of the store as they were. *)
Theorem remote_client_leaves_store_alone :
  forall (numberToString : float -> string) (DEFAULT_BOARD_ID : option string)
         (c : RetryConfig.t) (w : World),
    let svc := MondayApiService.service numberToString DEFAULT_BOARD_ID c in
    (forall itemId boardId,
        Spec.sameStore w (snd (MondayApi.getItem svc itemId boardId w)))
    /\ (forall itemId columnId value boardId,
        Spec.sameStore w (snd (MondayApi.updateColumnValue svc itemId columnId value boardId w)))
    /\ (forall itemId columnId,
        Spec.sameStore w (snd (MondayApi.getColumnValue svc itemId columnId w)))
    /\ (forall boardId,
        Spec.sameStore w (snd (MondayApi.getBoardById svc boardId w))).
Proof.
  intros nts board c w svc. subst svc. repeat apply conj; intros.
  - apply getItem_sameStore.
  - apply updateColumnValue_sameStore.
  - apply getColumnValue_sameStore.
  - apply getBoardById_sameStore.
Qed.

(** X7. [getAllItems] never throws: when the board cannot be read (the
    retries are exhausted, the answer carries GraphQL errors, or no board
    comes back) it returns the empty list, and it never touches the store. *)
Theorem getAllItems_never_throws :
  forall (parseFloat : string -> float) (numberToString : float -> string)
         (DEFAULT_BOARD_ID : option string) (c : RetryConfig.t)
         (inputColumnId resultColumnId boardId : string) (w : World),
    let remote := MondayApiService.service numberToString DEFAULT_BOARD_ID c in
    let svc := CalculationService.service parseFloat numberToString DEFAULT_BOARD_ID
                 remote inputColumnId resultColumnId in
    exists items : list MondayItem.t,
      CalculationApi.getAllItems svc boardId w
      = (Ok items, snd (MondayApi.getBoardById remote boardId w))
      /\ Spec.sameStore w (snd (MondayApi.getBoardById remote boardId w))
      /\ (forall e, fst (MondayApi.getBoardById remote boardId w) = Throw e -> items = [])
      /\ (fst (MondayApi.getBoardById remote boardId w) = Ok None -> items = [])
      /\ (forall b, fst (MondayApi.getBoardById remote boardId w) = Ok (Some b) ->
                    items = default [] (MondayBoard.items_page b)).
Proof.
  intros pf nts board c inCol outCol boardId w remote svc.
  pose proof (getBoardById_sameStore nts board c boardId w) as Hsame. fold remote in Hsame.
  subst svc. cbn [CalculationApi.getAllItems CalculationService.service].
  unfold CalculationService.getAllItems, tryCatch, bind.
  destruct (MondayApi.getBoardById remote boardId w) as [[[b|]|e] w1]; simpl in *.
  - exists (default [] (MondayBoard.items_page b)).
    repeat split; try assumption; try apply Hsame; intros; try discriminate.
    injection H as <-. reflexivity.
  - exists []. repeat split; try apply Hsame; intros; try discriminate; reflexivity.
  - exists []. repeat split; try apply Hsame; intros; try discriminate; reflexivity.
Qed.

(* ===================================================================== *)
(** ** Further properties of the orchestrator *)
(* ===================================================================== *)

Section OrchestratorExtras.

Import CalculationService Spec.

Variable parseFloat : string -> float.
Variable numberToString : float -> string.
Variable DEFAULT_BOARD_ID : option string.
Variable mondayApi : MondayApi.t.
Variable inputColumnId : string.
Variable resultColumnId : string.

Local Abbreviation svc :=
  (CalculationService.service parseFloat numberToString DEFAULT_BOARD_ID
     mondayApi inputColumnId resultColumnId).

(** [logError] for an error object: one store operation, one document when
    the store accepts it. *)
Lemma logError_object_run (itemId name message : string) (statusCode : option Z)
    (triggeredBy : TriggerType) (w : World) :
  logError itemId (ErrorObj name message statusCode) triggeredBy w
  = (Ok tt,
     if storeFault w (storeOps w) then countStoreOp w
     else setHistory (history w ++ [errorDoc itemId name message triggeredBy])
            (countStoreOp w)).
Proof.
  unfold logError, tryCatch, History.create, bind, storeOp, ret.
  destruct (storeFault w (storeOps w)); reflexivity.
Qed.

(** The failure branch: whatever was thrown, the result is the zero result
    and the history gains at most the error document. *)
Lemma failure_branch_run (itemId : string) (e : JsError) (triggeredBy : TriggerType)
    (w : World) :
  exists w',
    (logError itemId e triggeredBy ;; ret failedCalculation) w = (Ok failedCalculation, w')
    /\ Obs.recalculationLogged itemId triggeredBy w w'
    /\ storeFault w' = storeFault w.
Proof.
  unfold bind at 1. destruct e as [name message statusCode|].
  - rewrite logError_object_run. unfold ret.
    destruct (storeFault w (storeOps w)); eexists; (split; [reflexivity|]).
    + repeat split. left. reflexivity.
    + repeat split. right. eexists. repeat split.
  - unfold logError, tryCatch, throw, ret. eexists. split; [reflexivity|].
    repeat split. left. reflexivity.
Qed.

End OrchestratorExtras.

Lemma recalculationLogged_from (itemId : string) (triggeredBy : TriggerType)
    (w w1 w' : World) :
  factors w1 = factors w ->
  history w1 = history w ->
  Obs.recalculationLogged itemId triggeredBy w1 w' ->
  Obs.recalculationLogged itemId triggeredBy w w'.
Proof.
  intros Hf Hh (Hf' & Hlog). split; [congruence|].
  rewrite <- Hh. exact Hlog.
Qed.

(** X8. [calculateAndUpdateResult] never throws, whatever its remote client
    does: it resolves with a result, and a result that is not a success is
    the all-zero result [{ inputValue: 0, factor: 0, resultValue: 0 }]. *)
Theorem calculateAndUpdateResult_never_throws :
  forall (parseFloat : string -> float) (numberToString : float -> string)
         (DEFAULT_BOARD_ID : option string) (mondayApi : MondayApi.t)
         (inputColumnId resultColumnId itemId : string) (triggeredBy : TriggerType)
         (w : World),
    exists (r : CalculationResult.t) (w' : World),
      CalculationApi.calculateAndUpdateResult
        (CalculationService.service parseFloat numberToString DEFAULT_BOARD_ID
           mondayApi inputColumnId resultColumnId) itemId triggeredBy w
      = (Ok r, w')
      /\ (CalculationResult.success r = true \/ r = CalculationService.failedCalculation).
Proof.
  intros pf nts board mondayApi inCol outCol itemId trig w.
  cbn [CalculationApi.calculateAndUpdateResult CalculationService.service].
  unfold CalculationService.calculateAndUpdateResult.
  match goal with |- context [tryCatch _ ?h] => set (handler := h) end.
  assert (Hfail : forall e wi, exists w',
             handler e wi = (Ok CalculationService.failedCalculation, w')).
  { intros e wi. subst handler. cbv beta.
    destruct (failure_branch_run itemId e trig wi) as (w' & Hrun & _).
    exists w'. exact Hrun. }
  unfold tryCatch, bind at 1, Factor.findOne, bind at 1, storeOp.
  destruct (storeFault w (storeOps w)).
  { destruct (Hfail (ErrorObj "MongoError" "store operation failed" None) (countStoreOp w))
      as [w' ->]. eauto. }
  cbn [factors countStoreOp].
  destruct (factors w !! itemId) as [factor|].
  2:{ unfold throw. destruct (Hfail (newError ("No factor found for item " +:+ itemId))
                                (countStoreOp w)) as [w' ->]. eauto. }
  unfold bind at 1.
  destruct (MondayApi.getColumnValue mondayApi itemId inCol (countStoreOp w))
    as [[[text|]|e] w2].
  3:{ destruct (Hfail e w2) as [w' ->]. eauto. }
  2:{ unfold throw. destruct (Hfail (newError ("No input value found for item " +:+ itemId)) w2)
        as [w' ->]. eauto. }
  destruct (String.eqb text "").
  { unfold throw. destruct (Hfail (newError ("No input value found for item " +:+ itemId)) w2)
      as [w' ->]. eauto. }
  unfold bind at 1, liftRes, CalculationService.validateInputValue.
  destruct (PrimFloat.is_nan (pf text)).
  { destruct (Hfail (newError ("Invalid input value: " +:+ text)) w2) as [w' ->]. eauto. }
  unfold bind at 1, CalculationService.calculateResult.
  destruct (MondayApi.updateColumnValue mondayApi itemId outCol _ _ w2) as [[[|]|e] w3];
    cbn [negb].
  3:{ destruct (Hfail e w3) as [w' ->]. eauto. }
  2:{ unfold throw.
      destruct (Hfail (newError "Failed to update result column in Monday.com") w3)
        as [w' ->]. eauto. }
  unfold bind at 1. rewrite logCalculation_run. unfold ret.
  eexists _, _. split; [reflexivity|]. left. reflexivity.
Qed.


Ltac run_orchestrator :=
  cbn [CalculationApi.calculateAndUpdateResult CalculationService.service];
  unfold CalculationService.calculateAndUpdateResult, tryCatch, bind, Factor.findOne,
    bind, storeOp, throw, liftRes, CalculationService.validateInputValue,
    CalculationService.calculateResult, ret, newError.

(** X10. When the factor lookup is rejected or finds no row, the
    recalculation fails without contacting the board: the result is the
    all-zero failure, the outcome does not depend on the remote client, and
    the only effect is the error document (for a missing row, the message
    "No factor found for item ..."), appended when the store accepts it. *)
Theorem recalculation_without_factor_never_contacts_board :
  forall (parseFloat : string -> float) (numberToString : float -> string)
         (DEFAULT_BOARD_ID : option string) (mondayApi : MondayApi.t)
         (inputColumnId resultColumnId itemId : string) (triggeredBy : TriggerType)
         (w : World),
    storeFault w (storeOps w) = true \/ factors w !! itemId = None ->
    exists name message,
      CalculationApi.calculateAndUpdateResult
        (CalculationService.service parseFloat numberToString DEFAULT_BOARD_ID
           mondayApi inputColumnId resultColumnId) itemId triggeredBy w
      = (Ok CalculationService.failedCalculation,
         if storeFault w (S (storeOps w)) then Spec.afterStoreOps w 2
         else setHistory
                (history w
                 ++ [CalculationService.errorDoc itemId name message triggeredBy])
                (Spec.afterStoreOps w 2))
      /\ (storeFault w (storeOps w) = false ->
          name = "Error" /\ message = "No factor found for item " +:+ itemId).
Proof.
  intros pf nts board mondayApi inCol outCol itemId trig w H.
  run_orchestrator.
  destruct (storeFault w (storeOps w)) eqn:E0.
  - exists "MongoError", "store operation failed".
    rewrite logError_object_run. simpl. split; [|discriminate].
    destruct (storeFault w (S (storeOps w))); reflexivity.
  - destruct H as [H|H]; [discriminate|]. simpl. rewrite H.
    exists "Error", ("No factor found for item " +:+ itemId).
    rewrite logError_object_run. simpl. split; [|auto].
    destruct (storeFault w (S (storeOps w))); reflexivity.
Qed.

(** Witness for X10: no factor is stored for item 999. *)
Lemma recalculation_without_factor_witness :
  exists name message,
    CalculationApi.calculateAndUpdateResult Sample.calculationService "999" api
      (Sample.world ∅ (Sample.readThenWrite "10") Sample.noFault)
    = (Ok CalculationService.failedCalculation,
       if Sample.noFault 1%nat
       then Spec.afterStoreOps (Sample.world ∅ (Sample.readThenWrite "10") Sample.noFault) 2
       else setHistory
              ([] ++ [CalculationService.errorDoc "999" name message api])
              (Spec.afterStoreOps
                 (Sample.world ∅ (Sample.readThenWrite "10") Sample.noFault) 2))
    /\ (Sample.noFault 0%nat = false ->
        name = "Error" /\ message = "No factor found for item " +:+ "999").
Proof.
  refine (recalculation_without_factor_never_contacts_board
            Sample.parseFloat Sample.numberToString (Some "1001")
            (App.mondayApi Sample.numberToString (Some "1001") "token")
            "numbers" "result" "999" api
            (Sample.world ∅ (Sample.readThenWrite "10") Sample.noFault) _).
  right. reflexivity.
Defined.

(** X11. An input column whose text does not parse as a number fails the
    recalculation before any write: the result column is never updated (the
    outcome does not depend on [updateColumnValue]), and the error document
    carries "Invalid input value: <text>". *)
Theorem non_numeric_input_never_writes :
  forall (parseFloat : string -> float) (numberToString : float -> string)
         (DEFAULT_BOARD_ID : option string) (mondayApi : MondayApi.t)
         (inputColumnId resultColumnId itemId : string) (triggeredBy : TriggerType)
         (w w2 : World) (factor : float) (text : string),
    storeFault w (storeOps w) = false ->
    factors w !! itemId = Some factor ->
    MondayApi.getColumnValue mondayApi itemId inputColumnId (countStoreOp w)
    = (Ok (Some text), w2) ->
    String.eqb text "" = false ->
    PrimFloat.is_nan (parseFloat text) = true ->
    CalculationApi.calculateAndUpdateResult
      (CalculationService.service parseFloat numberToString DEFAULT_BOARD_ID
         mondayApi inputColumnId resultColumnId) itemId triggeredBy w
    = (Ok CalculationService.failedCalculation,
       if storeFault w2 (storeOps w2) then countStoreOp w2
       else setHistory
              (history w2
               ++ [CalculationService.errorDoc itemId "Error"
                     ("Invalid input value: " +:+ text) triggeredBy])
              (countStoreOp w2)).
Proof.
  intros pf nts board mondayApi inCol outCol itemId trig w w2 factor text E0 Ef Hget Hne Hnan.
  run_orchestrator. rewrite E0. simpl. rewrite Ef.
  fold (countStoreOp w). rewrite Hget, Hne, Hnan.
  rewrite logError_object_run. reflexivity.
Qed.

(** Witness for X11: the input column of item 123 reads "abc". *)
Lemma non_numeric_input_witness :
  trace (snd (CalculationApi.calculateAndUpdateResult Sample.calculationService "123" api
                (Sample.world {[ "123" := 2.5%float ]} (Sample.readThenWrite "abc")
                   Sample.noFault)))
  = [EvPost (GetColumnValue "123" "numbers")]
  /\ map HistoryDocument.metadata
       (history (snd (CalculationApi.calculateAndUpdateResult Sample.calculationService
                        "123" api
                        (Sample.world {[ "123" := 2.5%float ]} (Sample.readThenWrite "abc")
                           Sample.noFault))))
     = [MetaError "Invalid input value: abc" "Error"].
Proof.
  rewrite (non_numeric_input_never_writes
             Sample.parseFloat Sample.numberToString (Some "1001")
             (App.mondayApi Sample.numberToString (Some "1001") "token")
             "numbers" "result" "123" api
             (Sample.world {[ "123" := 2.5%float ]} (Sample.readThenWrite "abc") Sample.noFault)
             (snd (MondayApi.getColumnValue
                     (App.mondayApi Sample.numberToString (Some "1001") "token")
                     "123" "numbers"
                     (countStoreOp
                        (Sample.world {[ "123" := 2.5%float ]} (Sample.readThenWrite "abc")
                           Sample.noFault))))
             2.5%float "abc"); try reflexivity.
  split; reflexivity.
Defined.

(** X12. A write that the board does not acknowledge (no
    [change_column_value] in the answer) fails the recalculation: the result
    is the all-zero failure and the history gets the error document "Failed
    to update result column in Monday.com" in place of a calculation entry. *)
Theorem unacknowledged_write_fails_recalculation :
  forall (parseFloat : string -> float) (numberToString : float -> string)
         (DEFAULT_BOARD_ID : option string) (mondayApi : MondayApi.t)
         (inputColumnId resultColumnId itemId : string) (triggeredBy : TriggerType)
         (w w2 w3 : World) (factor : float) (text : string),
    storeFault w (storeOps w) = false ->
    factors w !! itemId = Some factor ->
    MondayApi.getColumnValue mondayApi itemId inputColumnId (countStoreOp w)
    = (Ok (Some text), w2) ->
    String.eqb text "" = false ->
    PrimFloat.is_nan (parseFloat text) = false ->
    MondayApi.updateColumnValue mondayApi itemId resultColumnId
      (Js.Num (PrimFloat.mul (parseFloat text) factor)) DEFAULT_BOARD_ID w2
    = (Ok false, w3) ->
    CalculationApi.calculateAndUpdateResult
      (CalculationService.service parseFloat numberToString DEFAULT_BOARD_ID
         mondayApi inputColumnId resultColumnId) itemId triggeredBy w
    = (Ok CalculationService.failedCalculation,
       if storeFault w3 (storeOps w3) then countStoreOp w3
       else setHistory
              (history w3
               ++ [CalculationService.errorDoc itemId "Error"
                     "Failed to update result column in Monday.com" triggeredBy])
              (countStoreOp w3)).
Proof.
  intros pf nts board mondayApi inCol outCol itemId trig w w2 w3 factor text
    E0 Ef Hget Hne Hnan Hupd.
  run_orchestrator. rewrite E0. simpl. rewrite Ef.
  fold (countStoreOp w). rewrite Hget, Hne, Hnan, Hupd. simpl.
  rewrite logError_object_run. reflexivity.
Qed.

(** Witness for X12: the board reads "10" and then answers the mutation
    with no [change_column_value]. *)
Lemma unacknowledged_write_witness :
  fst (CalculationApi.calculateAndUpdateResult Sample.calculationService "123" api
         (Sample.world {[ "123" := 2.5%float ]}
            (fun n => match n with
                      | O => Resolved (Sample.columnText "10")
                      | _ => Resolved (MondayApiResponse.mk
                                         (Some (GqlData.mk None None None)) None)
                      end)
            Sample.noFault))
  = Ok CalculationService.failedCalculation
  /\ map HistoryDocument.metadata
       (history (snd (CalculationApi.calculateAndUpdateResult Sample.calculationService
                        "123" api
                        (Sample.world {[ "123" := 2.5%float ]}
                           (fun n => match n with
                                     | O => Resolved (Sample.columnText "10")
                                     | _ => Resolved (MondayApiResponse.mk
                                                        (Some (GqlData.mk None None None)) None)
                                     end)
                           Sample.noFault))))
     = [MetaError "Failed to update result column in Monday.com" "Error"].
Proof.
  unfold Sample.calculationService, App.calculationService.
  set (w := Sample.world {[ "123" := 2.5%float ]}
              (fun n => match n with
                        | O => Resolved (Sample.columnText "10")
                        | _ => Resolved (MondayApiResponse.mk
                                           (Some (GqlData.mk None None None)) None)
                        end)
              Sample.noFault).
  set (remote := App.mondayApi Sample.numberToString (Some "1001") "token").
  rewrite (unacknowledged_write_fails_recalculation
             Sample.parseFloat Sample.numberToString (Some "1001") remote
             "numbers" "result" "123" api w
             (snd (MondayApi.getColumnValue remote "123" "numbers" (countStoreOp w)))
             (snd (MondayApi.updateColumnValue remote "123" "result" (Js.Num 25%float)
                     (Some "1001")
                     (snd (MondayApi.getColumnValue remote "123" "numbers" (countStoreOp w)))))
             2.5%float "10"); try reflexivity.
  split; reflexivity.
Defined.

(* ===================================================================== *)
(** ** Setting a factor and reading it back *)
(* ===================================================================== *)

(** A number that passes the [min: 0] validator is not NaN. *)
Lemma valid_factor_not_nan (x : float) :
  Factor.validate x = true -> PrimFloat.is_nan x = false.
Proof.
  unfold Factor.validate, PrimFloat.is_nan.
  rewrite FloatAxioms.leb_spec, FloatAxioms.eqb_spec.
  replace (Prim2SF 0) with (S754_zero false) by reflexivity.
  destruct (Prim2SF x) as [[]|[]| |[] m e]; unfold SFleb, SFeqb; simpl;
    try congruence; try reflexivity.
  intros _. rewrite Z.compare_refl.
  change (PosDef.Pos.compare_cont Eq m m) with (Pos.compare_cont Eq m m).
  rewrite Pos.compare_cont_refl. reflexivity.
Qed.

(** X13. Setting a factor and reading it back.  After an [updateFactor]
    whose store step succeeds, [getFactor] of the same item returns the new
    factor when it is not zero, and [null] when it is zero; the factors of
    all other items are what they were. *)
Theorem updateFactor_then_getFactor :
  forall (parseFloat : string -> float) (numberToString : float -> string)
         (DEFAULT_BOARD_ID : option string) (mondayApi : MondayApi.t)
         (inputColumnId resultColumnId itemId : string) (newFactor : float)
         (triggeredBy : TriggerType) (w : World),
    storeFault w (storeOps w) = false ->
    Factor.validate newFactor = true ->
    storeFault w (S (storeOps w)) = false ->
    storeFault w (S (S (S (storeOps w)))) = false ->
    let svc := CalculationService.service parseFloat numberToString DEFAULT_BOARD_ID
                 mondayApi inputColumnId resultColumnId in
    let w1 := snd (CalculationApi.updateFactor svc itemId newFactor triggeredBy w) in
    fst (CalculationApi.getFactor svc itemId w1)
    = Ok (if PrimFloat.is_zero newFactor then None else Some newFactor)
    /\ factors w1 !! itemId = Some newFactor
    /\ (forall other, other <> itemId -> factors w1 !! other = factors w !! other).
Proof.
  intros pf nts board mondayApi inCol outCol itemId newFactor trig w E0 Ev E1 E3 svc w1.
  subst w1 svc.
  rewrite (updateFactor_store_success pf nts board mondayApi inCol outCol
             itemId newFactor trig w E0 Ev E1).
  cbn [snd].
  assert (Hw : forall w1,
             w1 = (if storeFault w (S (S (storeOps w)))
                   then setFactors (<[itemId:=newFactor]> (factors w)) (Spec.afterStoreOps w 3)
                   else setHistory
                          (history w
                           ++ [CalculationService.factorUpdateDoc nts itemId
                                 (CalculationService.factorOrNull (factors w !! itemId))
                                 newFactor trig])
                          (setFactors (<[itemId:=newFactor]> (factors w))
                             (Spec.afterStoreOps w 3))) ->
             factors w1 = <[itemId:=newFactor]> (factors w)
             /\ storeFault w1 (storeOps w1) = false).
  { intros w1 ->. destruct (storeFault w (S (S (storeOps w)))); simpl; auto. }
  destruct (Hw _ eq_refl) as [Hf Hs].
  rewrite (getFactor_run pf nts board mondayApi inCol outCol itemId _ Hs).
  rewrite Hf. cbn [fst]. rewrite lookup_insert_eq.
  split; [|split; [reflexivity|]].
  - unfold CalculationService.factorOrNull, Js.truthy.
    rewrite (valid_factor_not_nan newFactor Ev).
    destruct (PrimFloat.is_zero newFactor); reflexivity.
  - intros other Hne. apply lookup_insert_ne. congruence.
Qed.

(** Witness for X13: item 123 gets the factor 10. *)
Lemma updateFactor_then_getFactor_witness :
  fst (CalculationApi.getFactor Sample.calculationService "123"
         (snd (CalculationApi.updateFactor Sample.calculationService "123" 10%float api
                 (Sample.world {[ "123" := 2.5%float ]} (Sample.readThenWrite "10")
                    Sample.noFault))))
  = Ok (Some 10%float).
Proof.
  refine (proj1 (updateFactor_then_getFactor
            Sample.parseFloat Sample.numberToString (Some "1001")
            (App.mondayApi Sample.numberToString (Some "1001") "token")
            "numbers" "result" "123" 10%float api
            (Sample.world {[ "123" := 2.5%float ]} (Sample.readThenWrite "10") Sample.noFault)
            _ _ _ _)); reflexivity.
Defined.

(* ===================================================================== *)
(** ** The history query *)
(* ===================================================================== *)

Lemma getHistory_run (itemId : string) (limit : option Z) (w : World) :
  HistoryQuery.getHistory itemId limit w
  = (Ok (if storeFault w (storeOps w) then []
         else HistoryQuery.applyLimit (default 50 limit)
                (List.rev (List.filter (HistoryQuery.ofItem itemId) (history w)))),
     countStoreOp w).
Proof.
  unfold HistoryQuery.getHistory, HistoryQuery.find, tryCatch, bind, storeOp, ret.
  destruct (storeFault w (storeOps w)); reflexivity.
Qed.

Lemma filter_ofItem_Forall (itemId : string) (docs : list HistoryDocument.t) :
  List.Forall (fun d => HistoryDocument.itemId d = itemId)
    (List.filter (HistoryQuery.ofItem itemId) docs).
Proof.
  apply List.Forall_forall. intros d Hd. apply List.filter_In in Hd.
  destruct Hd as [_ Hd]. unfold HistoryQuery.ofItem in Hd.
  apply String.eqb_eq in Hd. exact Hd.
Qed.

(** Every run of [getHistory] with a positive limit. *)
Lemma getHistory_cases :
  forall (itemId : string) (limit : Z) (w : World),
    1 <= limit ->
    let mine := List.filter (HistoryQuery.ofItem itemId) (history w) in
    exists docs : list HistoryDocument.t,
      HistoryQuery.getHistory itemId (Some limit) w = (Ok docs, countStoreOp w)
      /\ (storeFault w (storeOps w) = true -> docs = [])
      /\ (storeFault w (storeOps w) = false ->
          docs = firstn (Z.to_nat limit) (List.rev mine)
          /\ length docs = Nat.min (Z.to_nat limit) (length mine))
      /\ List.Forall (fun d => HistoryDocument.itemId d = itemId) docs
      /\ (Z.of_nat (length docs) <= limit).
Proof.
  intros itemId limit w Hlimit mine. rewrite getHistory_run.
  change (default 50 (Some limit)) with limit.
  unfold HistoryQuery.applyLimit.
  replace (limit =? 0) with false by (symmetry; apply Z.eqb_neq; lia).
  replace (Z.abs limit) with limit by lia.
  fold mine.
  destruct (storeFault w (storeOps w)).
  - exists []. repeat split; try discriminate; try constructor. simpl. lia.
  - exists (firstn (Z.to_nat limit) (List.rev mine)).
    split; [reflexivity|]. split; [discriminate|]. split; [|split].
    + intros _. split; [reflexivity|].
      rewrite length_firstn, length_rev. reflexivity.
    + apply List.Forall_forall. intros d Hd.
      assert (Hin : List.In d (List.rev mine)).
      { rewrite <- (List.firstn_skipn (Z.to_nat limit) (List.rev mine)).
        apply List.in_or_app. left. exact Hd. }
      clear Hd. rename Hin into Hd. apply List.in_rev in Hd.
      pose proof (filter_ofItem_Forall itemId (history w)) as HF.
      rewrite List.Forall_forall in HF. apply HF. exact Hd.
    + rewrite length_firstn. lia.
Qed.

(** X14. [getHistory] with a limit of at least 1 never throws and changes
    neither collection.  When the store answers, it returns the documents of
    the item only, newest first, the [min (N, limit)] most recent of the [N]
    the item has; when the store rejects the query it returns the empty list. *)
Theorem getHistory_newest_first_bounded :
  forall (itemId : string) (limit : Z) (w : World),
    1 <= limit ->
    let mine := List.filter (HistoryQuery.ofItem itemId) (history w) in
    exists docs : list HistoryDocument.t,
      HistoryQuery.getHistory itemId (Some limit) w = (Ok docs, countStoreOp w)
      /\ (storeFault w (storeOps w) = true -> docs = [])
      /\ (storeFault w (storeOps w) = false ->
          docs = firstn (Z.to_nat limit) (List.rev mine)
          /\ length docs = Nat.min (Z.to_nat limit) (length mine))
      /\ List.Forall (fun d => HistoryDocument.itemId d = itemId) docs
      /\ (Z.of_nat (length docs) <= limit).
Proof. exact getHistory_cases. Qed.

(** Witness for X14: two documents of the item and one of another, limit 1. *)
Lemma getHistory_witness :
  exists docs : list HistoryDocument.t,
    HistoryQuery.getHistory "123" (Some 1)
      (setHistory
         [CalculationService.errorDoc "123" "Error" "first" api;
          CalculationService.errorDoc "999" "Error" "other" api;
          CalculationService.errorDoc "123" "Error" "second" webhook]
         (Sample.world ∅ (Sample.readThenWrite "10") Sample.noFault))
    = (Ok docs,
       countStoreOp
         (setHistory
            [CalculationService.errorDoc "123" "Error" "first" api;
             CalculationService.errorDoc "999" "Error" "other" api;
             CalculationService.errorDoc "123" "Error" "second" webhook]
            (Sample.world ∅ (Sample.readThenWrite "10") Sample.noFault)))
    /\ docs = [CalculationService.errorDoc "123" "Error" "second" webhook].
Proof.
  destruct (getHistory_newest_first_bounded "123" 1
              (setHistory
                 [CalculationService.errorDoc "123" "Error" "first" api;
                  CalculationService.errorDoc "999" "Error" "other" api;
                  CalculationService.errorDoc "123" "Error" "second" webhook]
                 (Sample.world ∅ (Sample.readThenWrite "10") Sample.noFault))
              ltac:(lia)) as (docs & Hrun & _ & Hok & _).
  exists docs. split; [exact Hrun|].
  exact (proj1 (Hok eq_refl)).
Defined.

(** X15. What is logged is what is read back first: after a
    [History.create] that the store accepts, [getHistory] of the document's
    item (limit at least 1, store answering) returns that document at the
    head of the list. *)
Theorem logged_document_is_newest :
  forall (doc : HistoryDocument.t) (limit : Z) (w : World),
    1 <= limit ->
    storeFault w (storeOps w) = false ->
    storeFault w (S (storeOps w)) = false ->
    exists rest : list HistoryDocument.t,
      fst (HistoryQuery.getHistory (HistoryDocument.itemId doc) (Some limit)
             (snd (History.create doc w)))
      = Ok (doc :: rest)
      /\ rest = firstn (Z.to_nat limit - 1)
                  (List.rev (List.filter (HistoryQuery.ofItem (HistoryDocument.itemId doc))
                               (history w))).
Proof.
  intros doc limit w Hlimit E0 E1.
  unfold History.create, bind, storeOp. rewrite E0. cbn [snd].
  rewrite getHistory_run. change (default 50 (Some limit)) with limit.
  cbn [fst storeFault storeOps setHistory countStoreOp history].
  rewrite E1. unfold HistoryQuery.applyLimit.
  replace (limit =? 0) with false by (symmetry; apply Z.eqb_neq; lia).
  replace (Z.abs limit) with limit by lia.
  rewrite List.filter_app, List.rev_app_distr. cbn [List.filter].
  unfold HistoryQuery.ofItem at 1. rewrite String.eqb_refl. cbn [List.rev app].
  destruct (Z.to_nat limit) as [|n] eqn:En; [lia|].
  cbn [firstn]. eexists. split; [reflexivity|].
  replace (S n - 1)%nat with n by lia. reflexivity.
Qed.

(** Witness for X15: the first document of an empty history. *)
Lemma logged_document_witness :
  exists rest : list HistoryDocument.t,
    fst (HistoryQuery.getHistory "123" (Some 50)
           (snd (History.create (CalculationService.errorDoc "123" "Error" "first" api)
                   (Sample.world ∅ (Sample.readThenWrite "10") Sample.noFault))))
    = Ok (CalculationService.errorDoc "123" "Error" "first" api :: rest)
    /\ rest = firstn (Z.to_nat 50 - 1) (List.rev (List.filter (HistoryQuery.ofItem "123") [])).
Proof.
  refine (logged_document_is_newest (CalculationService.errorDoc "123" "Error" "first" api)
            50 (Sample.world ∅ (Sample.readThenWrite "10") Sample.noFault) _ _ _).
  - lia.
  - reflexivity.
  - reflexivity.
Defined.

(** The store after a successful recalculation with the remote client of the
    service. *)
Lemma calculate_success_store (parseFloat : string -> float)
    (numberToString : float -> string) (DEFAULT_BOARD_ID : option string)
    (c : RetryConfig.t) (inputColumnId resultColumnId itemId : string)
    (triggeredBy : TriggerType) (w w' : World) (r : CalculationResult.t) :
  CalculationApi.calculateAndUpdateResult
    (CalculationService.service parseFloat numberToString DEFAULT_BOARD_ID
       (MondayApiService.service numberToString DEFAULT_BOARD_ID c)
       inputColumnId resultColumnId) itemId triggeredBy w = (Ok r, w') ->
  CalculationResult.success r = true ->
  storeFault w' = storeFault w
  /\ storeOps w' = S (S (storeOps w))
  /\ history w'
     = if storeFault w (S (storeOps w)) then history w
       else history w
            ++ [CalculationService.calculationDoc numberToString itemId
                  (CalculationResult.inputValue r) (CalculationResult.factor r)
                  (CalculationResult.resultValue r) triggeredBy].
Proof.
  intros Hrun Hs.
  destruct (calculate_success_inv parseFloat numberToString DEFAULT_BOARD_ID _
              inputColumnId resultColumnId itemId triggeredBy w w' r Hrun Hs)
    as (factor & text & w2 & w3 & E0 & Ef & Hget & Hnan & Hupd & -> & ->).
  pose proof (getColumnValue_sameStore numberToString DEFAULT_BOARD_ID c itemId
                inputColumnId (countStoreOp w)) as F2.
  rewrite Hget in F2. simpl in F2.
  pose proof (updateColumnValue_sameStore numberToString DEFAULT_BOARD_ID c itemId
                resultColumnId (Js.Num (PrimFloat.mul (parseFloat text) factor))
                DEFAULT_BOARD_ID w2) as F3.
  rewrite Hupd in F3. simpl in F3.
  destruct F2 as (A1 & A2 & A3 & A4). destruct F3 as (B1 & B2 & B3 & B4).
  cbn [factors history storeFault storeOps countStoreOp] in A1, A2, A3, A4.
  rewrite logCalculation_run. cbn [CalculationResult.factor CalculationResult.inputValue
    CalculationResult.resultValue snd].
  rewrite B3, B4, A3, A4.
  destruct (storeFault w (S (storeOps w))); simpl; repeat split; congruence.
Qed.

(** X16. A successful recalculation whose history write the store accepts
    is the newest entry of the item: [getHistory] (limit at least 1, store
    answering) returns at its head a [recalculation] document carrying the
    returned input, factor and result. *)
Theorem successful_recalculation_is_newest_in_history :
  forall (parseFloat : string -> float) (numberToString : float -> string)
         (DEFAULT_BOARD_ID : option string) (c : RetryConfig.t)
         (inputColumnId resultColumnId itemId : string) (triggeredBy : TriggerType)
         (limit : Z) (w w' : World) (r : CalculationResult.t),
    CalculationApi.calculateAndUpdateResult
      (CalculationService.service parseFloat numberToString DEFAULT_BOARD_ID
         (MondayApiService.service numberToString DEFAULT_BOARD_ID c)
         inputColumnId resultColumnId) itemId triggeredBy w = (Ok r, w') ->
    CalculationResult.success r = true ->
    storeFault w (S (storeOps w)) = false ->
    storeFault w (S (S (storeOps w))) = false ->
    1 <= limit ->
    exists (doc : HistoryDocument.t) (rest : list HistoryDocument.t),
      fst (HistoryQuery.getHistory itemId (Some limit) w') = Ok (doc :: rest)
      /\ HistoryDocument.action doc = recalculation
      /\ HistoryDocument.itemId doc = itemId
      /\ HistoryDocument.newValue doc = CalculationResult.resultValue r
      /\ HistoryDocument.inputValue doc = Some (CalculationResult.inputValue r)
      /\ HistoryDocument.resultValue doc = Some (CalculationResult.resultValue r)
      /\ HistoryDocument.triggeredBy doc = triggeredBy
      /\ exists calculation,
           HistoryDocument.metadata doc
           = MetaCalculation (CalculationResult.factor r) calculation.
Proof.
  intros pf nts board c inCol outCol itemId trig limit w w' r Hrun Hs E1 E2 Hlimit.
  destruct (calculate_success_store pf nts board c inCol outCol itemId trig w w' r Hrun Hs)
    as (Hsf & Hso & Hh).
  rewrite E1 in Hh.
  rewrite getHistory_run. change (default 50 (Some limit)) with limit.
  rewrite Hsf, Hso, E2, Hh. cbn [fst]. unfold HistoryQuery.applyLimit.
  replace (limit =? 0) with false by (symmetry; apply Z.eqb_neq; lia).
  replace (Z.abs limit) with limit by lia.
  rewrite List.filter_app, List.rev_app_distr. cbn [List.filter].
  unfold HistoryQuery.ofItem at 1. cbn [CalculationService.calculationDoc HistoryDocument.itemId].
  rewrite String.eqb_refl. cbn [List.rev app].
  destruct (Z.to_nat limit) as [|n] eqn:En; [lia|].
  cbn [firstn]. eexists _, _. split; [reflexivity|].
  repeat split. eexists. reflexivity.
Qed.

(** Witness for X16: the README's scenario, then the history of item 123. *)
Lemma successful_recalculation_newest_witness :
  exists (doc : HistoryDocument.t) (rest : list HistoryDocument.t),
    fst (HistoryQuery.getHistory "123" (Some 50)
           (snd (CalculationApi.calculateAndUpdateResult Sample.calculationService "123" api
                   (Sample.world {[ "123" := 2.5%float ]} (Sample.readThenWrite "10")
                      Sample.noFault))))
    = Ok (doc :: rest)
    /\ HistoryDocument.action doc = recalculation
    /\ HistoryDocument.itemId doc = "123"
    /\ HistoryDocument.newValue doc = 25%float
    /\ HistoryDocument.inputValue doc = Some 10%float
    /\ HistoryDocument.resultValue doc = Some 25%float
    /\ HistoryDocument.triggeredBy doc = api
    /\ exists calculation,
         HistoryDocument.metadata doc = MetaCalculation 2.5%float calculation.
Proof.
  refine (successful_recalculation_is_newest_in_history
            Sample.parseFloat Sample.numberToString (Some "1001")
            MondayApiService.defaultRetryConfig "numbers" "result" "123" api 50
            (Sample.world {[ "123" := 2.5%float ]} (Sample.readThenWrite "10") Sample.noFault)
            (snd (CalculationApi.calculateAndUpdateResult Sample.calculationService "123" api
                    (Sample.world {[ "123" := 2.5%float ]} (Sample.readThenWrite "10")
                       Sample.noFault)))
            {| CalculationResult.inputValue := 10%float;
               CalculationResult.factor := 2.5%float;
               CalculationResult.resultValue := 25%float;
               CalculationResult.success := true |}
            _ _ _ _ _); try reflexivity.
  lia.
Defined.

(** X17. [GET /:itemId/history].  A missing, unparsable or zero [limit]
    stands for 50 (zero is not rejected); a limit below 1 or above 100 is
    answered with a 400 error before the store is touched; otherwise the
    route answers with at most [limit] documents and their count, and with
    an empty history, not an error, when the store rejects the query. *)
Theorem historyRoute_limit_handling :
  forall (parseInt : string -> option Z) (itemId : string) (queryLimit : option string)
         (w : World),
    String.eqb itemId "" = false ->
    let limit := HistoryQuery.requestedLimit parseInt queryLimit in
    (parseInt (default "undefined" queryLimit) = None
     \/ parseInt (default "undefined" queryLimit) = Some 0 -> limit = 50)
    /\ (limit < 1 \/ 100 < limit ->
        HistoryQuery.historyRoute parseInt itemId queryLimit w
        = (Ok (HistoryQuery.Next
                 (ItemsRouter.apiError "Limit must be between 1 and 100" 400)), w))
    /\ (1 <= limit <= 100 ->
        exists docs,
          HistoryQuery.historyRoute parseInt itemId queryLimit w
          = (Ok (HistoryQuery.Sent itemId docs (length docs)), countStoreOp w)
          /\ Z.of_nat (length docs) <= limit
          /\ (storeFault w (storeOps w) = true -> docs = [])).
Proof.
  intros parseInt itemId queryLimit w Hid limit. split; [|split].
  - subst limit. unfold HistoryQuery.requestedLimit. intros [-> | ->]; reflexivity.
  - intros Hout.
    unfold HistoryQuery.historyRoute, tryCatch, bind, ItemsRouter.requireItemId, throw, ret.
    rewrite Hid. fold limit.
    replace ((limit <? 1) || (100 <? limit)) with true; [reflexivity|].
    symmetry. apply orb_true_iff. destruct Hout; [left|right]; apply Z.ltb_lt; assumption.
  - intros Hin.
    destruct (getHistory_cases itemId limit w ltac:(lia))
      as (docs & Hrun & Hfault & _ & _ & Hlen).
    exists docs. split; [|split; assumption].
    unfold HistoryQuery.historyRoute, tryCatch, bind, ItemsRouter.requireItemId, throw, ret.
    rewrite Hid. fold limit.
    replace ((limit <? 1) || (100 <? limit)) with false.
    + rewrite Hrun. reflexivity.
    + symmetry. apply orb_false_iff. split; apply Z.ltb_ge; lia.
Qed.

(** Witness for X17: [?limit=0] on an item without history. *)
Lemma historyRoute_witness :
  HistoryQuery.requestedLimit (fun s => if String.eqb s "0" then Some 0 else None) (Some "0")
  = 50
  /\ exists docs,
       HistoryQuery.historyRoute (fun s => if String.eqb s "0" then Some 0 else None)
         "123" (Some "0") (Sample.world ∅ (Sample.readThenWrite "10") Sample.noFault)
       = (Ok (HistoryQuery.Sent "123" docs (length docs)),
          countStoreOp (Sample.world ∅ (Sample.readThenWrite "10") Sample.noFault))
       /\ Z.of_nat (length docs) <= 50
       /\ (Sample.noFault 0%nat = true -> docs = []).
Proof.
  pose proof (historyRoute_limit_handling
                (fun s => if String.eqb s "0" then Some 0 else None) "123" (Some "0")
                (Sample.world ∅ (Sample.readThenWrite "10") Sample.noFault) eq_refl)
    as (H1 & _ & H3).
  split.
  - apply H1. right. reflexivity.
  - apply H3. cbv. split; discriminate.
Defined.

(* ===================================================================== *)
(** ** Further properties of the webhook handler *)
(* ===================================================================== *)

(** Every run of [handleWebhook]: the world it leaves before responding is
    the initial one or the one the orchestrator left, and the status follows
    from the body alone. *)
Lemma handleWebhook_cases (parseFloat : string -> float) (numberToString : float -> string)
    (calculationService : CalculationApi.t) (inputColumnId : string)
    (body : JsValue) (w : World) :
  exists (status : Z) (answer : JsValue) (w1 : World),
    MondayWebhookHandler.handleWebhook parseFloat numberToString calculationService
      inputColumnId body w
    = (Ok tt, Spec.responded status answer w1)
    /\ (w1 = w
        \/ exists itemId,
             Js.toString numberToString (Js.optProp (Js.optProp body "event") "pulseId")
             = Ok itemId
             /\ w1 = snd (CalculationApi.calculateAndUpdateResult calculationService
                            itemId webhook w))
    /\ (Js.nullish body = true ->
        status = 500 /\ answer = Spec.serverErrorBody /\ w1 = w)
    /\ (Js.nullish body = false ->
        Js.truthy (Js.optProp body "challenge") = true ->
        status = 200 /\ answer = Spec.challengeBody (Js.optProp body "challenge")
        /\ w1 = w)
    /\ (Js.nullish body = false ->
        Js.truthy (Js.optProp body "challenge") = false ->
        Js.strictEqStr (Js.optProp (Js.optProp body "event") "type") "update_column_value"
        && Js.strictEqStr (Js.optProp (Js.optProp body "event") "columnId") inputColumnId
        = false ->
        status = 200 /\ answer = Spec.successBody /\ w1 = w)
    /\ (Js.nullish body = false ->
        Js.truthy (Js.optProp body "challenge") = false ->
        Js.strictEqStr (Js.optProp (Js.optProp body "event") "type") "update_column_value"
        && Js.strictEqStr (Js.optProp (Js.optProp body "event") "columnId") inputColumnId
        = true ->
        match Js.toString numberToString
                (Js.optProp (Js.optProp body "event") "pulseId") with
        | Throw _ => status = 500 /\ answer = Spec.serverErrorBody /\ w1 = w
        | Ok _ => status = 200 /\ answer = Spec.successBody
        end).
Proof.
  destruct (Js.nullish body) eqn:Hb.
  - exists 500, Spec.serverErrorBody, w.
    rewrite (handleWebhook_absent_body parseFloat numberToString calculationService
               inputColumnId body w Hb).
    split; [reflexivity|]. split; [left; reflexivity|].
    repeat split; discriminate.
  - destruct (Js.truthy (Js.optProp body "challenge")) eqn:Hc.
    + exists 200, (Spec.challengeBody (Js.optProp body "challenge")), w.
      rewrite (handleWebhook_challenge parseFloat numberToString calculationService
                 inputColumnId body w Hb Hc).
      split; [reflexivity|]. split; [left; reflexivity|].
      repeat split; discriminate.
    + destruct (Js.strictEqStr (Js.optProp (Js.optProp body "event") "type")
                  "update_column_value"
                && Js.strictEqStr (Js.optProp (Js.optProp body "event") "columnId")
                     inputColumnId) eqn:Hf.
      * rewrite (handleWebhook_accepted_run parseFloat numberToString calculationService
                   inputColumnId body w Hb Hc Hf).
        destruct (Js.toString numberToString
                    (Js.optProp (Js.optProp body "event") "pulseId")) as [itemId|e].
        -- destruct (MondayWebhookHandler.parseInputValue parseFloat numberToString
                       (Js.optProp (Js.optProp body "event") "value")) as [[n|]|e].
           ++ eexists 200, Spec.successBody, _.
              split; [reflexivity|].
              split; [right; exists itemId; split; reflexivity|].
              repeat split; discriminate.
           ++ exists 200, Spec.successBody, w.
              split; [reflexivity|]. split; [left; reflexivity|].
              repeat split; discriminate.
           ++ exists 200, Spec.successBody, w.
              split; [reflexivity|]. split; [left; reflexivity|].
              repeat split; discriminate.
        -- exists 500, Spec.serverErrorBody, w.
           split; [reflexivity|]. split; [left; reflexivity|].
           repeat split; discriminate.
      * exists 200, Spec.successBody, w.
        rewrite (handleWebhook_filtered parseFloat numberToString calculationService
                   inputColumnId body w Hb Hc Hf).
        split; [reflexivity|]. split; [left; reflexivity|].
        repeat split; discriminate.
Qed.

(** X18. [handleWebhook] never throws and answers every request exactly
    once, whatever the body is and whatever the calculation service does
    (even if it throws).  The status is 500 in two cases: the body is
    [undefined] or [null], or the event passes the filter (no truthy
    challenge, matching type and column) and its [pulseId] does not convert
    to a string, so that the log lines of [handleColumnChange] throw.  In
    every other case the status is 200, with the challenge echo or
    [{ success: true }].  Apart from the response, the only effect the
    handler can have is one call of the orchestrator, with the converted
    [pulseId] and trigger [webhook]. *)
Theorem handleWebhook_always_answers_once :
  forall (parseFloat : string -> float) (numberToString : float -> string)
         (calculationService : CalculationApi.t) (inputColumnId : string)
         (body : JsValue) (w : World),
    exists (status : Z) (answer : JsValue) (w1 : World),
      MondayWebhookHandler.handleWebhook parseFloat numberToString calculationService
        inputColumnId body w
      = (Ok tt, Spec.responded status answer w1)
      /\ (w1 = w
          \/ exists itemId,
               Js.toString numberToString (Js.optProp (Js.optProp body "event") "pulseId")
               = Ok itemId
               /\ w1 = snd (CalculationApi.calculateAndUpdateResult calculationService
                              itemId webhook w))
      /\ (Js.nullish body = true ->
          status = 500 /\ answer = Spec.serverErrorBody /\ w1 = w)
      /\ (Js.nullish body = false ->
          Js.truthy (Js.optProp body "challenge") = true ->
          status = 200 /\ answer = Spec.challengeBody (Js.optProp body "challenge")
          /\ w1 = w)
      /\ (Js.nullish body = false ->
          Js.truthy (Js.optProp body "challenge") = false ->
          Js.strictEqStr (Js.optProp (Js.optProp body "event") "type")
            "update_column_value"
          && Js.strictEqStr (Js.optProp (Js.optProp body "event") "columnId")
               inputColumnId
          = false ->
          status = 200 /\ answer = Spec.successBody /\ w1 = w)
      /\ (Js.nullish body = false ->
          Js.truthy (Js.optProp body "challenge") = false ->
          Js.strictEqStr (Js.optProp (Js.optProp body "event") "type")
            "update_column_value"
          && Js.strictEqStr (Js.optProp (Js.optProp body "event") "columnId")
               inputColumnId
          = true ->
          match Js.toString numberToString
                  (Js.optProp (Js.optProp body "event") "pulseId") with
          | Throw _ => status = 500 /\ answer = Spec.serverErrorBody /\ w1 = w
          | Ok _ => status = 200 /\ answer = Spec.successBody
          end).
Proof. exact handleWebhook_cases. Qed.

(** An accepted event whose [pulseId] cannot be converted: answered with
    500, nothing recorded, nothing posted. *)
Example webhook_unconvertible_pulseId :
  let w := Sample.world {[ "123" := 2.5%float ]} (Sample.readThenWrite "10") Sample.noFault in
  Sample.handleWebhook
    (JObj [("event", JObj [("type", JStr "update_column_value");
                           ("columnId", JStr "numbers");
                           ("pulseId", JArr [JNum 123%float; JObj [("toString", JNull)]]);
                           ("value", JObj [("value", JNum 10%float)])])]) w
  = (Ok tt, Spec.responded 500 Spec.serverErrorBody w).
Proof. reflexivity. Qed.

(** X19. The verification endpoint answers from the challenge alone: 500
    when the body is [undefined] or [null], 400 "No challenge provided" when
    the challenge is missing or falsy, the echo with 200 otherwise.  It never
    looks at an event and has no other effect. *)
Theorem handleWebhookVerification_answers :
  forall (body : JsValue) (w : World),
    MondayWebhookHandler.handleWebhookVerification body w
    = (Ok tt,
       if Js.nullish body then Spec.responded 500 Spec.serverErrorBody w
       else if Js.truthy (Js.optProp body "challenge")
            then Spec.responded 200 (Spec.challengeBody (Js.optProp body "challenge")) w
            else Spec.responded 400 (JObj [("error", JStr "No challenge provided")]) w).
Proof.
  intros body w.
  unfold MondayWebhookHandler.handleWebhookVerification, tryCatch, bind, liftRes.
  destruct (Js.nullish body) eqn:Hb.
  - destruct (prop_absent body "challenge" Hb) as [e ->]. reflexivity.
  - rewrite (prop_present body "challenge" Hb).
    destruct (Js.truthy (Js.optProp body "challenge")); reflexivity.
Qed.

(** A recalculation with the remote client of the service, as a step from
    its initial world. *)
Lemma calculate_recalculationLogged (parseFloat : string -> float)
    (numberToString : float -> string) (DEFAULT_BOARD_ID : option string)
    (c : RetryConfig.t) (inputColumnId resultColumnId itemId : string)
    (triggeredBy : TriggerType) (w : World) :
  Obs.recalculationLogged itemId triggeredBy w
    (snd (CalculationApi.calculateAndUpdateResult
            (CalculationService.service parseFloat numberToString DEFAULT_BOARD_ID
               (MondayApiService.service numberToString DEFAULT_BOARD_ID c)
               inputColumnId resultColumnId) itemId triggeredBy w)).
Proof.
  cbn [CalculationApi.calculateAndUpdateResult CalculationService.service].
  unfold CalculationService.calculateAndUpdateResult.
  match goal with |- context [tryCatch _ ?h] => set (handler := h) end.
  assert (Hfail : forall e wi,
             factors wi = factors w -> history wi = history w ->
             Obs.recalculationLogged itemId triggeredBy w (snd (handler e wi))).
  { intros e wi Hf Hh. subst handler. cbv beta.
    destruct (failure_branch_run itemId e triggeredBy wi) as (w' & Hrun & Hlog & _).
    rewrite Hrun. simpl. eapply recalculationLogged_from; eassumption. }
  unfold tryCatch, bind at 1, Factor.findOne, bind at 1, storeOp.
  destruct (storeFault w (storeOps w)); [apply Hfail; reflexivity|].
  cbn [factors countStoreOp].
  destruct (factors w !! itemId) as [factor|]; [|apply Hfail; reflexivity].
  unfold bind at 1.
  pose proof (getColumnValue_sameStore numberToString DEFAULT_BOARD_ID c itemId
                inputColumnId (countStoreOp w)) as F2.
  destruct (MondayApi.getColumnValue _ itemId inputColumnId (countStoreOp w))
    as [[[text|]|e] w2]; simpl in F2; destruct F2 as (A1 & A2 & A3 & A4);
    cbn [factors history storeFault storeOps countStoreOp] in A1, A2, A3, A4;
    try (apply Hfail; assumption).
  destruct (String.eqb text ""); [apply Hfail; assumption|].
  unfold bind at 1, liftRes, CalculationService.validateInputValue.
  destruct (PrimFloat.is_nan (parseFloat text)); [apply Hfail; assumption|].
  unfold bind at 1, CalculationService.calculateResult.
  pose proof (updateColumnValue_sameStore numberToString DEFAULT_BOARD_ID c itemId
                resultColumnId (Js.Num (PrimFloat.mul (parseFloat text) factor))
                DEFAULT_BOARD_ID w2) as F3.
  destruct (MondayApi.updateColumnValue _ itemId resultColumnId _ _ w2) as [[[|]|e] w3];
    simpl in F3; destruct F3 as (B1 & B2 & B3 & B4); cbn [negb];
    try (apply Hfail; congruence).
  unfold bind at 1. rewrite logCalculation_run. unfold ret. cbn [snd].
  destruct (storeFault w3 (storeOps w3)); split; simpl; try congruence.
  - left. congruence.
  - right. eexists. split; [rewrite B2, A2; reflexivity|]. repeat split.
Qed.

(** X9. A recalculation never changes a stored factor, and it appends at
    most one document to the history, a [recalculation] entry of the item
    with the trigger it was given; this holds for successes and failures,
    whatever the network and the store do. *)
Theorem recalculation_keeps_factors_and_appends_at_most_once :
  forall (parseFloat : string -> float) (numberToString : float -> string)
         (DEFAULT_BOARD_ID : option string) (c : RetryConfig.t)
         (inputColumnId resultColumnId itemId : string) (triggeredBy : TriggerType)
         (w : World),
    Obs.recalculationLogged itemId triggeredBy w
      (snd (CalculationApi.calculateAndUpdateResult
              (CalculationService.service parseFloat numberToString DEFAULT_BOARD_ID
                 (MondayApiService.service numberToString DEFAULT_BOARD_ID c)
                 inputColumnId resultColumnId) itemId triggeredBy w)).
Proof. intros. apply calculate_recalculationLogged. Qed.

(** X20. No webhook changes a stored factor.  With the services wired as in
    [initializeServices], whatever the body, the network and the store do, a
    webhook leaves the factors as they were and appends at most one document
    to the history, a [recalculation] of the event's item triggered by
    [webhook]; when the [pulseId] of the event does not convert to a string,
    it appends none. *)
Theorem webhook_keeps_factors :
  forall (parseFloat : string -> float) (numberToString : float -> string)
         (DEFAULT_BOARD_ID : option string)
         (mondayApiToken inputNumberColumnId resultNumberColumnId : string)
         (body : JsValue) (w : World),
    match Js.toString numberToString (Js.optProp (Js.optProp body "event") "pulseId") with
    | Ok itemId =>
        Obs.recalculationLogged itemId webhook w
          (snd (App.handleWebhook parseFloat numberToString DEFAULT_BOARD_ID
                  mondayApiToken inputNumberColumnId resultNumberColumnId body w))
    | Throw _ =>
        factors (snd (App.handleWebhook parseFloat numberToString DEFAULT_BOARD_ID
                        mondayApiToken inputNumberColumnId resultNumberColumnId body w))
        = factors w
        /\ history (snd (App.handleWebhook parseFloat numberToString DEFAULT_BOARD_ID
                           mondayApiToken inputNumberColumnId resultNumberColumnId body w))
           = history w
    end.
Proof.
  intros pf nts board token inCol outCol body w. unfold App.handleWebhook.
  destruct (handleWebhook_cases pf nts
              (App.calculationService pf nts board token inCol outCol) inCol body w)
    as (status & answer & w1 & Hrun & Hw1 & _).
  rewrite Hrun. cbn [snd].
  destruct (Js.toString nts (Js.optProp (Js.optProp body "event") "pulseId"))
    as [itemId|e].
  - assert (Hstep : Obs.recalculationLogged itemId webhook w w1).
    { destruct Hw1 as [-> | (itemId' & Hid & ->)].
      - split; [reflexivity|]. left. reflexivity.
      - injection Hid as <-. apply calculate_recalculationLogged. }
    destruct Hstep as (Hf & Hh). split; [exact Hf | exact Hh].
  - destruct Hw1 as [-> | (itemId' & Hid & _)]; [|discriminate].
    split; reflexivity.
Qed.

(* ===================================================================== *)
(** ** The factor routes *)
(* ===================================================================== *)

Lemma valid_factor_not_negative (x : float) :
  Factor.validate x = true -> PrimFloat.ltb x 0 = false.
Proof.
  intros Hv. destruct (PrimFloat.ltb x 0) eqn:E; [|reflexivity].
  rewrite (negative_fails_validation x E) in Hv. discriminate.
Qed.

(** X21. [POST /:itemId/factor] hands a factor to the service only when it
    is a number: a missing factor, a string, a boolean, [null], an array or
    an object is answered with a 400 error and nothing is read or written,
    whatever the calculation service is. *)
Theorem postFactorRoute_rejects_non_numbers :
  forall (calculationService : CalculationApi.t) (itemId : string) (body : JsValue)
         (w : World),
    Js.nullish body = false ->
    Obs.isNumber (Js.optProp body "factor") = false ->
    exists message,
      ItemsRouter.postFactorRoute calculationService itemId body w
      = (Ok (ItemsRouter.Next (ItemsRouter.apiError message 400)), w).
Proof.
  intros svc itemId body w Hb Hn.
  unfold ItemsRouter.postFactorRoute, ItemsRouter.finish, ItemsRouter.requireItemId,
    tryCatch, bind, liftRes, throw, ret.
  rewrite (prop_present body "factor" Hb).
  destruct (String.eqb itemId ""); [eexists; reflexivity|].
  destruct (Js.optProp body "factor"); try discriminate; eexists; reflexivity.
Qed.

(** Witness for X21: the factor sent as the string "2.5". *)
Lemma postFactorRoute_rejects_witness :
  exists message,
    ItemsRouter.postFactorRoute Sample.calculationService "123"
      (JObj [("factor", JStr "2.5")])
      (Sample.world ∅ (Sample.readThenWrite "10") Sample.noFault)
    = (Ok (ItemsRouter.Next (ItemsRouter.apiError message 400)),
       Sample.world ∅ (Sample.readThenWrite "10") Sample.noFault).
Proof.
  exact (postFactorRoute_rejects_non_numbers Sample.calculationService "123"
           (JObj [("factor", JStr "2.5")])
           (Sample.world ∅ (Sample.readThenWrite "10") Sample.noFault) eq_refl eq_refl).
Defined.

(** X22. Setting a factor through the API and reading it back.  A valid
    factor posted for an item is answered 201 with the old and the new
    factor; the following GET answers 200 with that factor when it is not
    zero, and with the 404 error "No factor found for item ..." when it is
    zero (the store answering throughout). *)
Theorem post_factor_then_get_factor :
  forall (parseFloat : string -> float) (numberToString : float -> string)
         (DEFAULT_BOARD_ID : option string) (mondayApi : MondayApi.t)
         (inputColumnId resultColumnId itemId : string) (newFactor : float) (w : World),
    String.eqb itemId "" = false ->
    Factor.validate newFactor = true ->
    storeFault w (storeOps w) = false ->
    storeFault w (S (storeOps w)) = false ->
    storeFault w (S (S (S (storeOps w)))) = false ->
    let svc := CalculationService.service parseFloat numberToString DEFAULT_BOARD_ID
                 mondayApi inputColumnId resultColumnId in
    let posted :=
      ItemsRouter.postFactorRoute svc itemId (JObj [("factor", JNum newFactor)]) w in
    fst posted
    = Ok (ItemsRouter.Sent 201
            (JObj [("success", JBool true);
                   ("data",
                    JObj [("itemId", JStr itemId);
                          ("oldFactor",
                           ItemsRouter.nullable
                             (CalculationService.factorOrNull (factors w !! itemId)));
                          ("newFactor", JNum newFactor)])]))
    /\ fst (ItemsRouter.getFactorRoute svc itemId (snd posted))
       = Ok (if PrimFloat.is_zero newFactor
             then ItemsRouter.Next
                    (ItemsRouter.apiError ("No factor found for item " +:+ itemId) 404)
             else ItemsRouter.Sent 200
                    (JObj [("success", JBool true);
                           ("data", JObj [("itemId", JStr itemId);
                                          ("factor", JNum newFactor)])])).
Proof.
  intros pf nts board mondayApi inCol outCol itemId newFactor w Hid Hv E0 E1 E3 svc posted.
  assert (Hpost : posted
                  = (Ok (ItemsRouter.Sent 201
                           (JObj [("success", JBool true);
                                  ("data",
                                   JObj [("itemId", JStr itemId);
                                         ("oldFactor",
                                          ItemsRouter.nullable
                                            (CalculationService.factorOrNull
                                               (factors w !! itemId)));
                                         ("newFactor", JNum newFactor)])])),
                     snd (CalculationApi.updateFactor svc itemId newFactor api w))).
  { subst posted.
    unfold ItemsRouter.postFactorRoute, ItemsRouter.finish, ItemsRouter.requireItemId,
      tryCatch, bind, liftRes, throw, ret.
    cbn [Js.prop Js.lookupField]. rewrite String.eqb_refl, Hid.
    rewrite (valid_factor_not_negative newFactor Hv).
    subst svc.
    rewrite (updateFactor_store_success pf nts board mondayApi inCol outCol
               itemId newFactor api w E0 Hv E1).
    reflexivity. }
  rewrite Hpost. cbn [fst snd]. split; [reflexivity|].
  subst svc.
  rewrite (updateFactor_store_success pf nts board mondayApi inCol outCol
             itemId newFactor api w E0 Hv E1).
  cbn [snd].
  set (w1 := if storeFault w (S (S (storeOps w))) then _ else _).
  assert (Hw1 : factors w1 = <[itemId:=newFactor]> (factors w)
                /\ storeFault w1 (storeOps w1) = false).
  { subst w1. destruct (storeFault w (S (S (storeOps w)))); simpl; auto. }
  destruct Hw1 as [Hf Hs].
  unfold ItemsRouter.getFactorRoute, ItemsRouter.finish, ItemsRouter.requireItemId,
    tryCatch, bind at 1, throw, ret.
  rewrite Hid. unfold bind at 1.
  rewrite (getFactor_run pf nts board mondayApi inCol outCol itemId w1 Hs).
  rewrite Hf, lookup_insert_eq.
  unfold CalculationService.factorOrNull, Js.truthy.
  rewrite (valid_factor_not_nan newFactor Hv).
  destruct (PrimFloat.is_zero newFactor); reflexivity.
Qed.

(** Witness for X22: the factor 0 is stored with 201 and then not found. *)
Lemma post_factor_then_get_factor_witness :
  fst (ItemsRouter.getFactorRoute Sample.calculationService "123"
         (snd (ItemsRouter.postFactorRoute Sample.calculationService "123"
                 (JObj [("factor", JNum 0%float)])
                 (Sample.world ∅ (Sample.readThenWrite "10") Sample.noFault))))
  = Ok (ItemsRouter.Next (ItemsRouter.apiError "No factor found for item 123" 404)).
Proof.
  refine (proj2 (post_factor_then_get_factor
            Sample.parseFloat Sample.numberToString (Some "1001")
            (App.mondayApi Sample.numberToString (Some "1001") "token")
            "numbers" "result" "123" 0%float
            (Sample.world ∅ (Sample.readThenWrite "10") Sample.noFault)
            _ _ _ _ _)); reflexivity.
Defined.

(* ===================================================================== *)
(** ** What a successful recalculation sends to the board *)
(* ===================================================================== *)

Section BoardTraffic.

Import MondayApiService Spec.

Variable numberToString : float -> string.
Variable DEFAULT_BOARD_ID : option string.
Variable c : RetryConfig.t.
Hypothesis budget : 0 <= RetryConfig.maxRetries c.

Local Abbreviation svc := (MondayApiService.service numberToString DEFAULT_BOARD_ID c).

Lemma getColumnValue_traffic (itemId columnId : string) (w : World) :
  exists k : nat,
    Z.of_nat k <= RetryConfig.maxRetries c
    /\ snd (MondayApi.getColumnValue svc itemId columnId w)
       = afterPosts w (retrySchedule (GetColumnValue itemId columnId) c k) (S k).
Proof.
  destruct (retry_run_exists (GetColumnValue itemId columnId)
              ("Get column " +:+ columnId +:+ " value for item " +:+ itemId) c w budget)
    as (k & Hk & _ & _ & Hrun).
  exists k. split; [exact Hk|].
  cbn [MondayApi.getColumnValue service]. unfold getColumnValue, bind. rewrite Hrun.
  destruct (settle (net w (posts w + k))) as [r|e]; [|reflexivity].
  destruct (hasErrors r); [reflexivity|].
  destruct (MondayApiResponse.data r) as [d|]; [|reflexivity].
  destruct (GqlData.items d) as [[|item ?]|]; try reflexivity.
  destruct (MondayItem.column_values item) as [[|cv ?]|]; try reflexivity.
  destruct (MondayColumnValue.text cv); reflexivity.
Qed.

Lemma updateColumnValue_traffic (itemId columnId : string) (value : Js.StringOrNumber)
    (boardId : option string) (w : World) :
  exists k : nat,
    Z.of_nat k <= RetryConfig.maxRetries c
    /\ snd (MondayApi.updateColumnValue svc itemId columnId value boardId w)
       = afterPosts w
           (retrySchedule
              (UpdateColumnValue itemId columnId (Js.stringOf numberToString value)
                 (boardOrDefault DEFAULT_BOARD_ID boardId)) c k) (S k).
Proof.
  destruct (retry_run_exists
              (UpdateColumnValue itemId columnId (Js.stringOf numberToString value)
                 (boardOrDefault DEFAULT_BOARD_ID boardId))
              ("Update column " +:+ columnId +:+ " for item " +:+ itemId) c w budget)
    as (k & Hk & _ & _ & Hrun).
  exists k. split; [exact Hk|].
  cbn [MondayApi.updateColumnValue service]. unfold updateColumnValue, bind. rewrite Hrun.
  destruct (settle (net w (posts w + k))) as [r|e]; [|reflexivity].
  destruct (hasErrors r); [reflexivity|].
  destruct (MondayApiResponse.data r) as [d|]; reflexivity.
Qed.

End BoardTraffic.

(** X23. What a successful recalculation sends to the board: first the
    read of the input column of the item (attempted [k1 + 1] times), then the
    write of [String(resultValue)] into the result column with the default
    board id (attempted [k2 + 1] times), each following the backoff schedule,
    and nothing else. *)
Theorem successful_recalculation_traffic :
  forall (parseFloat : string -> float) (numberToString : float -> string)
         (DEFAULT_BOARD_ID : option string) (c : RetryConfig.t)
         (inputColumnId resultColumnId itemId : string) (triggeredBy : TriggerType)
         (w w' : World) (r : CalculationResult.t),
    0 <= RetryConfig.maxRetries c ->
    CalculationApi.calculateAndUpdateResult
      (CalculationService.service parseFloat numberToString DEFAULT_BOARD_ID
         (MondayApiService.service numberToString DEFAULT_BOARD_ID c)
         inputColumnId resultColumnId) itemId triggeredBy w = (Ok r, w') ->
    CalculationResult.success r = true ->
    exists k1 k2 : nat,
      Z.of_nat k1 <= RetryConfig.maxRetries c
      /\ Z.of_nat k2 <= RetryConfig.maxRetries c
      /\ trace w'
         = trace w
           ++ Spec.retrySchedule (GetColumnValue itemId inputColumnId) c k1
           ++ Spec.retrySchedule
                (UpdateColumnValue itemId resultColumnId
                   (numberToString (CalculationResult.resultValue r))
                   (MondayApiService.boardOrDefault DEFAULT_BOARD_ID DEFAULT_BOARD_ID))
                c k2
      /\ posts w' = (posts w + S k1 + S k2)%nat.
Proof.
  intros pf nts board c inCol outCol itemId trig w w' r Hmax Hrun Hs.
  destruct (calculate_success_inv pf nts board _ inCol outCol itemId trig w w' r Hrun Hs)
    as (factor & text & w2 & w3 & E0 & Ef & Hget & Hnan & Hupd & -> & ->).
  destruct (getColumnValue_traffic nts board c Hmax itemId inCol (countStoreOp w))
    as (k1 & Hk1 & T1).
  rewrite Hget in T1. cbn [snd] in T1.
  destruct (updateColumnValue_traffic nts board c Hmax itemId outCol
              (Js.Num (PrimFloat.mul (pf text) factor)) board w2) as (k2 & Hk2 & T2).
  rewrite Hupd in T2. cbn [snd] in T2.
  exists k1, k2. split; [exact Hk1|]. split; [exact Hk2|].
  rewrite logCalculation_run. cbn [snd CalculationResult.resultValue].
  subst w3 w2.
  simpl. destruct (storeFault w (S (storeOps w))); simpl;
    rewrite <- !app_assoc; split; reflexivity.
Qed.

(** Witness for X23: the README's scenario posts the read and the write "25". *)
Lemma successful_recalculation_traffic_witness :
  exists k1 k2 : nat,
    Z.of_nat k1 <= 3
    /\ Z.of_nat k2 <= 3
    /\ trace (snd (CalculationApi.calculateAndUpdateResult Sample.calculationService
                     "123" api
                     (Sample.world {[ "123" := 2.5%float ]} (Sample.readThenWrite "10")
                        Sample.noFault)))
       = []
         ++ Spec.retrySchedule (GetColumnValue "123" "numbers")
              MondayApiService.defaultRetryConfig k1
         ++ Spec.retrySchedule (UpdateColumnValue "123" "result" "25" (Some "1001"))
              MondayApiService.defaultRetryConfig k2
    /\ posts (snd (CalculationApi.calculateAndUpdateResult Sample.calculationService
                     "123" api
                     (Sample.world {[ "123" := 2.5%float ]} (Sample.readThenWrite "10")
                        Sample.noFault)))
       = (0 + S k1 + S k2)%nat.
Proof.
  refine (successful_recalculation_traffic
            Sample.parseFloat Sample.numberToString (Some "1001")
            MondayApiService.defaultRetryConfig "numbers" "result" "123" api
            (Sample.world {[ "123" := 2.5%float ]} (Sample.readThenWrite "10") Sample.noFault)
            (snd (CalculationApi.calculateAndUpdateResult Sample.calculationService "123" api
                    (Sample.world {[ "123" := 2.5%float ]} (Sample.readThenWrite "10")
                       Sample.noFault)))
            {| CalculationResult.inputValue := 10%float;
               CalculationResult.factor := 2.5%float;
               CalculationResult.resultValue := 25%float;
               CalculationResult.success := true |}
            _ _ _); try reflexivity.
  simpl. lia.
Defined.
